(** * Ferri: target classification and idempotent ingestion

    A shallow embedding of the Go program [ferri] (main.go, processors/,
    utils/, database/) together with the properties its specification
    states about it.

    Go strings are byte sequences; they are modelled by [string], whose
    characters ([ascii]) are exactly the 256 byte values.  Integers that
    hold row identifiers and counters are modelled by [Z]: the values the
    program manipulates are bounded by the number of rows of the store and
    by the number of input lines, far from the 64-bit limits of [int]. *)

From Stdlib Require Import String Ascii List ZArith Bool Lia.
From Stdlib Require Import Sorted Permutation.
Import ListNotations.

Local Open Scope string_scope.
Local Open Scope Z_scope.

(** ** The fragments of package [strings] the program uses *)

Module GoStrings.

(** [strings.HasPrefix(s, prefix)]. *)
Fixpoint HasPrefix (s prefix : string) {struct prefix} : bool :=
  match prefix, s with
  | EmptyString, _ => true
  | String _ _, EmptyString => false
  | String a prefix', String b s' =>
      if Ascii.eqb a b then HasPrefix s' prefix' else false
  end.

(** [s[n:]] for [n <= len(s)]. *)
Fixpoint drop (n : nat) (s : string) : string :=
  match n, s with
  | O, _ => s
  | S _, EmptyString => EmptyString
  | S n', String _ s' => drop n' s'
  end.

(** [strings.TrimPrefix(s, prefix)]: [s] without the leading [prefix], or
    [s] itself when it does not start with [prefix]. *)
Definition TrimPrefix (s prefix : string) : string :=
  if HasPrefix s prefix then drop (String.length prefix) s else s.

(** [strings.Contains(s, substr)], that is [strings.Index(s, substr) >= 0]:
    [substr] starts at some byte offset of [s]. *)
Fixpoint Contains (s substr : string) : bool :=
  HasPrefix s substr ||
  match s with
  | EmptyString => false
  | String _ s' => Contains s' substr
  end.

(** [strings.Count(s, substr)] when [substr] is the single byte [c]
    (the library then counts the bytes of [s] equal to [c]). *)
Fixpoint Count (s : string) (c : ascii) : Z :=
  match s with
  | EmptyString => 0
  | String a s' => (if Ascii.eqb a c then 1 else 0) + Count s' c
  end.

(** [strings.Split(s, sep)] when [sep] is the single byte [c]: the pieces of
    [s] between the occurrences of [c]; never the empty list. *)
Fixpoint Split (s : string) (c : ascii) : list string :=
  match s with
  | EmptyString => [EmptyString]
  | String a s' =>
      if Ascii.eqb a c then EmptyString :: Split s' c
      else match Split s' c with
           | [] => [String a EmptyString]
           | p :: ps => String a p :: ps
           end
  end.

End GoStrings.

Import GoStrings.

(** ** Target classifier

    processors/target_processor.go, [GetOrCreateTarget], the [switch] that
    determines [targetType] (the same text is in ferri.go,
    [getOrCreateTarget]).  The cases are tried from top to bottom. *)

Definition ClassifyTarget (targetURL : string) : string :=
  if (Count targetURL "." =? 1) && negb (Contains targetURL "/")
     && negb (Contains targetURL ":") then "domain"
  else if (Count targetURL "." >? 1) && negb (Contains targetURL "/")
     && negb (Contains targetURL ":") then "subdomain"
  else if Contains targetURL "://" then "url"
  else if Contains targetURL ":" then "ip_port"
  else "unknown".

(** ** The two regular expressions of the program

    Go's [regexp] works on the UTF-8 decoding of its input, where an invalid
    byte decodes to a one-byte error rune.  Both expressions are built from
    ASCII literals and the class [[^/]]; a multi-byte character never has a
    byte equal to the slash, so [[^/]+] takes the longest run of bytes other
    than the slash.  Under [(?i)] the letters [h], [t] and [p] match their
    two ASCII cases, and [s] matches [s], [S] and the long s (U+017F, bytes
    C5 BF), its third case-folding variant. *)

Module Regexp.

Definition fold_eq (lower upper a : ascii) : bool :=
  Ascii.eqb a lower || Ascii.eqb a upper.

(** The ways [(?i)s] can match at the start of a string: what is left. *)
Definition after_s (r : string) : option string :=
  match r with
  | String a r1 =>
      if fold_eq "s" "S" a then Some r1
      else match r1 with
           | String b r2 =>
               if (Nat.eqb (nat_of_ascii a) 197 && Nat.eqb (nat_of_ascii b) 191)%bool
               then Some r2 else None
           | EmptyString => None
           end
  | EmptyString => None
  end.

Definition after_colon_slashes (r : string) : option string :=
  if HasPrefix r "://" then Some (drop 3 r) else None.

(** [(?i)https?://] matched at the start of [s]: the text after the match.
    The optional [s] is greedy: it is tried first, then left out. *)
Definition match_scheme (s : string) : option string :=
  match s with
  | String h (String t1 (String t2 (String p r))) =>
      if (fold_eq "h" "H" h && fold_eq "t" "T" t1 && fold_eq "t" "T" t2
          && fold_eq "p" "P" p)%bool
      then match after_s r with
           | Some r' =>
               match after_colon_slashes r' with
               | Some rest => Some rest
               | None => after_colon_slashes r
               end
           | None => after_colon_slashes r
           end
      else None
  | _ => None
  end.

(** The longest prefix of [s] without a slash: what [[^/]+] or [[^/]*]
    takes, being greedy. *)
Fixpoint non_slash_run (s : string) : string :=
  match s with
  | EmptyString => EmptyString
  | String a s' =>
      if Ascii.eqb a "/" then EmptyString else String a (non_slash_run s')
  end.

(** [[^/]+] at the start of [s]. *)
Definition match_host (s : string) : option string :=
  match non_slash_run s with
  | EmptyString => None
  | h => Some h
  end.

(** [regexp.MustCompile(`(?i)^(https?://)?([^/]+)`).FindStringSubmatch(input)]:
    [None] for the nil slice of a failed match, otherwise the three
    entries of the result.  The optional group is tried first; when the
    rest of the expression fails after it, the group is left empty. *)
Definition find_anchored (input : string) : option (list string) :=
  let without_scheme :=
    match match_host input with
    | Some h => Some [h; EmptyString; h]
    | None => None
    end in
  match match_scheme input with
  | Some rest =>
      match match_host rest with
      | Some h =>
          let scheme :=
            substring 0 (String.length input - String.length rest) input in
          Some [scheme ++ h; scheme; h]
      | None => without_scheme
      end
  | None => without_scheme
  end.

(** [regexp.MustCompile(`(?i)https?://([^/]+)`).FindStringSubmatch(s)]:
    the leftmost offset at which the expression matches. *)
Fixpoint find_url (s : string) : option (list string) :=
  let here :=
    match match_scheme s with
    | Some rest =>
        match match_host rest with
        | Some h =>
            let scheme :=
              substring 0 (String.length s - String.length rest) s in
            Some [scheme ++ h; h]
        | None => None
        end
    | None => None
    end in
  match here with
  | Some m => Some m
  | None =>
      match s with
      | EmptyString => None
      | String _ s' => find_url s'
      end
  end.

End Regexp.

(** ** Identity extractor

    processors/target_processor.go, [ExtractDomain] (and ferri.go,
    [extractDomain]): the five [strings.TrimPrefix] calls run one after the
    other, each on the result of the previous one. *)

(** Lines 76-80. *)
Definition strip_conventional (domain : string) : string :=
  let domain := TrimPrefix domain "www." in
  let domain := TrimPrefix domain "api." in
  let domain := TrimPrefix domain "app." in
  let domain := TrimPrefix domain "dev." in
  let domain := TrimPrefix domain "test." in
  domain.

(** Lines 83-88. *)
Definition first_label (domain : string) : string :=
  let parts := Split domain "." in
  if (2 <=? Z.of_nat (List.length parts)) then hd EmptyString parts
  else domain.

Definition ExtractDomain (input : string) : string :=
  match Regexp.find_anchored input with
  | Some (_ :: _ :: m2 :: _) => first_label (strip_conventional m2)
  | _ => input
  end.

(** main.go, lines 78-88: the string handed to [GetOrCreateProgram]. *)
Definition program_domain (firstTarget : string) : string :=
  if Contains firstTarget "://" then
    match Regexp.find_url firstTarget with
    | Some (_ :: m1 :: _) => m1
    | _ => firstTarget
    end
  else firstTarget.

(** processors/target_processor.go, [GetOrCreateProgram], line 101:
    [fmt.Sprintf("*.%s", strings.TrimPrefix(domain, "www."))]. *)
Definition program_scope (domain : string) : string :=
  "*." ++ TrimPrefix domain "www.".

(** ** [strings.TrimSpace]

    The characters [unicode.IsSpace] accepts, as the bytes of their UTF-8
    encodings: the six ASCII ones, U+0085 and U+00A0 (two bytes), and
    U+1680, U+2000..U+200A, U+2028, U+2029, U+202F, U+205F, U+3000 (three
    bytes).  A leading (trailing) white space character is removed as long
    as there is one. *)

Module Space.

Definition byte (a : ascii) : nat := nat_of_ascii a.

Definition ascii_space (a : ascii) : bool :=
  let n := byte a in ((9 <=? n) && (n <=? 13) || (n =? 32))%nat.

Definition space2 (a b : ascii) : bool :=
  ((byte a =? 194) && ((byte b =? 133) || (byte b =? 160)))%nat.

Definition space3 (a b c : ascii) : bool :=
  let x := byte a in let y := byte b in let z := byte c in
  ((x =? 225) && (y =? 154) && (z =? 128)
   || (x =? 226) && (y =? 128)
      && ((128 <=? z) && (z <=? 138) || (z =? 168) || (z =? 169) || (z =? 175))
   || (x =? 226) && (y =? 129) && (z =? 159)
   || (x =? 227) && (y =? 128) && (z =? 128))%nat.

(** [strings.TrimLeftFunc(s, unicode.IsSpace)]. *)
Fixpoint TrimLeft (s : string) : string :=
  match s with
  | EmptyString => EmptyString
  | String a r1 =>
      if ascii_space a then TrimLeft r1
      else match r1 with
           | EmptyString => s
           | String b r2 =>
               if space2 a b then TrimLeft r2
               else match r2 with
                    | EmptyString => s
                    | String c r3 => if space3 a b c then TrimLeft r3 else s
                    end
           end
  end.

Fixpoint rev (s : string) : string :=
  match s with
  | EmptyString => EmptyString
  | String a s' => rev s' ++ String a EmptyString
  end.

(** The same from the end, on the reversed string: the last byte comes
    first. *)
Fixpoint TrimLeftRev (s : string) : string :=
  match s with
  | EmptyString => EmptyString
  | String a r1 =>
      if ascii_space a then TrimLeftRev r1
      else match r1 with
           | EmptyString => s
           | String b r2 =>
               if space2 b a then TrimLeftRev r2
               else match r2 with
                    | EmptyString => s
                    | String c r3 =>
                        if space3 c b a then TrimLeftRev r3 else s
                    end
           end
  end.

(** [strings.TrimRightFunc(s, unicode.IsSpace)]. *)
Definition TrimRight (s : string) : string := rev (TrimLeftRev (rev s)).

Definition TrimSpace (s : string) : string := TrimRight (TrimLeft s).

End Space.

(** ** Relational store

    database/schema.go: the tables [programs], [targets] and [recon_data]
    with their columns.  A nullable column is an [option]; rows are kept in
    insertion order.  [AUTOINCREMENT] keys come from one counter per
    table. *)

Module Store.

Record ProgramRow := mkProgramRow {
  p_id : Z;
  p_name : string;
  p_url : option string;
  p_scope : option string;
  p_out_of_scope : option string;
  p_bounty_notes : option string;
  p_created_at : Z
}.

Record TargetRow := mkTargetRow {
  t_id : Z;
  t_program_id : Z;
  t_target : string;
  t_type : option string;
  t_source : option string;
  t_alive : bool;
  t_last_checked : option Z;
  t_tested : bool;
  t_tested_date : option Z;
  t_test_notes : option string;
  t_notes : option string;
  t_created_at : Z
}.

Record ReconRow := mkReconRow {
  r_id : Z;
  r_target_id : Z;
  r_tool : string;
  r_data : string;
  r_context : option string;
  r_timestamp : Z
}.

Record DB := mkDB {
  programs : list ProgramRow;
  targets : list TargetRow;
  recon_data : list ReconRow;
  seq_programs : Z;
  seq_targets : Z;
  seq_recon_data : Z
}.

Definition empty_db : DB := mkDB [] [] [] 0 0 0.

Inductive SqlError :=
| ErrNoRows        (* sql.ErrNoRows *)
| ErrConstraint    (* a UNIQUE constraint failed *)
| ErrIO.           (* any other failure of the driver or of the file *)

Definition program_named (name : string) (r : ProgramRow) : bool :=
  String.eqb (p_name r) name.

Definition target_keyed (target : string) (program_id : Z) (r : TargetRow)
  : bool :=
  String.eqb (t_target r) target && (t_program_id r =? program_id).

(** [SELECT id FROM programs WHERE name = ?], scanned into one [int]. *)
Definition select_program_id (name : string) (d : DB) : SqlError + Z :=
  match find (program_named name) (programs d) with
  | Some r => inr (p_id r)
  | None => inl ErrNoRows
  end.

(** [INSERT INTO programs (name, scope) VALUES (?, ?)]; the result is
    [LastInsertId]. *)
Definition insert_program (name scope : string) (now : Z) (d : DB)
  : SqlError + (Z * DB) :=
  if existsb (program_named name) (programs d) then inl ErrConstraint
  else
    let id := seq_programs d + 1 in
    let row := mkProgramRow id name None (Some scope) None None now in
    inr (id, mkDB (programs d ++ [row]) (targets d) (recon_data d)
                  id (seq_targets d) (seq_recon_data d)).

(** [SELECT id FROM targets WHERE target = ? AND program_id = ?]. *)
Definition select_target_id (target : string) (program_id : Z) (d : DB)
  : SqlError + Z :=
  match find (target_keyed target program_id) (targets d) with
  | Some r => inr (t_id r)
  | None => inl ErrNoRows
  end.

(** [INSERT INTO targets (program_id, target, type, source, last_checked)
    VALUES (?, ?, ?, ?, ?)]; [alive] and [tested] take their default 0. *)
Definition insert_target (program_id : Z) (target type source : string)
  (last_checked now : Z) (d : DB) : SqlError + (Z * DB) :=
  if existsb (target_keyed target program_id) (targets d)
  then inl ErrConstraint
  else
    let id := seq_targets d + 1 in
    let row := mkTargetRow id program_id target (Some type) (Some source)
                 false (Some last_checked) false None None None now in
    inr (id, mkDB (programs d) (targets d ++ [row]) (recon_data d)
                  (seq_programs d) id (seq_recon_data d)).

(** [INSERT INTO recon_data (target_id, tool, data, context, timestamp)
    VALUES (?, ?, ?, ?, ?)].  SQLite does not check the foreign key unless
    asked to, and the program does not ask. *)
Definition insert_recon_data (target_id : Z) (tool data context : string)
  (timestamp : Z) (d : DB) : SqlError + (Z * DB) :=
  let id := seq_recon_data d + 1 in
  let row := mkReconRow id target_id tool data (Some context) timestamp in
  inr (id, mkDB (programs d) (targets d) (recon_data d ++ [row])
                (seq_programs d) (seq_targets d) id).

End Store.

Import Store.

(** ** The process and its surroundings *)

(** What may happen at a statement sent to the store: nothing special, a
    failure of the driver, or another invocation of the program committing
    an insert of its own just before the statement runs.  Competing
    inserts are modelled for the two tables that carry a [UNIQUE]
    constraint. *)
Inductive Event :=
| Quiet
| IOFailure
| OtherProgram (name scope : string)
| OtherTarget (program_id : Z) (target type source : string).

(** Errors as the processors wrap them with [fmt.Errorf]. *)
Inductive Error :=
| FailedQueryTarget (e : SqlError)     (* "failed to query target: %v" *)
| FailedCreateTarget (e : SqlError)    (* "failed to create target: %v" *)
| FailedQueryProgram (e : SqlError)    (* "failed to query program: %v" *)
| FailedCreateProgram (e : SqlError)   (* "failed to create program: %v" *)
| FailedInsertRecon (e : SqlError)     (* "failed to insert recon data: %v" *)
| FailedEnsure                         (* any error of EnsureDBExists *)
| FailedInit.                          (* any error of InitDB *)

(** The lines written to standard output and, through [log], to standard
    error, in the order they are written. *)
Inductive Msg :=
| MsgNoInput
| MsgEnsuring (dbPath : string)
| MsgDbNotFound (dbPath : string)
| MsgInitSchema
| MsgDbCreated
| MsgDbReady
| MsgUsageEcho
| MsgUsageSubfinder
| MsgTool (toolName : string)
| MsgDatabase (dbPath : string)
| MsgReading
| MsgNoValidTargets
| MsgFound (n : Z)
| MsgExtracted (domain : string)
| MsgCreatedProgram (orgName : string) (id : Z)
| MsgUsingProgram (orgName : string) (id : Z)
| LogTargetError (target : string) (err : Error)
| LogReconError (target : string) (err : Error)
| MsgOk (target : string)
| MsgCompleted (processedCount total programID : Z)
| MsgNext
| MsgNoneProcessed
| LogFatal (err : Error).

(** ** Package database: creating the file and its schema

    database/schema.go, [InitSchema], and database/database.go,
    [EnsureDBExists], step by step.  Whether a call to the operating system
    or to the driver fails is for the environment to say. *)

Module Bootstrap.

(** The text of the variable [schema], between its back quotes. *)
Definition schema : string := "
	CREATE TABLE IF NOT EXISTS programs (
		id INTEGER PRIMARY KEY AUTOINCREMENT,
		name TEXT NOT NULL UNIQUE,
		url TEXT,
		scope TEXT,
		out_of_scope TEXT,
		bounty_notes TEXT,
		created_at DATETIME DEFAULT CURRENT_TIMESTAMP
	);

	CREATE TABLE IF NOT EXISTS targets (
		id INTEGER PRIMARY KEY AUTOINCREMENT,
		program_id INTEGER NOT NULL,
		target TEXT NOT NULL,
		type TEXT,
		source TEXT,
		alive BOOLEAN DEFAULT 0,
		last_checked DATETIME,
		tested BOOLEAN DEFAULT 0,
		tested_date DATETIME,
		test_notes TEXT,
		notes TEXT,
		created_at DATETIME DEFAULT CURRENT_TIMESTAMP,
		FOREIGN KEY (program_id) REFERENCES programs (id),
		UNIQUE(program_id, target)
	);

	CREATE TABLE IF NOT EXISTS recon_data (
		id INTEGER PRIMARY KEY AUTOINCREMENT,
		target_id INTEGER NOT NULL,
		tool TEXT NOT NULL,
		data TEXT NOT NULL,
		context TEXT,
		timestamp DATETIME DEFAULT CURRENT_TIMESTAMP,
		FOREIGN KEY (target_id) REFERENCES targets (id)
	);

	CREATE TABLE IF NOT EXISTS findings (
		id INTEGER PRIMARY KEY AUTOINCREMENT,
		target_id INTEGER NOT NULL,
		title TEXT NOT NULL,
		type TEXT,
		severity TEXT,
		description TEXT,
		proof_of_concept TEXT,
		status TEXT DEFAULT 'Open',
		reported_date DATETIME,
		report_id TEXT,
		notes TEXT,
		created_at DATETIME DEFAULT CURRENT_TIMESTAMP,
		FOREIGN KEY (target_id) REFERENCES targets (id)
	);

	CREATE INDEX IF NOT EXISTS idx_targets_program ON targets(program_id);
	CREATE INDEX IF NOT EXISTS idx_targets_alive ON targets(alive);
	CREATE INDEX IF NOT EXISTS idx_recon_data_target ON recon_data(target_id);
	".

(** The calls that can fail. *)
Inductive Step :=
| MkdirAll
| Stat
| Create
| Open
| Ping
| Exec (stmt : string).

(** The errors of [EnsureDBExists], by their messages. *)
Inductive Failure :=
| FailedDirectory          (* "failed to create directory %s: %v" *)
| FailedCreateFile         (* "failed to create database file: %v" *)
| FailedOpen               (* "failed to open database: %v" *)
| FailedPing               (* "database ping failed: %v" *)
| FailedSchema (stmt : string).
                           (* "failed to initialize schema: failed to
                              execute statement '%s': %v" *)

(** The file at the database path: absent, or holding the tables and
    indexes that the statements executed on it created, in that order. *)
Definition File := option (list string).

(** [CREATE ... IF NOT EXISTS]: nothing happens when the object is
    there. *)
Definition create_if_not_exists (stmt : string) (objects : list string)
  : list string :=
  if existsb (String.eqb stmt) objects then objects
  else (objects ++ [stmt])%list.

(** The loop of [InitSchema] over the pieces of the schema: the result is
    the statement that failed, if one did, and the objects of the file. *)
Fixpoint run_statements (fails : Step -> bool) (statements : list string)
  (objects : list string) : option string * list string :=
  match statements with
  | [] => (None, objects)
  | piece :: rest =>
      let stmt := Space.TrimSpace piece in
      if String.eqb stmt "" then run_statements fails rest objects
      else if fails (Exec stmt) then (Some stmt, objects)
      else run_statements fails rest (create_if_not_exists stmt objects)
  end.

Definition InitSchema (fails : Step -> bool) (objects : list string)
  : option string * list string :=
  run_statements fails (GoStrings.Split schema ";") objects.

(** [os.Stat] returns no error only for a file that is there. *)
Definition stat_ok (fails : Step -> bool) (file : File) : bool :=
  match file with
  | Some _ => negb (fails Stat)
  | None => false
  end.

(** [EnsureDBExists], for the path [dbPath] as [expandPath] returns it:
    the error, the file afterwards and the lines printed.  [os.Create]
    leaves an empty file, whether or not one was there. *)
Definition EnsureDBExists (fails : Step -> bool) (dbPath : string)
  (file : File) : option Failure * File * list Msg :=
  if fails MkdirAll then (Some FailedDirectory, file, [])
  else if stat_ok fails file then (None, file, [])
  else
    let out := [MsgDbNotFound dbPath] in
    if fails Create then (Some FailedCreateFile, file, out)
    else
      let file := Some [] in
      if fails Open then (Some FailedOpen, file, out)
      else if fails Ping then (Some FailedPing, file, out)
      else
        let out := (out ++ [MsgInitSchema])%list in
        match InitSchema fails [] with
        | (Some stmt, objects) =>
            (Some (FailedSchema stmt), Some objects, out)
        | (None, objects) =>
            (None, Some objects, (out ++ [MsgDbCreated])%list)
        end.

End Bootstrap.

(** ** The world of the process *)

Record World := mkWorld {
  stdin_mode : Z;             (* os.Stdin.Stat().Mode(), a 32-bit mask *)
  stdin : list string;        (* the lines bufio.Scanner will deliver *)
  db_path : string;           (* what utils.ExpandPath returns for
                                 "~/bugbounty/db/bounty.db"; the function
                                 is not among the sources *)
  file : Bootstrap.File;      (* the database file: whether it is there,
                                 and the tables and indexes it has *)
  fails : Bootstrap.Step -> bool;
                              (* the calls of EnsureDBExists that fail *)
  open_fault : bool;          (* InitDB will report an error *)
  db : DB;                    (* the tables of the database file *)
  clock : Z;                  (* wall clock *)
  pending : list Event;       (* what happens at the coming statements *)
  out : list Msg              (* what has been written so far *)
}.

Definition set_db (d : DB) (w : World) : World :=
  mkWorld (stdin_mode w) (stdin w) (db_path w) (file w) (fails w)
          (open_fault w) d (clock w) (pending w) (out w).

Definition set_out (o : list Msg) (w : World) : World :=
  mkWorld (stdin_mode w) (stdin w) (db_path w) (file w) (fails w)
          (open_fault w) (db w) (clock w) (pending w) o.

Definition set_clock (c : Z) (w : World) : World :=
  mkWorld (stdin_mode w) (stdin w) (db_path w) (file w) (fails w)
          (open_fault w) (db w) c (pending w) (out w).

Definition set_pending (p : list Event) (w : World) : World :=
  mkWorld (stdin_mode w) (stdin w) (db_path w) (file w) (fails w)
          (open_fault w) (db w) (clock w) p (out w).

Definition set_stdin (l : list string) (w : World) : World :=
  mkWorld (stdin_mode w) l (db_path w) (file w) (fails w)
          (open_fault w) (db w) (clock w) (pending w) (out w).

Definition set_file (f : Bootstrap.File) (w : World) : World :=
  mkWorld (stdin_mode w) (stdin w) (db_path w) f (fails w)
          (open_fault w) (db w) (clock w) (pending w) (out w).


(** The database file is there. *)
Definition db_exists (w : World) : bool :=
  match file w with
  | Some _ => true
  | None => false
  end.

(** The calls of [EnsureDBExists] that fail in this world.  [os.Stat] is
    called on a path whose directory [os.MkdirAll] has just found or made:
    on a file that is there it fails only when the directory cannot be
    searched, and then [os.Create] fails as well. *)
Definition calls (w : World) : Bootstrap.Step -> bool :=
  fun step =>
    match step with
    | Bootstrap.Create =>
        fails w Bootstrap.Create || (fails w Bootstrap.Stat && db_exists w)
    | _ => fails w step
    end.

(** [EnsureDBExists] will report an error. *)
Definition ensure_fault (w : World) : bool :=
  match fst (fst (Bootstrap.EnsureDBExists (calls w) (db_path w) (file w)))
  with
  | Some _ => true
  | None => false
  end.

(** A computation of the process: it reads and changes the world. *)
Definition Prog (A : Type) : Type := World -> A * World.

Definition ret {A} (a : A) : Prog A := fun w => (a, w).

Definition bind {A B} (m : Prog A) (k : A -> Prog B) : Prog B :=
  fun w => let (a, w') := m w in k a w'.

Declare Scope prog_scope.
Delimit Scope prog_scope with prog.
Notation "x <- m ;; k" := (bind m (fun x => k))
  (at level 61, m at next level, right associativity) : prog_scope.
Notation "m ;; k" := (bind m (fun _ => k))
  (at level 61, right associativity) : prog_scope.
Local Open Scope prog_scope.

(** [fmt.Printf], [fmt.Println], [log.Printf]. *)
Definition print (m : Msg) : Prog unit :=
  fun w => (tt, set_out (out w ++ [m]) w).

(** [time.Now()]. *)
Definition time_Now : Prog Z :=
  fun w => (clock w, set_clock (clock w + 1) w).

(** The insert another invocation commits; it is subject to the same
    constraints, and its own failure is its own business. *)
Definition interfere (e : Event) (now : Z) (d : DB) : DB :=
  match e with
  | OtherProgram name scope =>
      match insert_program name scope now d with
      | inr (_, d') => d'
      | inl _ => d
      end
  | OtherTarget program_id target type source =>
      match insert_target program_id target type source now now d with
      | inr (_, d') => d'
      | inl _ => d
      end
  | _ => d
  end.

(** A statement reaches the store: the next event is consumed; on a failure
    of the driver the statement does not run ([false]), otherwise a
    competing insert, if any, is committed first and the clock moves on. *)
Definition arrive : Prog bool :=
  fun w =>
    let e := hd Quiet (pending w) in
    let w := set_pending (tl (pending w)) w in
    match e with
    | IOFailure => (false, w)
    | _ =>
        (true,
         set_clock (clock w + 1) (set_db (interfere e (clock w) (db w)) w))
    end.

(** [db.QueryRow(...).Scan(&id)] for a statement that reads. *)
Definition query {A} (stmt : DB -> SqlError + A) : Prog (SqlError + A) :=
  ok <- arrive ;;
  if ok then fun w => (stmt (db w), w) else ret (inl ErrIO).

(** [db.Exec(...)] followed by [LastInsertId] for a statement that
    inserts; [stmt] is given the time of the store for [created_at]. *)
Definition exec (stmt : Z -> DB -> SqlError + (Z * DB)) : Prog (SqlError + Z) :=
  ok <- arrive ;;
  if ok then
    fun w =>
      match stmt (clock w) (db w) with
      | inl err => (inl err, w)
      | inr (id, d') => (inr id, set_db d' w)
      end
  else ret (inl ErrIO).

(** ** Processors *)

(** processors/target_processor.go, [GetOrCreateTarget].  The driver's
    [LastInsertId] does not fail after a successful insert. *)
Definition GetOrCreateTarget (targetURL toolName : string) (programID : Z)
  : Prog (Error + Z) :=
  let targetType := ClassifyTarget targetURL in
  r <- query (select_target_id targetURL programID) ;;
  match r with
  | inl ErrNoRows =>
      now <- time_Now ;;
      r' <- exec (insert_target programID targetURL targetType toolName now) ;;
      match r' with
      | inl err => ret (inl (FailedCreateTarget err))
      | inr id => ret (inr id)
      end
  | inl err => ret (inl (FailedQueryTarget err))
  | inr targetID => ret (inr targetID)
  end.

(** processors/target_processor.go, [GetOrCreateProgram]. *)
Definition GetOrCreateProgram (domain : string) : Prog (Error + Z) :=
  let orgName := ExtractDomain domain in
  r <- query (select_program_id orgName) ;;
  match r with
  | inl ErrNoRows =>
      let scope := program_scope domain in
      r' <- exec (insert_program orgName scope) ;;
      match r' with
      | inl err => ret (inl (FailedCreateProgram err))
      | inr id =>
          print (MsgCreatedProgram orgName id) ;;
          ret (inr id)
      end
  | inl err => ret (inl (FailedQueryProgram err))
  | inr programID =>
      print (MsgUsingProgram orgName programID) ;;
      ret (inr programID)
  end.

(** processors/recon_processor.go, [AddReconData]: [None] is the nil
    error. *)
Definition AddReconData (targetID : Z) (tool data context : string)
  : Prog (option Error) :=
  now <- time_Now ;;
  r <- exec (fun _ => insert_recon_data targetID tool data context now) ;;
  match r with
  | inl err => ret (Some (FailedInsertRecon err))
  | inr _ => ret None
  end.

(** ** Collaborators of [main] *)

(** utils, [HasStdinData]: [(stat.Mode() & os.ModeCharDevice) == 0], where
    [os.ModeCharDevice] is bit 21 of the mode. *)
Definition ModeCharDevice : Z := Z.shiftl 1 21.

Definition HasStdinData : Prog bool :=
  fun w => (Z.land (stdin_mode w) ModeCharDevice =? 0, w).

(** utils/detection.go, [DetectTool]. *)
Definition DetectTool : string := "pipeline_auto".

(** database/database.go, [EnsureDBExists], as [main] calls it: the steps
    of [Bootstrap.EnsureDBExists] on the file of the world, its lines
    printed, its error wrapped.  The rows of the tables are not touched:
    a file that is there is left as it is.  Whether the statements sent
    afterwards find their tables is for [pending] to say: a statement on a
    table that is missing fails in the driver. *)
Definition EnsureDBExists : Prog (option Error) :=
  fun w =>
    match Bootstrap.EnsureDBExists (calls w) (db_path w) (file w) with
    | (err, file', printed) =>
        (match err with
         | Some _ => Some FailedEnsure
         | None => None
         end,
         set_file file' (set_out (out w ++ printed) w))
    end.

(** database/database.go, [InitDB]: open and ping. *)
Definition InitDB : Prog (option Error) :=
  fun w => if open_fault w then (Some FailedInit, w) else (None, w).

(** main.go, lines 54-68: the scanner loop.  [targets] and [firstTarget]
    are the variables of the same names. *)
Fixpoint scan_lines (lines targets : list string) (firstTarget : string)
  : list string * string :=
  match lines with
  | [] => (targets, firstTarget)
  | text :: lines' =>
      let line := Space.TrimSpace text in
      if String.eqb line "" then scan_lines lines' targets firstTarget
      else scan_lines lines' (targets ++ [line])
             (if String.eqb firstTarget "" then line else firstTarget)
  end.

Definition read_stdin : Prog (list string * string) :=
  fun w => (scan_lines (stdin w) [] "", set_stdin [] w).

(** ** The ingestion pipeline *)

(** main.go, lines 99-115: the loop over [targets]; the result is
    [processedCount] after the loop. *)
Fixpoint process_targets (targets : list string) (toolName : string)
  (programID processedCount : Z) : Prog Z :=
  match targets with
  | [] => ret processedCount
  | target :: rest =>
      r <- GetOrCreateTarget target toolName programID ;;
      match r with
      | inl err =>
          print (LogTargetError target err) ;;
          process_targets rest toolName programID processedCount
      | inr targetID =>
          e <- AddReconData targetID toolName target
                 ("Discovered via " ++ toolName) ;;
          match e with
          | Some err =>
              print (LogReconError target err) ;;
              process_targets rest toolName programID processedCount
          | None =>
              print (MsgOk target) ;;
              process_targets rest toolName programID (processedCount + 1)
          end
      end
  end.

(** main.go, lines 75-125: from the moment [targets] is known to be
    non-empty to the end of [main]; the result is the exit status. *)
Definition ingest (targets : list string) (firstTarget toolName : string)
  : Prog Z :=
  print (MsgFound (Z.of_nat (List.length targets))) ;;
  let domain := program_domain firstTarget in
  print (MsgExtracted domain) ;;
  r <- GetOrCreateProgram domain ;;
  match r with
  | inl err => print (LogFatal err) ;; ret 1
  | inr programID =>
      processedCount <- process_targets targets toolName programID 0 ;;
      print (MsgCompleted processedCount (Z.of_nat (List.length targets))
               programID) ;;
      if processedCount >? 0 then print MsgNext ;; ret 0
      else print MsgNoneProcessed ;; ret 1
  end.

(** main.go, [main]; the result is the exit status of the process
    ([os.Exit], [log.Fatalf], or 0 when [main] returns). *)
Definition main : Prog Z :=
  fun w0 =>
  let dbPath := db_path w0 in
  (piped <- HasStdinData ;;
   if negb piped then
     print MsgNoInput ;;
     print (MsgEnsuring dbPath) ;;
     e <- EnsureDBExists ;;
     match e with
     | Some err => print (LogFatal err) ;; ret 1
     | None =>
         print MsgDbReady ;;
         print MsgUsageEcho ;;
         print MsgUsageSubfinder ;;
         ret 0
     end
   else
     let toolName := DetectTool in
     print (MsgTool toolName) ;;
     print (MsgDatabase dbPath) ;;
     e <- EnsureDBExists ;;
     match e with
     | Some err => print (LogFatal err) ;; ret 1
     | None =>
         e' <- InitDB ;;
         match e' with
         | Some err => print (LogFatal err) ;; ret 1
         | None =>
             print MsgReading ;;
             tf <- read_stdin ;;
             let (targets, firstTarget) := tf in
             if (Z.of_nat (List.length targets) =? 0) then
               print MsgNoValidTargets ;; ret 1
             else ingest targets firstTarget toolName
         end
     end) w0.

(** ** Vocabulary of the specification *)

(** The number of bytes of [s] equal to [c]. *)
Definition occurrences (c : ascii) (s : string) : nat :=
  count_occ ascii_dec (list_ascii_of_string s) c.

(** The byte [c] occurs in [s]. *)
Definition has_byte (c : ascii) (s : string) : Prop :=
  In c (list_ascii_of_string s).

(** [sub] occurs in [s] as a contiguous piece. *)
Definition has_substring (sub s : string) : Prop :=
  exists before after, s = before ++ sub ++ after.

(** The two rules that only look at dots, slashes and colons. *)
Definition dot_only (s : string) : Prop :=
  (1 <= occurrences "." s)%nat /\ ~ has_byte "/" s /\ ~ has_byte ":" s.

(** The conventional subdomain prefixes, in priority order. *)
Definition conventional_prefixes : list string :=
  ["www."; "api."; "app."; "dev."; "test."].

(** [removed] is what was taken off the front of [host] to leave [rest]:
    some of the conventional prefixes, one after the other. *)
Definition removed_prefixes (removed : list string) (host rest : string)
  : Prop :=
  Forall (fun p => In p conventional_prefixes) removed /\
  host = String.concat "" removed ++ rest.

(** At most one of the conventional prefixes has been taken off [host]
    before the split on dots. *)
Definition at_most_one_removed (host : string) : Prop :=
  exists removed,
    (List.length removed <= 1)%nat /\
    removed_prefixes removed host (strip_conventional host).

(** The order of [l] follows the order of [reference]. *)
Fixpoint in_order (l reference : list string) : Prop :=
  match l, reference with
  | [], _ => True
  | _ :: _, [] => False
  | x :: l', y :: reference' =>
      (x = y /\ in_order l' reference') \/ in_order l reference'
  end.

(** The new table holds the old rows, unchanged and in place, followed by
    the rows inserted since. *)
Definition extends {A} (old new : list A) : Prop :=
  exists added, new = (old ++ added)%list.

(** The tables of [d'] hold those of [d] and rows inserted since. *)
Definition db_grows (d d' : DB) : Prop :=
  extends (programs d) (programs d') /\
  extends (targets d) (targets d') /\
  extends (recon_data d) (recon_data d').

(** From [w] to [w'] rows were inserted and lines written, nothing else
    happened to the tables or to the output. *)
Definition only_adds (w w' : World) : Prop :=
  db_grows (db w) (db w') /\ extends (out w) (out w').

(** From [w] to [w'] neither the output nor [recon_data] changed. *)
Definition silent (w w' : World) : Prop :=
  out w' = out w /\ recon_data (db w') = recon_data (db w).

(** The computation [m] relates the world it starts in to the world it
    leaves by [R]. *)
Definition keeps (R : World -> World -> Prop) {A} (m : Prog A) : Prop :=
  forall w, R w (snd (m w)).

(** Nothing special happens at the coming statements. *)
Definition calm (w : World) : Prop := Forall (eq Quiet) (pending w).

(** The constraint [UNIQUE(program_id, target)] of schema.go. *)
Definition unique_targets (d : DB) : Prop :=
  NoDup (map (fun r => (t_program_id r, t_target r)) (targets d)).

(** The rows of [targets] for one raw string under one program. *)
Definition target_rows (program_id : Z) (target : string) (d : DB)
  : list TargetRow :=
  filter (target_keyed target program_id) (targets d).

(** The line a message of the loop is about, and the lines reported as
    processed. *)
Definition line_of (m : Msg) : option string :=
  match m with
  | MsgOk t | LogTargetError t _ | LogReconError t _ => Some t
  | _ => None
  end.

Fixpoint lines_of (o : list Msg) : list string :=
  match o with
  | [] => []
  | m :: o' =>
      match line_of m with
      | Some t => t :: lines_of o'
      | None => lines_of o'
      end
  end.

Definition is_ok (m : Msg) : bool :=
  match m with MsgOk _ => true | _ => false end.

Definition ok_count (o : list Msg) : Z :=
  Z.of_nat (List.length (filter is_ok o)).

(** From [w] to [w'] nothing was written about a line. *)
Definition no_line (w w' : World) : Prop :=
  ok_count (out w') = ok_count (out w) /\
  lines_of (out w') = lines_of (out w).

(** The non-blank trimmed input lines. *)
Definition non_blank_trimmed (lines : list string) : list string :=
  filter (fun l => negb (String.eqb l "")) (map Space.TrimSpace lines).

(** Data is piped on standard input: what [HasStdinData] tests. *)
Definition piped (w : World) : Prop :=
  Z.land (stdin_mode w) ModeCharDevice = 0.


(** A machine on which the program has never run: no database file, data
    piped on standard input, the given events ahead. *)
Definition fresh_world (lines : list string) (events : list Event) : World :=
  mkWorld 0 lines "/home/user/bugbounty/db/bounty.db" None
          (fun _ => false) false empty_db 0 events [].


(** Running the program again on the same input: the world the first run
    left, with standard input refilled. *)
Definition rerun (lines : list string) (w : World) : World :=
  set_stdin lines w.

(** No other invocation is at work: the coming statements either run or
    fail in the driver. *)
Definition undisturbed (w : World) : Prop :=
  Forall (fun e => e = Quiet \/ e = IOFailure) (pending w).

(** The five target types. *)
Definition target_types : list string :=
  ["domain"; "subdomain"; "url"; "ip_port"; "unknown"].

(** ** Package models: the repositories

    models/program.go, models/target.go and models/recon_data.go read and
    write the same tables through [database/sql].  A struct the caller
    passes by pointer is returned next to the error, as the call leaves
    it. *)

Module Sql.

(** [sql.NullString]: fields [String] and [Valid]. *)
Record NullString := mkNullString { ns_string : string; ns_valid : bool }.

(** [sql.NullTime]: fields [Time] and [Valid]; the zero [time.Time] is 0. *)
Record NullTime := mkNullTime { nt_time : Z; nt_valid : bool }.

(** [NullString.Value] and [NullTime.Value]: what is bound to the
    statement, [None] for NULL. *)
Definition string_value (n : NullString) : option string :=
  if ns_valid n then Some (ns_string n) else None.

Definition time_value (n : NullTime) : option Z :=
  if nt_valid n then Some (nt_time n) else None.

(** [NullString.Scan] and [NullTime.Scan]. *)
Definition scan_string (v : option string) : NullString :=
  match v with
  | Some s => mkNullString s true
  | None => mkNullString "" false
  end.

Definition scan_time (v : option Z) : NullTime :=
  match v with
  | Some t => mkNullTime t true
  | None => mkNullTime 0 false
  end.

(** The errors a repository hands back: those of the driver, and the
    refusal of [Scan] to store NULL in a destination of kind string. *)
Inductive Err :=
| Driver (e : SqlError)
| NullInto (column : string).

(** A statement that neither reads rows nor needs [LastInsertId]
    ([UPDATE], [DELETE]): the next event is consumed, then the tables are
    replaced. *)
Definition run (stmt : DB -> SqlError + DB) : Prog (option Err) :=
  ok <- arrive ;;
  if ok then
    fun w =>
      match stmt (db w) with
      | inl err => (Some (Driver err), w)
      | inr d' => (None, set_db d' w)
      end
  else ret (Some (Driver ErrIO)).

(** [ORDER BY]: the rows in the order of [le]; rows that [le] does not
    tell apart stay in the order of the table. *)
Fixpoint insert_by {A} (le : A -> A -> bool) (x : A) (l : list A) : list A :=
  match l with
  | [] => [x]
  | y :: l' => if le x y then x :: l else y :: insert_by le x l'
  end.

Definition order_by {A} (le : A -> A -> bool) (l : list A) : list A :=
  fold_right (insert_by le) [] l.

(** The loop [for rows.Next() { ... rows.Scan ... append }]: the first
    row that cannot be scanned ends it with its error. *)
Fixpoint scan_rows {R T} (scan : R -> Err + T) (rows : list R)
  : Err + list T :=
  match rows with
  | [] => inr []
  | r :: rows' =>
      match scan r with
      | inl err => inl err
      | inr t =>
          match scan_rows scan rows' with
          | inl err => inl err
          | inr ts => inr (t :: ts)
          end
      end
  end.

End Sql.

Module ProgramRepository.

Import Sql.

(** [models.Program]. *)
Record Program := mkProgram {
  ID : Z;
  Name : string;
  URL : NullString;
  Scope : NullString;
  OutOfScope : NullString;
  BountyNotes : NullString;
  CreatedAt : Z
}.

Definition set_ID (id : Z) (p : Program) : Program :=
  mkProgram id (Name p) (URL p) (Scope p) (OutOfScope p) (BountyNotes p)
            (CreatedAt p).

(** The seven columns scanned into a [Program]. *)
Definition scan (r : ProgramRow) : Program :=
  mkProgram (p_id r) (p_name r) (scan_string (p_url r))
            (scan_string (p_scope r)) (scan_string (p_out_of_scope r))
            (scan_string (p_bounty_notes r)) (p_created_at r).

Definition with_id (id : Z) (r : ProgramRow) : bool := p_id r =? id.

(** [INSERT INTO programs (name, url, scope, out_of_scope, bounty_notes)
    VALUES (?, ?, ?, ?, ?)]. *)
Definition insert (name : string)
  (url scope out_of_scope bounty_notes : option string) (now : Z) (d : DB)
  : SqlError + (Z * DB) :=
  if existsb (program_named name) (programs d) then inl ErrConstraint
  else
    let id := seq_programs d + 1 in
    let row := mkProgramRow id name url scope out_of_scope bounty_notes now in
    inr (id, mkDB (programs d ++ [row]) (targets d) (recon_data d)
                  id (seq_targets d) (seq_recon_data d)).

(** [SELECT ... FROM programs WHERE id = ?] and [... WHERE name = ?]. *)
Definition select_by_id (id : Z) (d : DB) : SqlError + ProgramRow :=
  match find (with_id id) (programs d) with
  | Some r => inr r
  | None => inl ErrNoRows
  end.


(** [UPDATE programs SET name = ?, url = ?, scope = ?, out_of_scope = ?,
    bounty_notes = ? WHERE id = ?]: the row with this key, if there is
    one, gets the five values; a name another row holds is refused. *)
Definition update (id : Z) (name : string)
  (url scope out_of_scope bounty_notes : option string) (d : DB)
  : SqlError + DB :=
  if existsb (with_id id) (programs d)
     && existsb (fun r => program_named name r && negb (with_id id r))
                (programs d)
  then inl ErrConstraint
  else
    inr (mkDB (map (fun r =>
                      if with_id id r
                      then mkProgramRow (p_id r) name url scope out_of_scope
                             bounty_notes (p_created_at r)
                      else r) (programs d))
              (targets d) (recon_data d)
              (seq_programs d) (seq_targets d) (seq_recon_data d)).

(** [DELETE FROM programs WHERE id = ?]; foreign keys are not enforced. *)
Definition delete (id : Z) (d : DB) : SqlError + DB :=
  inr (mkDB (filter (fun r => negb (with_id id r)) (programs d))
            (targets d) (recon_data d)
            (seq_programs d) (seq_targets d) (seq_recon_data d)).

(** [SELECT ... FROM programs ORDER BY name]. *)
Definition select_all (d : DB) : SqlError + list ProgramRow :=
  inr (order_by (fun a b => String.leb (p_name a) (p_name b)) (programs d)).

(** Method [Create] of [ProgramRepository]. *)
Definition Create (program : Program) : Prog (option Err * Program) :=
  r <- exec (insert (Name program) (string_value (URL program))
               (string_value (Scope program))
               (string_value (OutOfScope program))
               (string_value (BountyNotes program))) ;;
  match r with
  | inl err => ret (Some (Driver err), program)
  | inr id => ret (None, set_ID id program)
  end.

(** Method [GetByID] of [ProgramRepository]. *)
Definition GetByID (id : Z) : Prog (Err + Program) :=
  r <- query (select_by_id id) ;;
  match r with
  | inl err => ret (inl (Driver err))
  | inr row => ret (inr (scan row))
  end.


(** Method [Update] of [ProgramRepository]. *)
Definition Update (program : Program) : Prog (option Err) :=
  run (update (ID program) (Name program) (string_value (URL program))
         (string_value (Scope program)) (string_value (OutOfScope program))
         (string_value (BountyNotes program))).

(** Method [Delete] of [ProgramRepository]. *)
Definition Delete (id : Z) : Prog (option Err) := run (delete id).

(** Method [List] of [ProgramRepository]. *)
Definition List : Prog (Err + list Program) :=
  r <- query select_all ;;
  match r with
  | inl err => ret (inl (Driver err))
  | inr rows => ret (scan_rows (fun row => inr (scan row)) rows)
  end.

End ProgramRepository.

Module TargetRepository.

Import Sql.

(** [models.Target]; the field [Target] is [Target_] here and [Type] is
    [Type_]. *)
Record Target := mkTarget {
  ID : Z;
  ProgramID : Z;
  Target_ : string;
  Type_ : string;
  Source : NullString;
  Alive : bool;
  LastChecked : NullTime;
  Tested : bool;
  TestedDate : NullTime;
  TestNotes : NullString;
  Notes : NullString;
  CreatedAt : Z
}.

Definition set_ID (id : Z) (t : Target) : Target :=
  mkTarget id (ProgramID t) (Target_ t) (Type_ t) (Source t) (Alive t)
           (LastChecked t) (Tested t) (TestedDate t) (TestNotes t) (Notes t)
           (CreatedAt t).

(** The twelve columns scanned into a [Target]; [type] may be NULL in the
    table and [Type] is a string. *)
Definition scan (r : TargetRow) : Err + Target :=
  match t_type r with
  | None => inl (NullInto "type")
  | Some type =>
      inr (mkTarget (t_id r) (t_program_id r) (t_target r) type
             (scan_string (t_source r)) (t_alive r)
             (scan_time (t_last_checked r)) (t_tested r)
             (scan_time (t_tested_date r)) (scan_string (t_test_notes r))
             (scan_string (t_notes r)) (t_created_at r))
  end.

Definition with_id (id : Z) (r : TargetRow) : bool := t_id r =? id.

(** [INSERT INTO targets (program_id, target, type, source, alive,
    last_checked, tested, tested_date, test_notes, notes)
    VALUES (?, ?, ?, ?, ?, ?, ?, ?, ?, ?)]. *)
Definition insert (t : Target) (now : Z) (d : DB) : SqlError + (Z * DB) :=
  if existsb (target_keyed (Target_ t) (ProgramID t)) (targets d)
  then inl ErrConstraint
  else
    let id := seq_targets d + 1 in
    let row := mkTargetRow id (ProgramID t) (Target_ t) (Some (Type_ t))
                 (string_value (Source t)) (Alive t)
                 (time_value (LastChecked t)) (Tested t)
                 (time_value (TestedDate t)) (string_value (TestNotes t))
                 (string_value (Notes t)) now in
    inr (id, mkDB (programs d) (targets d ++ [row]) (recon_data d)
                  (seq_programs d) id (seq_recon_data d)).

(** [SELECT ... FROM targets WHERE id = ?]. *)
Definition select_by_id (id : Z) (d : DB) : SqlError + TargetRow :=
  match find (with_id id) (targets d) with
  | Some r => inr r
  | None => inl ErrNoRows
  end.

(** [SELECT ... FROM targets WHERE program_id = ? AND target = ?]. *)
Definition select_by_key (program_id : Z) (target : string) (d : DB)
  : SqlError + TargetRow :=
  match find (target_keyed target program_id) (targets d) with
  | Some r => inr r
  | None => inl ErrNoRows
  end.

(** [DELETE FROM targets WHERE id = ?]. *)
Definition delete (id : Z) (d : DB) : SqlError + DB :=
  inr (mkDB (programs d) (filter (fun r => negb (with_id id r)) (targets d))
            (recon_data d)
            (seq_programs d) (seq_targets d) (seq_recon_data d)).

(** [UPDATE targets SET program_id = ?, target = ?, type = ?, source = ?,
    alive = ?, last_checked = ?, tested = ?, tested_date = ?,
    test_notes = ?, notes = ? WHERE id = ?]: the row with this key, if
    there is one, gets the ten values; a pair of program and target that
    another row holds is refused. *)
Definition update (t : Target) (d : DB) : SqlError + DB :=
  if existsb (with_id (ID t)) (targets d)
     && existsb (fun r => target_keyed (Target_ t) (ProgramID t) r
                          && negb (with_id (ID t) r))
                (targets d)
  then inl ErrConstraint
  else
    inr (mkDB (programs d)
              (map (fun r =>
                      if with_id (ID t) r
                      then mkTargetRow (t_id r) (ProgramID t) (Target_ t)
                             (Some (Type_ t)) (string_value (Source t))
                             (Alive t) (time_value (LastChecked t))
                             (Tested t) (time_value (TestedDate t))
                             (string_value (TestNotes t))
                             (string_value (Notes t)) (t_created_at r)
                      else r) (targets d))
              (recon_data d)
              (seq_programs d) (seq_targets d) (seq_recon_data d)).

Definition by_target (a b : TargetRow) : bool :=
  String.leb (t_target a) (t_target b).

(** [SELECT ... FROM targets WHERE program_id = ? ORDER BY target]. *)
Definition select_by_program (program_id : Z) (d : DB)
  : SqlError + list TargetRow :=
  inr (order_by by_target
         (filter (fun r => t_program_id r =? program_id) (targets d))).

(** [SELECT ... FROM targets WHERE alive = 1 ORDER BY target]. *)
Definition select_alive (d : DB) : SqlError + list TargetRow :=
  inr (order_by by_target (filter t_alive (targets d))).

(** Method [Create] of [TargetRepository]. *)
Definition Create (target : Target) : Prog (option Err * Target) :=
  r <- exec (insert target) ;;
  match r with
  | inl err => ret (Some (Driver err), target)
  | inr id => ret (None, set_ID id target)
  end.

(** Method [GetByID] of [TargetRepository]. *)
Definition GetByID (id : Z) : Prog (Err + Target) :=
  r <- query (select_by_id id) ;;
  match r with
  | inl err => ret (inl (Driver err))
  | inr row => ret (scan row)
  end.

(** Method [GetByProgramAndTarget] of [TargetRepository]. *)
Definition GetByProgramAndTarget (programID : Z) (target : string)
  : Prog (Err + Target) :=
  r <- query (select_by_key programID target) ;;
  match r with
  | inl err => ret (inl (Driver err))
  | inr row => ret (scan row)
  end.

(** Method [Update] of [TargetRepository]. *)
Definition Update (target : Target) : Prog (option Err) :=
  run (update target).

(** Method [Delete] of [TargetRepository]. *)
Definition Delete (id : Z) : Prog (option Err) := run (delete id).

(** Method [ListByProgram] of [TargetRepository]. *)
Definition ListByProgram (programID : Z) : Prog (Err + list Target) :=
  r <- query (select_by_program programID) ;;
  match r with
  | inl err => ret (inl (Driver err))
  | inr rows => ret (scan_rows scan rows)
  end.

(** Method [ListAlive] of [TargetRepository]. *)
Definition ListAlive : Prog (Err + list Target) :=
  r <- query select_alive ;;
  match r with
  | inl err => ret (inl (Driver err))
  | inr rows => ret (scan_rows scan rows)
  end.

End TargetRepository.

Module ReconDataRepository.

Import Sql.

(** [models.ReconData]. *)
Record ReconData := mkReconData {
  ID : Z;
  TargetID : Z;
  Tool : string;
  Data : string;
  Context : NullString;
  Timestamp : Z
}.

Definition set_ID (id : Z) (r : ReconData) : ReconData :=
  mkReconData id (TargetID r) (Tool r) (Data r) (Context r) (Timestamp r).

Definition scan (r : ReconRow) : ReconData :=
  mkReconData (r_id r) (r_target_id r) (r_tool r) (r_data r)
              (scan_string (r_context r)) (r_timestamp r).

(** [INSERT INTO recon_data (target_id, tool, data, context, timestamp)
    VALUES (?, ?, ?, ?, ?)]. *)
Definition insert (r : ReconData) (d : DB) : SqlError + (Z * DB) :=
  let id := seq_recon_data d + 1 in
  let row := mkReconRow id (TargetID r) (Tool r) (Data r)
               (string_value (Context r)) (Timestamp r) in
  inr (id, mkDB (programs d) (targets d) (recon_data d ++ [row])
                (seq_programs d) (seq_targets d) id).

(** [ORDER BY timestamp DESC].  The column holds the text the driver
    wrote for the time, in the time zone of the writer, and SQLite
    compares these texts byte by byte; [stored] gives the text in the
    column of each row. *)
Definition newest_first (stored : ReconRow -> string) (a b : ReconRow)
  : bool :=
  String.leb (stored b) (stored a).

(** [SELECT ... FROM recon_data WHERE target_id = ?
    ORDER BY timestamp DESC]. *)
Definition select_by_target (stored : ReconRow -> string) (target_id : Z)
  (d : DB) : SqlError + list ReconRow :=
  inr (order_by (newest_first stored)
         (filter (fun r => r_target_id r =? target_id) (recon_data d))).

(** Method [Create] of [ReconDataRepository]. *)
Definition Create (data : ReconData) : Prog (option Err * ReconData) :=
  r <- exec (fun _ => insert data) ;;
  match r with
  | inl err => ret (Some (Driver err), data)
  | inr id => ret (None, set_ID id data)
  end.

(** Method [GetByTargetID] of [ReconDataRepository]. *)
Definition GetByTargetID (stored : ReconRow -> string) (targetID : Z)
  : Prog (Err + list ReconData) :=
  r <- query (select_by_target stored targetID) ;;
  match r with
  | inl err => ret (inl (Driver err))
  | inr rows => ret (scan_rows (fun row => inr (scan row)) rows)
  end.

End ReconDataRepository.

(** The keys of the rows were issued by the counters of their tables, as
    [AUTOINCREMENT] has it. *)
Definition keys_issued (d : DB) : Prop :=
  Forall (fun r => p_id r <= seq_programs d) (programs d) /\
  Forall (fun r => t_id r <= seq_targets d) (targets d) /\
  Forall (fun r => r_id r <= seq_recon_data d) (recon_data d).

(** What is read back from a nullable text column written from [n]. *)
Definition stored (n : Sql.NullString) : Sql.NullString :=
  Sql.scan_string (Sql.string_value n).

(** A relation between the tables, as a relation between the worlds that
    hold them. *)
Definition on_tables (P : DB -> DB -> Prop) (w w' : World) : Prop :=
  P (db w) (db w').

(** The targets marked alive and those marked tested are the same in both
    stores. *)
Definition same_marks (d d' : DB) : Prop :=
  filter t_alive (targets d') = filter t_alive (targets d) /\
  filter t_tested (targets d') = filter t_tested (targets d).

(** No statement is disturbed from now on. *)
Definition quiet (w : World) : World := set_pending [] w.

(** The statements of the schema, in the order of the text. *)
Definition schema_statements : list string :=
  filter (fun stmt => negb (String.eqb stmt ""))
         (map Space.TrimSpace (GoStrings.Split Bootstrap.schema ";")).

(** No call fails. *)
Definition no_failure (fails : Bootstrap.Step -> bool) : Prop :=
  forall step, fails step = false.

(** ** ferri.go: the detection of the tool

    The earlier single-file program guesses the tool from the process.  A
    pattern of [toolPatterns] is an alternation of literals, given here by
    its alternatives ([subdomains?] by [subdomains] and [subdomain]);
    [MatchString] looks for one of them anywhere in the text. *)

Module Ferri.

Definition toolPatterns : list (string * list string) :=
  [("subfinder", ["subfinder"; "subdomains"; "subdomain"]);
   ("amass", ["amass"]);
   ("assetfinder", ["assetfinder"]);
   ("httpx", ["httpx"; "http"]);
   ("nuclei", ["nuclei"]);
   ("waybackurls", ["wayback"; "archive"]);
   ("gau", ["gau"]);
   ("ffuf", ["ffuf"; "fuzz"]);
   ("gobuster", ["gobuster"; "dirbust"])].

Definition MatchString (pattern : list string) (s : string) : bool :=
  existsb (GoStrings.Contains s) pattern.

(** What [detectTool] reads: [os.Getppid], the content of
    [/proc/<ppid>/cmdline] if it can be read, [os.Args], and
    [os.Hostname] if it succeeds. *)
Record Process := mkProcess {
  ppid : Z;
  cmdline : option string;
  Args : list string;
  Hostname : option string
}.

(** [for tool, pattern := range toolPatterns { if pattern.MatchString(s)
    { return tool } }], the entries of the map coming in the order
    [entries]. *)
Fixpoint range_patterns (entries : list (string * list string)) (s : string)
  : option string :=
  match entries with
  | [] => None
  | (tool, pattern) :: rest =>
      if MatchString pattern s then Some tool else range_patterns rest s
  end.

(** The loop over [os.Args]; [order n] is the order in which the [n]-th
    [range] over the map yields its entries. *)
Fixpoint range_args (order : nat -> list (string * list string)) (n : nat)
  (args : list string) : option string * nat :=
  match args with
  | [] => (None, n)
  | arg :: rest =>
      match range_patterns (order n) arg with
      | Some tool => (Some tool, S n)
      | None => range_args order (S n) rest
      end
  end.

(** ferri.go, [detectTool], from its last block to its first: the host
    name, then the arguments before it, then the parent before them. *)
Definition from_hostname (entries : list (string * list string))
  (hostname : option string) : string :=
  match hostname with
  | Some name =>
      match range_patterns entries name with
      | Some tool => tool
      | None => "pipeline_auto"
      end
  | None => "pipeline_auto"
  end.

Definition from_args (order : nat -> list (string * list string)) (n : nat)
  (args : list string) (hostname : option string) : string :=
  match range_args order n args with
  | (Some tool, _) => tool
  | (None, n') => from_hostname (order n') hostname
  end.

Definition detectTool (order : nat -> list (string * list string))
  (p : Process) : string :=
  if ppid p >? 0 then
    match cmdline p with
    | Some content =>
        match range_patterns (order 0%nat) content with
        | Some tool => tool
        | None => from_args order 1 (Args p) (Hostname p)
        end
    | None => from_args order 0 (Args p) (Hostname p)
    end
  else from_args order 0 (Args p) (Hostname p).

End Ferri.

(** The texts [detectTool] looks at, in the order it looks at them. *)
Definition consulted (p : Ferri.Process) : list string :=
  ((if Ferri.ppid p >? 0
    then match Ferri.cmdline p with Some c => [c] | None => [] end
    else [])
   ++ Ferri.Args p
   ++ match Ferri.Hostname p with Some h => [h] | None => [] end)%list.

(** Some pattern of [toolPatterns] matches the text. *)
Definition names_a_tool (s : string) : bool :=
  existsb (fun entry => Ferri.MatchString (snd entry) s) Ferri.toolPatterns.

(** [tool] is the answer the [texts] allow: a tool whose pattern matches
    the first of them that some pattern matches, and ["pipeline_auto"] when
    there is no such text. *)
Definition decided_by (texts : list string) (tool : string) : Prop :=
  match find names_a_tool texts with
  | Some s =>
      exists pattern,
        In (tool, pattern) Ferri.toolPatterns /\
        Ferri.MatchString pattern s = true
  | None => tool = "pipeline_auto"
  end.

(** Every [range] over the map yields each of its entries once. *)
Definition map_order (order : nat -> list (string * list string)) : Prop :=
  forall n, Permutation (order n) Ferri.toolPatterns.

(** The struct with [Alive] set. *)
Definition mark_alive (t : TargetRepository.Target) : TargetRepository.Target :=
  TargetRepository.mkTarget
    (TargetRepository.ID t) (TargetRepository.ProgramID t)
    (TargetRepository.Target_ t) (TargetRepository.Type_ t)
    (TargetRepository.Source t) true (TargetRepository.LastChecked t)
    (TargetRepository.Tested t) (TargetRepository.TestedDate t)
    (TargetRepository.TestNotes t) (TargetRepository.Notes t)
    (TargetRepository.CreatedAt t).

(** From [d] to [d'] targets and observations were added, and nothing
    else happened to these tables; every added target has [tool] as its
    source, the class of its own string as its type, and is neither alive
    nor tested; every added observation has [tool] as its tool and the
    context made from it. *)
Definition attributed (tool : string) (d d' : DB) : Prop :=
  exists new_targets new_observations,
    targets d' = (targets d ++ new_targets)%list /\
    recon_data d' = (recon_data d ++ new_observations)%list /\
    Forall (fun r => t_source r = Some tool /\
                     t_type r = Some (ClassifyTarget (t_target r)) /\
                     t_alive r = false /\ t_tested r = false) new_targets /\
    Forall (fun r => r_tool r = tool /\
                     r_context r = Some ("Discovered via " ++ tool))
           new_observations.

(** A relation between the tables that holds as long as no other
    invocation is at work. *)
Definition while_undisturbed (P : DB -> DB -> Prop) (w w' : World) : Prop :=
  undisturbed w -> undisturbed w' /\ P (db w) (db w').

(** * Properties *)

(** ** Strings *)

Section StringFacts.

Lemma HasPrefix_append s p : HasPrefix (p ++ s) p = true.
Proof.
  induction p as [|a p IH]; simpl; [reflexivity|].
  now rewrite Ascii.eqb_refl.
Qed.

Lemma HasPrefix_split s p :
  HasPrefix s p = true -> exists r, s = p ++ r.
Proof.
  revert s; induction p as [|a p IH]; intros s H.
  - now exists s.
  - destruct s as [|b s]; simpl in H; [discriminate|].
    destruct (Ascii.eqb a b) eqn:E; [|discriminate].
    apply Ascii.eqb_eq in E; subst b.
    destruct (IH _ H) as [r ->]. now exists r.
Qed.

Lemma drop_append s p : drop (String.length p) (p ++ s) = s.
Proof. induction p; simpl; auto. Qed.

Lemma TrimPrefix_append s p : TrimPrefix (p ++ s) p = s.
Proof. unfold TrimPrefix. now rewrite HasPrefix_append, drop_append. Qed.

(** What [TrimPrefix] cuts off is the prefix or nothing. *)
Lemma TrimPrefix_cases s p :
  (HasPrefix s p = true /\ s = p ++ TrimPrefix s p) \/
  (HasPrefix s p = false /\ TrimPrefix s p = s).
Proof.
  unfold TrimPrefix. destruct (HasPrefix s p) eqn:E; [left|right]; auto.
  split; [reflexivity|].
  destruct (HasPrefix_split _ _ E) as [r ->]. now rewrite drop_append.
Qed.

Lemma append_assoc (a b c : string) : (a ++ b) ++ c = a ++ b ++ c.
Proof. induction a; simpl; congruence. Qed.

Lemma append_empty_r (a : string) : a ++ "" = a.
Proof. induction a; simpl; congruence. Qed.

Lemma Contains_unfold s sub :
  Contains s sub =
  HasPrefix s sub ||
  match s with EmptyString => false | String _ s' => Contains s' sub end.
Proof. destruct s; reflexivity. Qed.

Lemma Contains_has_substring s sub :
  Contains s sub = true <-> has_substring sub s.
Proof.
  split.
  - induction s as [|a s IH]; simpl; intros H.
    + rewrite orb_false_r in H.
      destruct (HasPrefix_split _ _ H) as [r E]. now exists "", r.
    + apply orb_true_iff in H as [H|H].
      * destruct (HasPrefix_split _ _ H) as [r E]. now exists "", r.
      * destruct (IH H) as (b & c & ->). now exists (String a b), c.
  - intros (b & c & ->). induction b as [|a b IH]; simpl.
    + rewrite Contains_unfold, HasPrefix_append. reflexivity.
    + simpl in IH. rewrite IH. apply orb_true_r.
Qed.

Lemma Contains_has_byte s c :
  Contains s (String c "") = true <-> has_byte c s.
Proof.
  unfold has_byte. induction s as [|a s IH]; simpl.
  - split; [discriminate | tauto].
  - rewrite orb_true_iff, IH.
    destruct (Ascii.eqb c a) eqn:E.
    + apply Ascii.eqb_eq in E. subst. tauto.
    + apply Ascii.eqb_neq in E. split.
      * intros [H|H]; [discriminate | now right].
      * intros [H|H]; [congruence | now right].
Qed.

Lemma Contains_byte_false s c :
  Contains s (String c "") = false <-> ~ has_byte c s.
Proof.
  rewrite <- Contains_has_byte. now destruct (Contains s (String c "")).
Qed.

Lemma Count_occurrences s c : Count s c = Z.of_nat (occurrences c s).
Proof.
  unfold occurrences. induction s as [|a s IH]; simpl; [reflexivity|].
  rewrite IH. destruct (ascii_dec a c) as [->|N].
  - rewrite Ascii.eqb_refl. lia.
  - apply Ascii.eqb_neq in N. rewrite N. lia.
Qed.

Lemma has_byte_append_r c a b : has_byte c b -> has_byte c (a ++ b).
Proof.
  unfold has_byte. induction a; simpl; auto.
Qed.

(** A string with [://] in it has a colon in it. *)
Lemma scheme_separator_has_colon s :
  has_substring "://" s -> has_byte ":" s.
Proof.
  intros (b & c & ->). apply has_byte_append_r. now left.
Qed.

End StringFacts.

(** ** Classification *)

Section Classification.

Lemma dot_only_tests s :
  ((Count s "." =? 1) || (Count s "." >? 1)) && negb (Contains s "/")
    && negb (Contains s ":") = true <-> dot_only s.
Proof.
  unfold dot_only. rewrite !andb_true_iff, !negb_true_iff,
    !Contains_byte_false, orb_true_iff, Count_occurrences.
  rewrite Z.eqb_eq, Z.gtb_lt. intuition lia.
Qed.

Lemma ClassifyTarget_not_dot_only s :
  ~ dot_only s ->
  ClassifyTarget s =
    if Contains s "://" then "url"
    else if Contains s ":" then "ip_port" else "unknown".
Proof.
  intros N. rewrite <- dot_only_tests in N. unfold ClassifyTarget.
  destruct (Count s "." =? 1), (Count s "." >? 1),
    (Contains s "/"), (Contains s ":"); simpl in *; try reflexivity;
    exfalso; apply N; reflexivity.
Qed.

(** C1. The classifier applies five rules, the first that matches wins:
    exactly one dot and neither slash nor colon gives [domain]; more than
    one dot and neither slash nor colon gives [subdomain]; otherwise a
    string with [://] gives [url]; otherwise one with a colon gives
    [ip_port]; otherwise [unknown].  The five examples of the
    specification come out as stated, and every string with [://] in it is
    a [url], never a [subdomain]. *)
Theorem C1_ClassifyTarget_rules :
  (forall s,
     (occurrences "." s = 1%nat -> ~ has_byte "/" s -> ~ has_byte ":" s ->
      ClassifyTarget s = "domain") /\
     ((occurrences "." s > 1)%nat -> ~ has_byte "/" s -> ~ has_byte ":" s ->
      ClassifyTarget s = "subdomain") /\
     (~ dot_only s -> has_substring "://" s -> ClassifyTarget s = "url") /\
     (~ dot_only s -> ~ has_substring "://" s -> has_byte ":" s ->
      ClassifyTarget s = "ip_port") /\
     (~ dot_only s -> ~ has_substring "://" s -> ~ has_byte ":" s ->
      ClassifyTarget s = "unknown") /\
     (has_substring "://" s -> ClassifyTarget s = "url")) /\
  ClassifyTarget "example.com" = "domain" /\
  ClassifyTarget "api.example.com" = "subdomain" /\
  ClassifyTarget "https://example.com/path" = "url" /\
  ClassifyTarget "10.0.0.1:8080" = "ip_port" /\
  ClassifyTarget "randomtoken" = "unknown" /\
  ClassifyTarget "https://a.b.com" = "url".
Proof.
  split; [|repeat split; reflexivity].
  intros s.
  assert (U : ~ dot_only s -> has_substring "://" s ->
              ClassifyTarget s = "url").
  { intros N H. rewrite (ClassifyTarget_not_dot_only s N).
    apply Contains_has_substring in H. now rewrite H. }
  repeat split.
  - intros D S C. unfold ClassifyTarget.
    apply Contains_byte_false in S, C.
    rewrite Count_occurrences, D, S, C. reflexivity.
  - intros D S C. unfold ClassifyTarget.
    apply Contains_byte_false in S, C.
    rewrite Count_occurrences, S, C.
    replace (Z.of_nat (occurrences "." s) =? 1) with false
      by (symmetry; apply Z.eqb_neq; lia).
    replace (Z.of_nat (occurrences "." s) >? 1) with true
      by (symmetry; apply Z.gtb_lt; lia).
    reflexivity.
  - exact U.
  - intros N H C. rewrite (ClassifyTarget_not_dot_only s N).
    destruct (Contains s "://") eqn:E.
    + apply Contains_has_substring in E. contradiction.
    + apply Contains_has_byte in C. now rewrite C.
  - intros N H C. rewrite (ClassifyTarget_not_dot_only s N).
    destruct (Contains s "://") eqn:E.
    + apply Contains_has_substring in E. contradiction.
    + apply Contains_byte_false in C. now rewrite C.
  - intros H. apply U; [|exact H].
    intros (_ & _ & C). apply C. now apply scheme_separator_has_colon.
Qed.

(** The rules at work on a string with one dot. *)
Lemma C1_ClassifyTarget_rules_witness :
  occurrences "." "example.com" = 1%nat /\
  ClassifyTarget "example.com" = "domain".
Proof.
  split; [reflexivity|].
  apply (proj1 (proj1 C1_ClassifyTarget_rules "example.com")).
  - reflexivity.
  - unfold has_byte; simpl; intros H;
      repeat (destruct H as [H|H]; [discriminate H|]); exact H.
  - unfold has_byte; simpl; intros H;
      repeat (destruct H as [H|H]; [discriminate H|]); exact H.
Defined.

End Classification.

(** ** Organization name and scope pattern *)

Section Identity.

Lemma concat_cons (x : string) (l : list string) :
  String.concat "" (x :: l) = x ++ String.concat "" l.
Proof.
  destruct l; simpl; [now rewrite append_empty_r | reflexivity].
Qed.

Lemma in_order_skip l x reference :
  in_order l reference -> in_order l (x :: reference).
Proof. destruct l; simpl; auto. Qed.

Lemma in_order_incl l reference :
  in_order l reference -> Forall (fun p => In p reference) l.
Proof.
  revert l; induction reference as [|y reference IH]; intros [|x l] H;
    simpl in H; try (constructor; fail); try contradiction.
  destruct H as [[-> H]|H].
  - constructor; [now left|].
    eapply Forall_impl; [|apply IH, H]. intros; now right.
  - eapply Forall_impl; [|apply IH, H]. intros; now right.
Qed.

(** Trimming a list of prefixes one after the other removes some of them,
    in the order of the list, each at most once. *)
Lemma fold_TrimPrefix_removed (prefixes : list string) (host : string) :
  exists removed,
    in_order removed prefixes /\
    host = String.concat "" removed ++ fold_left TrimPrefix prefixes host.
Proof.
  revert host; induction prefixes as [|p prefixes IH]; intros host; simpl.
  - exists []. split; [exact I | reflexivity].
  - destruct (IH (TrimPrefix host p)) as (removed & Ord & E).
    destruct (TrimPrefix_cases host p) as [[_ Cut]|[_ Same]].
    + exists (p :: removed). split.
      * simpl. left. split; [reflexivity | exact Ord].
      * rewrite concat_cons, append_assoc, <- E. exact Cut.
    + exists removed. split.
      * now apply in_order_skip.
      * rewrite Same in E. rewrite Same. exact E.
Qed.

Lemma strip_conventional_fold host :
  strip_conventional host = fold_left TrimPrefix conventional_prefixes host.
Proof. reflexivity. Qed.

(** C4, as stated, fails: two prefixes are removed from
    [www.api.example.com], the organization comes out as [example] where
    removing one prefix would leave [api]. *)
Lemma C4_two_prefixes_removed :
  ~ at_most_one_removed "www.api.example.com" /\
  strip_conventional "www.api.example.com" = "example.com" /\
  ExtractDomain "www.api.example.com" = "example".
Proof.
  split; [|split; reflexivity].
  intros (removed & Len & In5 & E).
  change (strip_conventional "www.api.example.com") with "example.com" in E.
  destruct removed as [|p [|q removed]]; simpl in Len; [discriminate E| |lia].
  apply Forall_inv in In5. simpl in In5, E.
  repeat (destruct In5 as [<-|In5]; [discriminate E|]). exact In5.
Qed.

(** C4, amended.  The derivation removes each of [www.], [api.], [app.],
    [dev.], [test.] at most once, in this order, each from what the
    previous removals left: up to five prefixes go, and nothing but these
    prefixes is taken off the front of the host. *)
Theorem C4_prefixes_removed_in_order :
  (forall host,
     exists removed,
       in_order removed conventional_prefixes /\
       removed_prefixes removed host (strip_conventional host)) /\
  strip_conventional "www.api.app.dev.test.example.com" = "example.com" /\
  strip_conventional "api.www.example.com" = "www.example.com".
Proof.
  split; [|split; reflexivity].
  intros host. rewrite strip_conventional_fold.
  destruct (fold_TrimPrefix_removed conventional_prefixes host)
    as (removed & Ord & E).
  exists removed. split; [exact Ord|]. split; [|exact E].
  now apply in_order_incl.
Qed.

End Identity.

(** ** The organization name is a piece of the input *)

Section Pieces.

Lemma has_substring_refl s : has_substring s s.
Proof. exists "", "". simpl. now rewrite append_empty_r. Qed.

Lemma has_substring_trans a b c :
  has_substring a b -> has_substring b c -> has_substring a c.
Proof.
  intros (x & y & ->) (x' & y' & ->).
  exists (x' ++ x), (y ++ y'). now rewrite !append_assoc.
Qed.

Lemma suffix_has_substring pre s : has_substring s (pre ++ s).
Proof. exists pre, "". now rewrite append_empty_r. Qed.

Lemma prefix_has_substring s post : has_substring s (s ++ post).
Proof. now exists "", post. Qed.

Lemma non_slash_run_prefix s : exists r, s = Regexp.non_slash_run s ++ r.
Proof.
  induction s as [|a s [r IH]]; simpl.
  - now exists "".
  - destruct (Ascii.eqb a "/").
    + now exists (String a s).
    + exists r. simpl. now rewrite <- IH.
Qed.

Lemma match_host_piece s h :
  Regexp.match_host s = Some h -> has_substring h s.
Proof.
  unfold Regexp.match_host. destruct (non_slash_run_prefix s) as [r E].
  destruct (Regexp.non_slash_run s) eqn:R; [discriminate|].
  intros [= <-]. rewrite E. apply prefix_has_substring.
Qed.

Lemma after_colon_slashes_suffix r rest :
  Regexp.after_colon_slashes r = Some rest -> r = "://" ++ rest.
Proof.
  unfold Regexp.after_colon_slashes.
  destruct (HasPrefix r "://") eqn:E; [|discriminate].
  destruct (HasPrefix_split _ _ E) as [x ->]. intros [= <-]. reflexivity.
Qed.

Lemma after_s_suffix r r' :
  Regexp.after_s r = Some r' -> exists pre, r = pre ++ r'.
Proof.
  unfold Regexp.after_s. destruct r as [|a r1]; [discriminate|].
  destruct (Regexp.fold_eq "s" "S" a).
  - intros [= <-]. now exists (String a "").
  - destruct r1 as [|b r2]; [discriminate|].
    destruct (_ && _)%bool; [|discriminate].
    intros [= <-]. now exists (String a (String b "")).
Qed.

Lemma match_scheme_suffix s rest :
  Regexp.match_scheme s = Some rest -> exists pre, s = pre ++ rest.
Proof.
  unfold Regexp.match_scheme.
  destruct s as [|h [|t1 [|t2 [|p r]]]]; try discriminate.
  destruct (_ && _)%bool; [|discriminate].
  assert (Plain : Regexp.after_colon_slashes r = Some rest ->
                  exists pre, String h (String t1 (String t2 (String p r)))
                              = pre ++ rest).
  { intros H. apply after_colon_slashes_suffix in H. subst r.
    now exists (String h (String t1 (String t2 (String p "://")))). }
  destruct (Regexp.after_s r) as [r'|] eqn:S; [|exact Plain].
  destruct (Regexp.after_colon_slashes r') as [rest'|] eqn:C; [|exact Plain].
  intros [= <-]. apply after_s_suffix in S as [pre ->].
  apply after_colon_slashes_suffix in C. subst r'.
  exists (String h (String t1 (String t2 (String p (pre ++ "://"))))).
  simpl. now rewrite append_assoc.
Qed.

Lemma find_anchored_piece input m0 m1 m2 rest :
  Regexp.find_anchored input = Some (m0 :: m1 :: m2 :: rest) ->
  has_substring m2 input.
Proof.
  unfold Regexp.find_anchored.
  assert (Plain :
    match Regexp.match_host input with
    | Some h => Some [h; ""; h]
    | None => None
    end = Some (m0 :: m1 :: m2 :: rest) -> has_substring m2 input).
  { destruct (Regexp.match_host input) eqn:H; [|discriminate].
    intros [= _ _ <- _]. now apply match_host_piece. }
  destruct (Regexp.match_scheme input) as [after|] eqn:S; [|exact Plain].
  destruct (Regexp.match_host after) as [h|] eqn:H; [|exact Plain].
  intros [= _ _ <- _].
  apply match_scheme_suffix in S as [pre ->].
  eapply has_substring_trans; [apply (match_host_piece _ _ H)|].
  apply suffix_has_substring.
Qed.

Lemma find_url_piece s m0 m1 rest :
  Regexp.find_url s = Some (m0 :: m1 :: rest) -> has_substring m1 s.
Proof.
  induction s as [|a s IH].
  - simpl. discriminate.
  - cbn [Regexp.find_url].
    destruct (Regexp.match_scheme (String a s)) as [after|] eqn:S.
    + destruct (Regexp.match_host after) as [h|] eqn:H.
      * intros [= _ <- _].
        apply match_scheme_suffix in S as [pre ->].
        eapply has_substring_trans; [apply (match_host_piece _ _ H)|].
        apply suffix_has_substring.
      * intros F. eapply has_substring_trans; [apply IH, F|].
        apply (suffix_has_substring (String a "")).
    + intros F. eapply has_substring_trans; [apply IH, F|].
      apply (suffix_has_substring (String a "")).
Qed.

Lemma TrimPrefix_piece s p : has_substring (TrimPrefix s p) s.
Proof.
  destruct (TrimPrefix_cases s p) as [[_ E]|[_ E]].
  - rewrite E at 2. apply suffix_has_substring.
  - rewrite E. apply has_substring_refl.
Qed.

Lemma Split_head_prefix s c : exists r, s = hd "" (Split s c) ++ r.
Proof.
  induction s as [|a s [r IH]]; simpl.
  - now exists "".
  - destruct (Ascii.eqb a c).
    + now exists (String a s).
    + destruct (Split s c) as [|x xs]; simpl in *.
      * exists s. reflexivity.
      * exists r. now rewrite <- IH.
Qed.

Lemma first_label_piece d : has_substring (first_label d) d.
Proof.
  unfold first_label. destruct (2 <=? _).
  - destruct (Split_head_prefix d ".") as [r E].
    rewrite E at 2. apply prefix_has_substring.
  - apply has_substring_refl.
Qed.

Lemma strip_conventional_piece d : has_substring (strip_conventional d) d.
Proof.
  unfold strip_conventional.
  repeat (eapply has_substring_trans; [apply TrimPrefix_piece|]).
  apply has_substring_refl.
Qed.

Lemma ExtractDomain_piece input : has_substring (ExtractDomain input) input.
Proof.
  unfold ExtractDomain.
  destruct (Regexp.find_anchored input) as [[|m0 [|m1 [|m2 rest]]]|] eqn:F;
    try apply has_substring_refl.
  eapply has_substring_trans; [apply first_label_piece|].
  eapply has_substring_trans; [apply strip_conventional_piece|].
  eapply find_anchored_piece, F.
Qed.

Lemma program_domain_piece s : has_substring (program_domain s) s.
Proof.
  unfold program_domain. destruct (Contains s "://").
  - destruct (Regexp.find_url s) as [[|m0 [|m1 rest]]|] eqn:F;
      try apply has_substring_refl.
    eapply find_url_piece, F.
  - apply has_substring_refl.
Qed.

End Pieces.

Section Organization.

(** C5, as stated, fails: the organization derived from
    [https://WWW.Example.com/x] is not [example], neither through [main]
    nor when [ExtractDomain] is given the raw line. *)
Lemma C5_organization_is_not_example :
  ExtractDomain (program_domain "https://WWW.Example.com/x") <> "example" /\
  ExtractDomain "https://WWW.Example.com/x" <> "example".
Proof. split; vm_compute; discriminate. Qed.

(** C5, amended.  On [https://WWW.Example.com/x] the organization name is
    [WWW]: the scheme is stripped whatever its letter case, together with
    everything from the first slash after the host, which leaves
    [WWW.Example.com]; the prefix [www.] is compared byte for byte, so
    [WWW.] stays; the split on dots returns the first label, in the letter
    case of the input.  With the host in lower case,
    [HTTPS://www.example.com/x], the name is [example].  In general the
    name is a contiguous piece of the input line, bytes unchanged. *)
Theorem C5_organization_keeps_case :
  program_domain "https://WWW.Example.com/x" = "WWW.Example.com" /\
  strip_conventional "WWW.Example.com" = "WWW.Example.com" /\
  ExtractDomain (program_domain "https://WWW.Example.com/x") = "WWW" /\
  ExtractDomain "https://WWW.Example.com/x" = "WWW" /\
  ExtractDomain (program_domain "HTTPS://www.example.com/x") = "example" /\
  (forall line, has_substring (ExtractDomain (program_domain line)) line).
Proof.
  repeat split; try reflexivity.
  intros line. eapply has_substring_trans.
  - apply ExtractDomain_piece.
  - apply program_domain_piece.
Qed.

(** The scope pattern: only [www.] is cut. *)
Lemma program_scope_www rest : program_scope ("www." ++ rest) = "*." ++ rest.
Proof. unfold program_scope. now rewrite TrimPrefix_append. Qed.

Lemma program_scope_other p rest :
  In p ["api."; "app."; "dev."; "test."] ->
  program_scope (p ++ rest) = "*." ++ p ++ rest.
Proof.
  simpl. intros H.
  repeat (destruct H as [<-|H]; [reflexivity|]). contradiction.
Qed.

End Organization.

(** ** Relations every step of a computation keeps *)

Section Keeps.

Variable R : World -> World -> Prop.
Hypothesis R_refl : forall w, R w w.
Hypothesis R_trans : forall a b c, R a b -> R b c -> R a c.

Lemma keeps_ret {A} (a : A) : keeps R (ret a).
Proof. intros w. apply R_refl. Qed.

Lemma keeps_bind {A B} (m : Prog A) (k : A -> Prog B) :
  keeps R m -> (forall a, keeps R (k a)) -> keeps R (bind m k).
Proof.
  intros Hm Hk w. unfold bind. specialize (Hm w).
  destruct (m w) as [a w1]. simpl in Hm.
  eapply R_trans; [exact Hm | apply Hk].
Qed.

End Keeps.

(** Splits a computation along its binds and case distinctions, for a
    relation with the given proofs of reflexivity and transitivity. *)
Ltac keeps_steps refl trans :=
  repeat match goal with
  | |- keeps _ (bind _ _) => apply (keeps_bind _ trans); [ | intros ? ]
  | |- keeps _ (ret _) => apply (keeps_ret _ refl)
  | |- keeps _ (match ?x with _ => _ end) => destruct x
  end.

Section ListFacts.

Context {A : Type}.

Lemma extends_refl (l : list A) : extends l l.
Proof. exists []. now rewrite app_nil_r. Qed.

Lemma extends_trans (a b c : list A) :
  extends a b -> extends b c -> extends a c.
Proof. intros [x ->] [y ->]. exists (x ++ y)%list. now rewrite app_assoc. Qed.

Lemma extends_snoc (l : list A) (x : A) : extends l (l ++ [x]).
Proof. now exists [x]. Qed.

Lemma find_extends (f : A -> bool) (l l' : list A) (x : A) :
  extends l l' -> find f l = Some x -> find f l' = Some x.
Proof.
  intros [added ->]. induction l as [|y l IH]; simpl; [discriminate|].
  destruct (f y); auto.
Qed.

Lemma find_none_existsb (f : A -> bool) (l : list A) :
  find f l = None <-> existsb f l = false.
Proof.
  induction l as [|y l IH]; simpl; [tauto|].
  destruct (f y); simpl; [split; discriminate | exact IH].
Qed.

Lemma find_snoc_none (f : A -> bool) (l : list A) (x : A) :
  find f l = None -> f x = true -> find f (l ++ [x]) = Some x.
Proof.
  induction l as [|y l IH]; simpl; intros N T.
  - now rewrite T.
  - destruct (f y); [discriminate | auto].
Qed.

Lemma filter_snoc (f : A -> bool) (l : list A) (x : A) :
  filter f (l ++ [x]) = (filter f l ++ if f x then [x] else [])%list.
Proof. rewrite filter_app. simpl. now destruct (f x). Qed.

End ListFacts.

Section Frames.

Lemma db_grows_refl d : db_grows d d.
Proof. repeat split; apply extends_refl. Qed.

Lemma db_grows_trans a b c : db_grows a b -> db_grows b c -> db_grows a c.
Proof.
  intros (P & T & O) (P' & T' & O').
  repeat split; eapply extends_trans; eassumption.
Qed.

Lemma only_adds_refl w : only_adds w w.
Proof. split; [apply db_grows_refl | apply extends_refl]. Qed.

Lemma only_adds_trans a b c : only_adds a b -> only_adds b c -> only_adds a c.
Proof.
  intros (D & O) (D' & O').
  split; [eapply db_grows_trans | eapply extends_trans]; eassumption.
Qed.

Lemma silent_refl w : silent w w.
Proof. now split. Qed.

Lemma silent_trans a b c : silent a b -> silent b c -> silent a c.
Proof. intros (O & D) (O' & D'). split; congruence. Qed.

(** The statements. *)

Lemma insert_program_grows name scope now d id d' :
  insert_program name scope now d = inr (id, d') ->
  db_grows d d' /\ recon_data d' = recon_data d /\ targets d' = targets d.
Proof.
  unfold insert_program. destruct (existsb _ _); [discriminate|].
  intros [= <- <-]. simpl. repeat split;
    try apply extends_refl; apply extends_snoc.
Qed.

Lemma insert_target_grows pid target type source lc now d id d' :
  insert_target pid target type source lc now d = inr (id, d') ->
  db_grows d d' /\ recon_data d' = recon_data d /\ programs d' = programs d.
Proof.
  unfold insert_target. destruct (existsb _ _); [discriminate|].
  intros [= <- <-]. simpl. repeat split;
    try apply extends_refl; apply extends_snoc.
Qed.

Lemma insert_recon_data_grows tid tool data context ts d id d' :
  insert_recon_data tid tool data context ts d = inr (id, d') ->
  db_grows d d'.
Proof.
  unfold insert_recon_data. intros [= <- <-]. simpl. repeat split;
    try apply extends_refl; apply extends_snoc.
Qed.

Lemma interfere_grows e now d :
  db_grows d (interfere e now d) /\
  recon_data (interfere e now d) = recon_data d.
Proof.
  destruct e as [| |name scope|pid target type source]; simpl;
    try (split; [apply db_grows_refl | reflexivity]).
  - destruct (insert_program name scope now d) as [err|[id d']] eqn:E.
    + split; [apply db_grows_refl | reflexivity].
    + apply insert_program_grows in E. tauto.
  - destruct (insert_target pid target type source now now d)
      as [err|[id d']] eqn:E.
    + split; [apply db_grows_refl | reflexivity].
    + apply insert_target_grows in E. tauto.
Qed.

End Frames.

(** ** The database file *)

Section DatabaseFile.

(** The lines [EnsureDBExists] prints are about no input line. *)
Lemma Bootstrap_printed fails dbPath file :
  let printed := snd (Bootstrap.EnsureDBExists fails dbPath file) in
  lines_of printed = [] /\ filter is_ok printed = [].
Proof.
  unfold Bootstrap.EnsureDBExists.
  destruct (fails Bootstrap.MkdirAll); [split; reflexivity|].
  destruct (Bootstrap.stat_ok fails file); [split; reflexivity|].
  destruct (fails Bootstrap.Create); [split; reflexivity|].
  destruct (fails Bootstrap.Open); [split; reflexivity|].
  destruct (fails Bootstrap.Ping); [split; reflexivity|].
  destruct (Bootstrap.InitSchema fails []) as [[stmt|] objects];
    split; reflexivity.
Qed.


(** What [EnsureDBExists] leaves alone, what it prints and what it
    returns. *)
Lemma EnsureDBExists_frame w :
  db (snd (EnsureDBExists w)) = db w /\
  stdin (snd (EnsureDBExists w)) = stdin w /\
  pending (snd (EnsureDBExists w)) = pending w /\
  open_fault (snd (EnsureDBExists w)) = open_fault w /\
  (exists printed,
     out (snd (EnsureDBExists w)) = (out w ++ printed)%list /\
     printed = snd (Bootstrap.EnsureDBExists (calls w) (db_path w) (file w))
     /\ lines_of printed = [] /\ filter is_ok printed = []) /\
  fst (EnsureDBExists w)
  = (if ensure_fault w then Some FailedEnsure else None) /\
  file (snd (EnsureDBExists w))
  = snd (fst (Bootstrap.EnsureDBExists (calls w) (db_path w) (file w))).
Proof.
  pose proof (Bootstrap_printed (calls w) (db_path w) (file w)) as P.
  unfold EnsureDBExists, ensure_fault. cbn zeta in P.
  destruct (Bootstrap.EnsureDBExists (calls w) (db_path w) (file w))
    as [[err f] printed].
  cbn [fst snd] in *.
  repeat (split; [reflexivity|]). split.
  - exists printed. cbn. tauto.
  - split; [destruct err; reflexivity | reflexivity].
Qed.

End DatabaseFile.

(** ** The pipeline only inserts *)

Section OnlyAdds.

Lemma arrive_only_adds : keeps only_adds arrive.
Proof.
  intros w. unfold arrive.
  destruct (hd Quiet (pending w)) eqn:E;
    cbn [snd db out set_clock set_db set_pending];
    (split; [first [apply interfere_grows | apply db_grows_refl]
            | apply extends_refl]).
Qed.

Lemma arrive_silent : keeps silent arrive.
Proof.
  intros w. unfold arrive.
  destruct (hd Quiet (pending w)) eqn:E;
    cbn [snd db out set_clock set_db set_pending]; split;
    try reflexivity; apply interfere_grows.
Qed.

Lemma query_only_adds {A} (stmt : DB -> SqlError + A) :
  keeps only_adds (query stmt).
Proof.
  unfold query. apply (keeps_bind _ only_adds_trans).
  - apply arrive_only_adds.
  - intros [|]; [|apply (keeps_ret _ only_adds_refl)].
    intros w. apply only_adds_refl.
Qed.

Lemma query_silent {A} (stmt : DB -> SqlError + A) : keeps silent (query stmt).
Proof.
  unfold query. apply (keeps_bind _ silent_trans).
  - apply arrive_silent.
  - intros [|]; [|apply (keeps_ret _ silent_refl)].
    intros w. apply silent_refl.
Qed.

(** An insert statement that, when it succeeds, relates the tables before
    and after by [P]. *)
Lemma exec_keeps (R : World -> World -> Prop) (P : DB -> DB -> Prop)
  (stmt : Z -> DB -> SqlError + (Z * DB)) :
  (forall w, R w w) ->
  (forall a b c, R a b -> R b c -> R a c) ->
  keeps R arrive ->
  (forall tm d id d', stmt tm d = inr (id, d') -> P d d') ->
  (forall w d', P (db w) d' -> R w (set_db d' w)) ->
  keeps R (exec stmt).
Proof.
  intros Refl Trans Arr Stmt Upd. unfold exec.
  apply (keeps_bind _ Trans); [exact Arr|].
  intros [|]; [|apply (keeps_ret _ Refl)].
  intros w. destruct (stmt (clock w) (db w)) as [err|[id d']] eqn:E; simpl.
  - apply Refl.
  - apply Upd. eapply Stmt, E.
Qed.

Lemma set_db_only_adds w d' : db_grows (db w) d' -> only_adds w (set_db d' w).
Proof. intros G. split; [exact G | apply extends_refl]. Qed.

Lemma set_db_silent w d' :
  recon_data d' = recon_data (db w) -> silent w (set_db d' w).
Proof. intros G. split; [reflexivity | exact G]. Qed.

Lemma exec_insert_target_only_adds pid target type source lc :
  keeps only_adds (exec (insert_target pid target type source lc)).
Proof.
  apply (exec_keeps only_adds db_grows);
    [ apply only_adds_refl | apply only_adds_trans | apply arrive_only_adds
    | | apply set_db_only_adds ].
  intros tm d id d' E. now apply insert_target_grows in E.
Qed.

Lemma exec_insert_target_silent pid target type source lc :
  keeps silent (exec (insert_target pid target type source lc)).
Proof.
  apply (exec_keeps silent (fun d d' => recon_data d' = recon_data d));
    [ apply silent_refl | apply silent_trans | apply arrive_silent
    | | apply set_db_silent ].
  intros tm d id d' E. now apply insert_target_grows in E.
Qed.

Lemma exec_insert_program_only_adds name scope :
  keeps only_adds (exec (insert_program name scope)).
Proof.
  apply (exec_keeps only_adds db_grows);
    [ apply only_adds_refl | apply only_adds_trans | apply arrive_only_adds
    | | apply set_db_only_adds ].
  intros tm d id d' E. now apply insert_program_grows in E.
Qed.

Lemma exec_insert_recon_data_only_adds tid tool data context ts :
  keeps only_adds (exec (fun _ => insert_recon_data tid tool data context ts)).
Proof.
  apply (exec_keeps only_adds db_grows);
    [ apply only_adds_refl | apply only_adds_trans | apply arrive_only_adds
    | | apply set_db_only_adds ].
  intros tm d id d' E. now apply insert_recon_data_grows in E.
Qed.

Lemma print_only_adds m : keeps only_adds (print m).
Proof.
  intros w. split; [apply db_grows_refl | apply extends_snoc].
Qed.

Lemma time_Now_only_adds : keeps only_adds time_Now.
Proof. intros w. split; [apply db_grows_refl | apply extends_refl]. Qed.

Lemma time_Now_silent : keeps silent time_Now.
Proof. intros w. now split. Qed.

Lemma GetOrCreateTarget_only_adds target tool pid :
  keeps only_adds (GetOrCreateTarget target tool pid).
Proof.
  unfold GetOrCreateTarget. keeps_steps only_adds_refl only_adds_trans;
    auto using query_only_adds, time_Now_only_adds,
      exec_insert_target_only_adds.
Qed.

Lemma GetOrCreateTarget_silent target tool pid :
  keeps silent (GetOrCreateTarget target tool pid).
Proof.
  unfold GetOrCreateTarget. keeps_steps silent_refl silent_trans;
    auto using query_silent, time_Now_silent, exec_insert_target_silent.
Qed.

Lemma GetOrCreateProgram_only_adds domain :
  keeps only_adds (GetOrCreateProgram domain).
Proof.
  unfold GetOrCreateProgram. keeps_steps only_adds_refl only_adds_trans;
    auto using query_only_adds, print_only_adds,
      exec_insert_program_only_adds.
Qed.

Lemma AddReconData_only_adds tid tool data context :
  keeps only_adds (AddReconData tid tool data context).
Proof.
  unfold AddReconData. keeps_steps only_adds_refl only_adds_trans;
    auto using time_Now_only_adds, exec_insert_recon_data_only_adds.
Qed.

Lemma process_targets_only_adds targets tool pid count :
  keeps only_adds (process_targets targets tool pid count).
Proof.
  revert count; induction targets as [|target rest IH]; intros count;
    cbn [process_targets];
    keeps_steps only_adds_refl only_adds_trans;
    auto using GetOrCreateTarget_only_adds, AddReconData_only_adds,
      print_only_adds.
Qed.

Lemma ingest_only_adds targets first tool :
  keeps only_adds (ingest targets first tool).
Proof.
  unfold ingest. keeps_steps only_adds_refl only_adds_trans;
    auto using GetOrCreateProgram_only_adds, process_targets_only_adds,
      print_only_adds.
Qed.

Lemma EnsureDBExists_only_adds : keeps only_adds EnsureDBExists.
Proof.
  intros w.
  destruct (EnsureDBExists_frame w) as (D & _ & _ & _ & (printed & O & _) & _).
  split; [rewrite D; apply db_grows_refl | rewrite O; now exists printed].
Qed.

Lemma HasStdinData_only_adds : keeps only_adds HasStdinData.
Proof. intros w. apply only_adds_refl. Qed.

Lemma InitDB_only_adds : keeps only_adds InitDB.
Proof.
  intros w. unfold InitDB. destruct (open_fault w); apply only_adds_refl.
Qed.

Lemma read_stdin_only_adds : keeps only_adds read_stdin.
Proof. intros w. split; [apply db_grows_refl | apply extends_refl]. Qed.

Lemma main_only_adds : keeps only_adds main.
Proof.
  intros w0. unfold main.
  generalize (db_path w0). intros dbPath. revert w0.
  change (keeps only_adds
    (piped <- HasStdinData ;;
     if negb piped then
       print MsgNoInput ;; print (MsgEnsuring dbPath) ;;
       e <- EnsureDBExists ;;
       match e with
       | Some err => print (LogFatal err) ;; ret 1
       | None => print MsgDbReady ;; print MsgUsageEcho ;;
                 print MsgUsageSubfinder ;; ret 0
       end
     else
       print (MsgTool DetectTool) ;; print (MsgDatabase dbPath) ;;
       e <- EnsureDBExists ;;
       match e with
       | Some err => print (LogFatal err) ;; ret 1
       | None =>
           e' <- InitDB ;;
           match e' with
           | Some err => print (LogFatal err) ;; ret 1
           | None =>
               print MsgReading ;;
               tf <- read_stdin ;;
               let (targets, firstTarget) := tf in
               if (Z.of_nat (List.length targets) =? 0) then
                 print MsgNoValidTargets ;; ret 1
               else ingest targets firstTarget DetectTool
           end
       end)).
  keeps_steps only_adds_refl only_adds_trans;
    auto using print_only_adds, EnsureDBExists_only_adds, ingest_only_adds,
      HasStdinData_only_adds, InitDB_only_adds, read_stdin_only_adds.
Qed.

End OnlyAdds.

(** ** Runs without failures and without competitors *)

Section Calm.

Lemma calm_tl w : calm w -> Forall (eq Quiet) (tl (pending w)).
Proof.
  unfold calm. destruct (pending w); simpl; [auto|]. now inversion 1.
Qed.

Lemma calm_hd w : calm w -> hd Quiet (pending w) = Quiet.
Proof.
  unfold calm. destruct (pending w); simpl; [auto|]. now inversion 1.
Qed.

Lemma arrive_calm w :
  calm w ->
  exists w1, arrive w = (true, w1) /\ calm w1 /\ db w1 = db w /\
             out w1 = out w.
Proof.
  intros C. unfold arrive. rewrite (calm_hd w C). eexists. split; [reflexivity|].
  repeat split. apply (calm_tl w C).
Qed.

Lemma time_Now_calm w :
  calm w ->
  calm (snd (time_Now w)) /\ db (snd (time_Now w)) = db w /\
  out (snd (time_Now w)) = out w.
Proof. intros C. repeat split. exact C. Qed.

(** Resolve-or-create of a target: the row found, or the row inserted. *)
Lemma GetOrCreateTarget_calm target tool pid w r w' :
  calm w ->
  GetOrCreateTarget target tool pid w = (r, w') ->
  calm w' /\ out w' = out w /\
  programs (db w') = programs (db w) /\
  recon_data (db w') = recon_data (db w) /\
  match find (target_keyed target pid) (targets (db w)) with
  | Some row => r = inr (t_id row) /\ db w' = db w
  | None =>
      exists row,
        r = inr (t_id row) /\
        targets (db w') = (targets (db w) ++ [row])%list /\
        t_program_id row = pid /\ t_target row = target /\
        t_type row = Some (ClassifyTarget target) /\
        t_source row = Some tool /\
        t_alive row = false /\ t_tested row = false
  end.
Proof.
  intros C. unfold GetOrCreateTarget, query, bind.
  destruct (arrive_calm w C) as (w1 & -> & C1 & D1 & O1).
  unfold select_target_id. rewrite D1.
  destruct (find (target_keyed target pid) (targets (db w))) as [row|] eqn:F.
  - unfold ret. intros [= <- <-]. rewrite D1, O1. tauto.
  - destruct (time_Now_calm w1 C1) as (C2 & D2 & O2).
    destruct (time_Now w1) as [now w2]. simpl in C2, D2, O2.
    unfold exec, bind.
    destruct (arrive_calm w2 C2) as (w3 & -> & C3 & D3 & O3).
    unfold insert_target. rewrite D3, D2, D1.
    apply find_none_existsb in F. rewrite F.
    unfold ret. intros [= <- <-]. simpl.
    split; [exact C3|]. repeat (split; [congruence|]).
    eexists; split; [|split; [reflexivity | repeat split]]; reflexivity.
Qed.

(** Appending an observation. *)
Lemma AddReconData_calm tid tool data context w r w' :
  calm w ->
  AddReconData tid tool data context w = (r, w') ->
  r = None /\ calm w' /\ out w' = out w /\
  programs (db w') = programs (db w) /\
  targets (db w') = targets (db w) /\
  exists row,
    recon_data (db w') = (recon_data (db w) ++ [row])%list /\
    r_target_id row = tid /\ r_tool row = tool /\ r_data row = data /\
    r_context row = Some context.
Proof.
  intros C. unfold AddReconData, bind.
  destruct (time_Now_calm w C) as (C2 & D2 & O2).
  destruct (time_Now w) as [now w2]. simpl in C2, D2, O2.
  unfold exec, bind.
  destruct (arrive_calm w2 C2) as (w3 & -> & C3 & D3 & O3).
  unfold insert_recon_data, ret. intros [= <- <-]. simpl.
  rewrite D3, D2. split; [reflexivity|]. split; [exact C3|].
  repeat (split; [congruence|]).
  eexists. repeat split.
Qed.

(** Resolve-or-create of a program. *)
Lemma GetOrCreateProgram_calm domain w r w' :
  calm w ->
  GetOrCreateProgram domain w = (r, w') ->
  calm w' /\
  targets (db w') = targets (db w) /\
  recon_data (db w') = recon_data (db w) /\
  match find (program_named (ExtractDomain domain)) (programs (db w)) with
  | Some row => r = inr (p_id row) /\ db w' = db w
  | None =>
      exists row,
        r = inr (p_id row) /\
        programs (db w') = (programs (db w) ++ [row])%list /\
        p_name row = ExtractDomain domain /\
        p_scope row = Some (program_scope domain) /\
        p_url row = None /\ p_out_of_scope row = None /\
        p_bounty_notes row = None
  end.
Proof.
  intros C. unfold GetOrCreateProgram, query, bind.
  destruct (arrive_calm w C) as (w1 & -> & C1 & D1 & O1).
  unfold select_program_id. rewrite D1.
  destruct (find (program_named (ExtractDomain domain)) (programs (db w)))
    as [row|] eqn:F.
  - unfold print, ret. intros [= <- <-]. simpl. rewrite D1. tauto.
  - unfold exec, bind.
    destruct (arrive_calm w1 C1) as (w3 & -> & C3 & D3 & O3).
    unfold insert_program. rewrite D3, D1.
    apply find_none_existsb in F. rewrite F.
    unfold print, ret. intros [= <- <-]. simpl.
    split; [exact C3|]. repeat (split; [congruence|]).
    eexists; split; [|split; [reflexivity | repeat split]]; reflexivity.
Qed.

End Calm.

Section ProgramCreation.

(** C6. A program that is created gets the scope [*.] followed by the
    string [GetOrCreateProgram] was given, less a leading [www.] and no
    other prefix, while its name is derived with all five prefixes
    stripped: a first line [api.example.com] creates the program [example]
    with scope [*.api.example.com]. *)
Theorem C6_scope_strips_only_www :
  (forall w domain,
     calm w ->
     find (program_named (ExtractDomain domain)) (programs (db w)) = None ->
     exists row,
       fst (GetOrCreateProgram domain w) = inr (p_id row) /\
       programs (db (snd (GetOrCreateProgram domain w)))
         = (programs (db w) ++ [row])%list /\
       p_name row = ExtractDomain domain /\
       p_scope row = Some ("*." ++ TrimPrefix domain "www.")) /\
  (forall rest, program_scope ("www." ++ rest) = "*." ++ rest) /\
  (forall p rest,
     In p ["api."; "app."; "dev."; "test."] ->
     program_scope (p ++ rest) = "*." ++ p ++ rest) /\
  ExtractDomain "api.example.com" = "example" /\
  map (fun row => (p_name row, p_scope row))
      (programs (db (snd (main (fresh_world ["api.example.com"] [])))))
    = [("example", Some "*.api.example.com")].
Proof.
  split; [|split; [|split; [|split]]].
  - intros w domain C F.
    destruct (GetOrCreateProgram domain w) as [r w'] eqn:E.
    destruct (GetOrCreateProgram_calm domain w r w' C E) as (_ & _ & _ & H).
    rewrite F in H. destruct H as (row & -> & P & N & S & _).
    exists row. auto.
  - apply program_scope_www.
  - apply program_scope_other.
  - reflexivity.
  - vm_compute. reflexivity.
Qed.

(** The first program of a fresh store. *)
Lemma C6_scope_strips_only_www_witness :
  exists row,
    fst (GetOrCreateProgram "api.example.com" (fresh_world [] []))
      = inr (p_id row) /\
    programs (db (snd (GetOrCreateProgram "api.example.com"
                         (fresh_world [] [])))) = [row] /\
    p_name row = "example" /\
    p_scope row = Some "*.api.example.com".
Proof.
  apply (proj1 C6_scope_strips_only_www (fresh_world [] []) "api.example.com").
  - constructor.
  - reflexivity.
Defined.

(** C8. The pipeline never changes a row that exists: whatever happens at
    the store, after [main] (and after the ingestion proper) each table
    holds the rows it held, unchanged and in place, followed by inserted
    rows.  On a repeat sighting [GetOrCreateTarget] returns the identifier
    of the row it finds and leaves the tables as they are, and so does
    [GetOrCreateProgram] for a program that exists. *)
Theorem C8_existing_rows_untouched :
  (forall w, only_adds w (snd (main w))) /\
  (forall targets first tool w,
     only_adds w (snd (ingest targets first tool w))) /\
  (forall w target tool pid row,
     calm w ->
     find (target_keyed target pid) (targets (db w)) = Some row ->
     fst (GetOrCreateTarget target tool pid w) = inr (t_id row) /\
     db (snd (GetOrCreateTarget target tool pid w)) = db w) /\
  (forall w domain row,
     calm w ->
     find (program_named (ExtractDomain domain)) (programs (db w))
       = Some row ->
     fst (GetOrCreateProgram domain w) = inr (p_id row) /\
     db (snd (GetOrCreateProgram domain w)) = db w).
Proof.
  split; [|split; [|split]].
  - apply main_only_adds.
  - intros targets first tool. apply ingest_only_adds.
  - intros w target tool pid row C F.
    destruct (GetOrCreateTarget target tool pid w) as [r w'] eqn:E.
    destruct (GetOrCreateTarget_calm _ _ _ _ _ _ C E) as (_ & _ & _ & _ & H).
    rewrite F in H. simpl. tauto.
  - intros w domain row C F.
    destruct (GetOrCreateProgram domain w) as [r w'] eqn:E.
    destruct (GetOrCreateProgram_calm _ _ _ _ C E) as (_ & _ & _ & H).
    rewrite F in H. simpl. tauto.
Qed.

(** A second sighting of [example.com] after a first run. *)
Lemma C8_existing_rows_untouched_witness :
  let w1 := snd (main (fresh_world ["example.com"] [])) in
  exists row,
    fst (GetOrCreateTarget "example.com" "other_tool" 1 w1) = inr (t_id row) /\
    db (snd (GetOrCreateTarget "example.com" "other_tool" 1 w1)) = db w1.
Proof.
  intros w1.
  destruct (find (target_keyed "example.com" 1) (targets (db w1)))
    as [row|] eqn:F; [|vm_compute in F; discriminate F].
  exists row.
  apply (proj1 (proj2 (proj2 C8_existing_rows_untouched))).
  - unfold calm. vm_compute. constructor.
  - exact F.
Defined.

End ProgramCreation.

(** ** The loop over the lines *)

Section Loop.

Lemma lines_of_app o o' : lines_of (o ++ o') = (lines_of o ++ lines_of o')%list.
Proof.
  induction o as [|m o IH]; simpl; [reflexivity|].
  destruct (line_of m); simpl; now rewrite IH.
Qed.

Lemma ok_count_app o o' : ok_count (o ++ o') = ok_count o + ok_count o'.
Proof.
  unfold ok_count. rewrite filter_app, length_app. lia.
Qed.

Lemma ok_count_snoc_other o m : is_ok m = false -> ok_count (o ++ [m]) = ok_count o.
Proof.
  intros H. rewrite ok_count_app. unfold ok_count at 2. simpl. rewrite H.
  simpl. lia.
Qed.

Lemma ok_count_snoc_ok o t : ok_count (o ++ [MsgOk t]) = ok_count o + 1.
Proof. rewrite ok_count_app. reflexivity. Qed.

Lemma lines_of_snoc o m t :
  line_of m = Some t -> lines_of (o ++ [m]) = (lines_of o ++ [t])%list.
Proof. intros H. rewrite lines_of_app. simpl. now rewrite H. Qed.

Lemma lines_of_snoc_none o m :
  line_of m = None -> lines_of (o ++ [m]) = lines_of o.
Proof.
  intros H. rewrite lines_of_app. simpl. rewrite H. apply app_nil_r.
Qed.

Lemma ok_count_nonneg o : 0 <= ok_count o.
Proof. unfold ok_count. lia. Qed.

(** An observation is appended exactly when [AddReconData] returns nil. *)
Lemma AddReconData_any tid tool data context w :
  let r := AddReconData tid tool data context w in
  out (snd r) = out w /\
  match fst r with
  | None =>
      exists row,
        recon_data (db (snd r)) = (recon_data (db w) ++ [row])%list /\
        r_target_id row = tid /\ r_data row = data
  | Some _ => recon_data (db (snd r)) = recon_data (db w)
  end.
Proof.
  unfold AddReconData, bind, time_Now, exec, bind.
  set (w1 := set_clock (clock w + 1) w).
  pose proof (arrive_silent w1) as (O & D). simpl in O, D.
  destruct (arrive w1) as [[|] w2]; simpl in *.
  - split; [exact O|]. eexists. rewrite D. repeat split.
  - split; [exact O | exact D].
Qed.

Lemma process_targets_cons t rest tool pid c w :
  process_targets (t :: rest) tool pid c w =
  match GetOrCreateTarget t tool pid w with
  | (inl err, w1) =>
      process_targets rest tool pid c (snd (print (LogTargetError t err) w1))
  | (inr tid, w1) =>
      match AddReconData tid tool t ("Discovered via " ++ tool) w1 with
      | (Some err, w2) =>
          process_targets rest tool pid c
            (snd (print (LogReconError t err) w2))
      | (None, w2) =>
          process_targets rest tool pid (c + 1) (snd (print (MsgOk t) w2))
      end
  end.
Proof.
  cbn [process_targets]. unfold bind.
  destruct (GetOrCreateTarget t tool pid w) as [[err|tid] w1];
    [reflexivity|].
  destruct (AddReconData tid tool t ("Discovered via " ++ tool) w1)
    as [[err|] w2]; reflexivity.
Qed.

(** What one turn of the loop does to the counter, the output and the
    observations. *)
Lemma process_targets_one t tool pid c w :
  let one := process_targets [t] tool pid c w in
  (fst one = c + 1 \/ fst one = c) /\
  (fst one = c + 1 <->
   exists tid,
     fst (GetOrCreateTarget t tool pid w) = inr tid /\
     fst (AddReconData tid tool t ("Discovered via " ++ tool)
            (snd (GetOrCreateTarget t tool pid w))) = None) /\
  lines_of (out (snd one)) = (lines_of (out w) ++ [t])%list /\
  ok_count (out (snd one)) = ok_count (out w) + (fst one - c) /\
  Z.of_nat (List.length (recon_data (db (snd one))))
    = Z.of_nat (List.length (recon_data (db w))) + (fst one - c).
Proof.
  rewrite process_targets_cons.
  remember ("Discovered via " ++ tool) as context eqn:Ctx. clear Ctx.
  pose proof (GetOrCreateTarget_silent t tool pid w) as (O1 & D1).
  destruct (GetOrCreateTarget t tool pid w) as [[err|tid] w1];
    cbn [fst snd] in *.
  - cbn [process_targets ret print fst snd out db set_out].
    rewrite (ok_count_snoc_other _ (LogTargetError t err) eq_refl).
    rewrite (lines_of_snoc _ (LogTargetError t err) t eq_refl).
    rewrite O1, D1. repeat split; try lia; auto.
    intros (tid & H & _). discriminate H.
  - pose proof (AddReconData_any tid tool t context w1) as (O2 & D2).
    destruct (AddReconData tid tool t context w1) as [[err|] w2] eqn:E2;
      cbn [fst snd] in *;
      cbn [process_targets ret print fst snd out db set_out].
    + rewrite (ok_count_snoc_other _ (LogReconError t err) eq_refl).
      rewrite (lines_of_snoc _ (LogReconError t err) t eq_refl).
      rewrite O2, O1, D2, D1. repeat split; try lia; auto.
      intros (tid' & [= <-] & H). rewrite E2 in H. discriminate H.
    + rewrite ok_count_snoc_ok.
      rewrite (lines_of_snoc _ (MsgOk t) t eq_refl).
      destruct D2 as (row & -> & _). rewrite length_app, O2, O1, D1.
      cbn [List.length]. repeat split; try lia; auto.
      intros _. exists tid. split; [reflexivity|]. now rewrite E2.
Qed.

End Loop.

Section Batch.

(** Whatever happened to a line, the loop goes on with the next one. *)
Lemma process_targets_next t rest tool pid c w :
  process_targets (t :: rest) tool pid c w =
  process_targets rest tool pid
    (fst (process_targets [t] tool pid c w))
    (snd (process_targets [t] tool pid c w)).
Proof.
  rewrite !process_targets_cons.
  destruct (GetOrCreateTarget t tool pid w) as [[err|tid] w1];
    [reflexivity|].
  destruct (AddReconData tid tool t ("Discovered via " ++ tool) w1)
    as [[err|] w2]; reflexivity.
Qed.

Lemma process_targets_counts ts tool pid c w :
  let r := process_targets ts tool pid c w in
  c <= fst r <= c + Z.of_nat (List.length ts) /\
  lines_of (out (snd r)) = (lines_of (out w) ++ ts)%list /\
  ok_count (out (snd r)) = ok_count (out w) + (fst r - c) /\
  Z.of_nat (List.length (recon_data (db (snd r))))
    = Z.of_nat (List.length (recon_data (db w))) + (fst r - c).
Proof.
  revert c w; induction ts as [|t rest IH]; intros c w.
  - simpl. rewrite app_nil_r. repeat split; lia.
  - rewrite process_targets_next.
    destruct (process_targets_one t tool pid c w) as (Step & _ & L & K & D).
    destruct (process_targets [t] tool pid c w) as [c1 w1].
    cbn [fst snd] in *.
    specialize (IH c1 w1). cbn zeta in IH.
    destruct IH as (B & L' & K' & D').
    rewrite L', K', D', L, K, D, <- app_assoc.
    change (List.length (t :: rest)) with (S (List.length rest)).
    repeat split; try reflexivity; lia.
Qed.

Lemma scan_lines_targets lines acc first :
  fst (scan_lines lines acc first) = (acc ++ non_blank_trimmed lines)%list.
Proof.
  unfold non_blank_trimmed.
  revert acc first; induction lines as [|text lines IH]; intros acc first;
    simpl.
  - now rewrite app_nil_r.
  - destruct (String.eqb (Space.TrimSpace text) ""); simpl.
    + apply IH.
    + rewrite IH, <- app_assoc. reflexivity.
Qed.

Lemma scan_lines_first lines acc first :
  snd (scan_lines lines acc first) =
  if String.eqb first "" then hd "" (non_blank_trimmed lines) else first.
Proof.
  unfold non_blank_trimmed.
  revert acc first; induction lines as [|text lines IH]; intros acc first;
    simpl.
  - destruct first; reflexivity.
  - destruct (String.eqb (Space.TrimSpace text) "") eqn:E; simpl.
    + apply IH.
    + rewrite IH. destruct (String.eqb first "") eqn:F.
      * now rewrite E.
      * now rewrite F.
Qed.

(** [ingest], one step at a time. *)
Lemma ingest_unfold ts first tool w :
  ingest ts first tool w =
  let w0 :=
    snd (print (MsgExtracted (program_domain first))
           (snd (print (MsgFound (Z.of_nat (List.length ts))) w))) in
  match GetOrCreateProgram (program_domain first) w0 with
  | (inl err, w1) => (1, snd (print (LogFatal err) w1))
  | (inr pid, w1) =>
      let r := process_targets ts tool pid 0 w1 in
      let w2 :=
        snd (print (MsgCompleted (fst r) (Z.of_nat (List.length ts)) pid)
               (snd r)) in
      if fst r >? 0 then (0, snd (print MsgNext w2))
      else (1, snd (print MsgNoneProcessed w2))
  end.
Proof.
  unfold ingest, bind. cbn [print fst snd].
  destruct (GetOrCreateProgram _ _) as [[err|pid] w1]; [reflexivity|].
  destruct (process_targets ts tool pid 0 w1) as [c w2]. cbn [fst snd].
  destruct (c >? 0); reflexivity.
Qed.

(** What [ingest] answers and reports. *)
Lemma ingest_report ts first tool w :
  let w0 :=
    snd (print (MsgExtracted (program_domain first))
           (snd (print (MsgFound (Z.of_nat (List.length ts))) w))) in
  match GetOrCreateProgram (program_domain first) w0 with
  | (inl err, w1) =>
      fst (ingest ts first tool w) = 1 /\
      out (snd (ingest ts first tool w)) = (out w1 ++ [LogFatal err])%list /\
      db (snd (ingest ts first tool w)) = db w1 /\
      pending (snd (ingest ts first tool w)) = pending w1
  | (inr pid, w1) =>
      let r := process_targets ts tool pid 0 w1 in
      fst (ingest ts first tool w) = (if fst r >? 0 then 0 else 1) /\
      out (snd (ingest ts first tool w)) =
        (out (snd r) ++
         [MsgCompleted (fst r) (Z.of_nat (List.length ts)) pid;
          if fst r >? 0 then MsgNext else MsgNoneProcessed])%list /\
      db (snd (ingest ts first tool w)) = db (snd r) /\
      pending (snd (ingest ts first tool w)) = pending (snd r)
  end.
Proof.
  rewrite ingest_unfold. cbn zeta.
  destruct (GetOrCreateProgram _ _) as [[err|pid] w1].
  - repeat split.
  - destruct (fst (process_targets ts tool pid 0 w1) >? 0);
      cbn [print ret fst snd out db pending set_out];
      rewrite <- app_assoc; repeat split.
Qed.

End Batch.

(** ** The whole of [main] *)

Section Main.

(** [main] when data is piped in, one step at a time. *)
Lemma main_piped_eq w :
  piped w ->
  main w =
  let w1 :=
    snd (print (MsgDatabase (db_path w))
           (snd (print (MsgTool DetectTool) w))) in
  match EnsureDBExists w1 with
  | (Some err, w2) => (1, snd (print (LogFatal err) w2))
  | (None, w2) =>
      match InitDB w2 with
      | (Some err, w3) => (1, snd (print (LogFatal err) w3))
      | (None, w3) =>
          let w4 := snd (read_stdin (snd (print MsgReading w3))) in
          let tf := scan_lines (stdin w3) [] "" in
          if Z.of_nat (List.length (fst tf)) =? 0
          then (1, snd (print MsgNoValidTargets w4))
          else ingest (fst tf) (snd tf) DetectTool w4
      end
  end.
Proof.
  intros P. unfold main, bind, HasStdinData. unfold piped in P.
  rewrite P. cbn [Z.eqb negb fst snd print].
  destruct (EnsureDBExists _) as [[err|] w2]; [reflexivity|].
  destruct (InitDB w2) as [[err|] w3]; [reflexivity|].
  cbn [read_stdin fst snd print stdin set_out].
  destruct (scan_lines (stdin w3) [] "") as [ts first]. cbn [fst snd].
  destruct (Z.of_nat (List.length ts) =? 0); reflexivity.
Qed.

(** The ways [main] can go when data is piped in. *)
Lemma main_cases w :
  piped w ->
  let ts := non_blank_trimmed (stdin w) in
  (fst (main w) = 1 /\ db (snd (main w)) = db w /\
   ok_count (out (snd (main w))) = ok_count (out w) /\
   lines_of (out (snd (main w))) = lines_of (out w) /\
   (ensure_fault w = true \/ open_fault w = true \/ ts = []))
  \/
  (ensure_fault w = false /\ open_fault w = false /\ ts <> [] /\
   exists w0,
     main w = ingest ts (hd "" ts) DetectTool w0 /\
     db w0 = db w /\ pending w0 = pending w /\
     ok_count (out w0) = ok_count (out w) /\
     lines_of (out w0) = lines_of (out w)).
Proof.
  intros P ts. rewrite (main_piped_eq w P). cbn zeta.
  assert (Scan : scan_lines (stdin w) [] "" = (ts, hd "" ts)).
  { rewrite (surjective_pairing (scan_lines (stdin w) [] "")).
    now rewrite scan_lines_targets, scan_lines_first. }
  remember (snd (print (MsgDatabase (db_path w))
                   (snd (print (MsgTool DetectTool) w)))) as w1 eqn:W1.
  assert (F1 : ensure_fault w1 = ensure_fault w /\ db w1 = db w /\
               stdin w1 = stdin w /\ pending w1 = pending w /\
               open_fault w1 = open_fault w /\
               ok_count (out w1) = ok_count (out w) /\
               lines_of (out w1) = lines_of (out w)).
  { subst w1. cbn [print fst snd out set_out].
    rewrite !ok_count_app, !lines_of_app. cbn. rewrite !app_nil_r.
    repeat split; lia. }
  clear W1. destruct F1 as (EF1 & D1 & S1 & P1 & OF1 & K1 & L1).
  destruct (EnsureDBExists_frame w1)
    as (D2 & S2 & P2 & OF2 & (printed & O2 & _ & L2 & K2) & R2 & _).
  assert (K2' : ok_count (out (snd (EnsureDBExists w1))) = ok_count (out w)).
  { rewrite O2, ok_count_app, K1. unfold ok_count at 2. rewrite K2.
    simpl. lia. }
  assert (L2' : lines_of (out (snd (EnsureDBExists w1))) = lines_of (out w)).
  { now rewrite O2, lines_of_app, L2, app_nil_r, L1. }
  clear O2 L2 K2 printed.
  destruct (EnsureDBExists w1) as [e w2]. cbn [fst snd] in *.
  rewrite EF1 in R2. subst e.
  destruct (ensure_fault w) eqn:EF.
  { left. cbn [print fst snd out db set_out].
    rewrite ok_count_app, lines_of_app. cbn. rewrite app_nil_r.
    repeat split; try congruence; try lia; auto. }
  unfold InitDB. rewrite OF2, OF1.
  destruct (open_fault w) eqn:OF.
  { left. cbn [print fst snd out db set_out].
    rewrite ok_count_app, lines_of_app. cbn. rewrite app_nil_r.
    repeat split; try congruence; try lia; auto. }
  rewrite S2, S1, Scan. cbn [fst snd].
  destruct ts as [|t ts'] eqn:Ts.
  - left. cbn [read_stdin print fst snd out db set_out set_stdin List.length
               Z.of_nat Z.eqb].
    rewrite !ok_count_app, !lines_of_app. cbn. rewrite !app_nil_r.
    repeat split; try congruence; try lia; auto.
  - right. repeat split; try discriminate.
    eexists. split; [reflexivity|].
    cbn [read_stdin print fst snd out db set_out set_stdin pending].
    rewrite !ok_count_app, !lines_of_app. cbn. rewrite !app_nil_r.
    repeat split; try congruence; lia.
Qed.

End Main.

Section ExitStatus.

Lemma no_line_refl w : no_line w w.
Proof. now split. Qed.

Lemma no_line_trans a b c : no_line a b -> no_line b c -> no_line a c.
Proof. intros (K & L) (K' & L'). split; congruence. Qed.

Lemma arrive_no_line : keeps no_line arrive.
Proof.
  intros w. unfold arrive. destruct (hd Quiet (pending w)); now split.
Qed.

Lemma query_no_line {A} (stmt : DB -> SqlError + A) :
  keeps no_line (query stmt).
Proof.
  unfold query. apply (keeps_bind _ no_line_trans).
  - apply arrive_no_line.
  - intros [|]; [|apply (keeps_ret _ no_line_refl)].
    intros w. apply no_line_refl.
Qed.

Lemma exec_no_line stmt : keeps no_line (exec stmt).
Proof.
  apply (exec_keeps no_line (fun _ _ => True));
    [ apply no_line_refl | apply no_line_trans | apply arrive_no_line
    | trivial | intros w d' _; now split ].
Qed.

Lemma print_no_line m : line_of m = None -> keeps no_line (print m).
Proof.
  intros N w. split; cbn [print snd out set_out].
  - apply ok_count_snoc_other. now destruct m.
  - now apply lines_of_snoc_none.
Qed.

Lemma GetOrCreateProgram_no_line domain :
  keeps no_line (GetOrCreateProgram domain).
Proof.
  unfold GetOrCreateProgram. keeps_steps no_line_refl no_line_trans;
    auto using query_no_line, exec_no_line, print_no_line.
Qed.

(** The exit status of the ingestion is 1 exactly when no line went
    through. *)
Lemma ingest_exit ts first tool w :
  let r := ingest ts first tool w in
  (fst r = 0 \/ fst r = 1) /\
  (fst r = 1 <-> ok_count (out (snd r)) = ok_count (out w)) /\
  ok_count (out w) <= ok_count (out (snd r)).
Proof.
  cbn zeta. pose proof (ingest_report ts first tool w) as R. cbn zeta in R.
  set (w0 := snd (print (MsgExtracted (program_domain first))
                    (snd (print (MsgFound (Z.of_nat (List.length ts))) w))))
    in *.
  assert (K0 : ok_count (out w0) = ok_count (out w)).
  { subst w0. cbn [print snd out set_out].
    now rewrite !ok_count_snoc_other by reflexivity. }
  pose proof (GetOrCreateProgram_no_line (program_domain first) w0) as (K1 & _).
  destruct (GetOrCreateProgram (program_domain first) w0) as [[err|pid] w1];
    cbn [snd] in K1.
  - destruct R as (-> & -> & _).
    rewrite ok_count_snoc_other by reflexivity. rewrite K1, K0.
    repeat split; auto; lia.
  - destruct R as (-> & -> & _).
    destruct (process_targets_counts ts tool pid 0 w1) as (B & _ & K & _).
    set (r := process_targets ts tool pid 0 w1) in *.
    rewrite ok_count_app.
    replace (ok_count [MsgCompleted (fst r) (Z.of_nat (List.length ts)) pid;
                       if fst r >? 0 then MsgNext else MsgNoneProcessed])
      with 0 by (now destruct (fst r >? 0)).
    rewrite K, K1, K0.
    destruct (fst r >? 0) eqn:G.
    + apply Z.gtb_lt in G. repeat split; auto; try lia.
    + assert (fst r = 0) by (rewrite Z.gtb_ltb in G; apply Z.ltb_ge in G; lia).
      repeat split; auto; lia.
Qed.

End ExitStatus.

Section Containment.

(** C7. A failure on one line does not stop the batch.  [targets] holds
    the non-blank trimmed input lines, so [totalCount] is their number.
    The loop reports on every line, in order, whatever happened to the
    lines before; [processedCount] ends between 0 and [totalCount], and
    equals the number of lines reported as processed.  One turn of the
    loop raises the counter by
    one exactly when the target was resolved or created and the
    observation appended, leaves it unchanged otherwise, and in each case
    the loop goes on with the remaining lines.  [main] hands exactly these
    lines to the ingestion, which reports [processedCount] and
    [totalCount] at its end. *)
Theorem C7_line_failures_contained :
  (forall lines, fst (scan_lines lines [] "") = non_blank_trimmed lines) /\
  (forall ts tool pid w,
     let r := process_targets ts tool pid 0 w in
     0 <= fst r <= Z.of_nat (List.length ts) /\
     lines_of (out (snd r)) = (lines_of (out w) ++ ts)%list /\
     fst r = ok_count (out (snd r)) - ok_count (out w)) /\
  (forall t rest tool pid c w,
     let one := process_targets [t] tool pid c w in
     process_targets (t :: rest) tool pid c w
       = process_targets rest tool pid (fst one) (snd one) /\
     (fst one = c + 1 \/ fst one = c) /\
     (fst one = c + 1 <->
      exists tid,
        fst (GetOrCreateTarget t tool pid w) = inr tid /\
        fst (AddReconData tid tool t ("Discovered via " ++ tool)
               (snd (GetOrCreateTarget t tool pid w))) = None)) /\
  (forall w,
     piped w -> ensure_fault w = false -> open_fault w = false ->
     non_blank_trimmed (stdin w) <> [] ->
     exists w0,
       main w = ingest (non_blank_trimmed (stdin w))
                  (hd "" (non_blank_trimmed (stdin w))) DetectTool w0) /\
  (forall ts first tool w,
     (exists err, In (LogFatal err) (out (snd (ingest ts first tool w)))) \/
     (exists pid w1,
        let r := process_targets ts tool pid 0 w1 in
        0 <= fst r <= Z.of_nat (List.length ts) /\
        out (snd (ingest ts first tool w)) =
          (out (snd r) ++
           [MsgCompleted (fst r) (Z.of_nat (List.length ts)) pid;
            if fst r >? 0 then MsgNext else MsgNoneProcessed])%list)) /\
  (let w := fresh_world ["a.example.com"; " "; "b.example.com"]
              [Quiet; Quiet; IOFailure] in
   fst (main w) = 0 /\
   lines_of (out (snd (main w))) = ["a.example.com"; "b.example.com"] /\
   filter is_ok (out (snd (main w))) = [MsgOk "b.example.com"]).
Proof.
  split; [|split; [|split; [|split; [|split]]]].
  - intros lines. apply scan_lines_targets.
  - intros ts tool pid w.
    destruct (process_targets_counts ts tool pid 0 w) as (B & L & K & D).
    cbn zeta. repeat split; try assumption; lia.
  - intros t rest tool pid c w.
    destruct (process_targets_one t tool pid c w) as (S & I & _).
    cbn zeta. split; [apply process_targets_next | split; assumption].
  - intros w P EF OF NE.
    destruct (main_cases w P) as [(_ & _ & _ & _ & [F|[F|F]])|H];
      try congruence.
    destruct H as (_ & _ & _ & w0 & E & _). exists w0. exact E.
  - intros ts first tool w.
    pose proof (ingest_report ts first tool w) as R. cbn zeta in R.
    destruct (GetOrCreateProgram _ _) as [[err|pid] w1].
    + left. exists err. destruct R as (_ & -> & _).
      apply in_or_app. right. now left.
    + right. exists pid, w1. cbn zeta. destruct R as (_ & -> & _).
      destruct (process_targets_counts ts tool pid 0 w1) as (B & _).
      split; [cbn zeta in B; lia | reflexivity].
  - vm_compute. repeat split.
Qed.

(** [main] on a fresh machine hands its one line to the ingestion. *)
Lemma C7_line_failures_contained_witness :
  exists w0,
    main (fresh_world ["example.com"] [])
      = ingest ["example.com"] "example.com" DetectTool w0.
Proof.
  apply (proj1 (proj2 (proj2 (proj2 C7_line_failures_contained)))
           (fresh_world ["example.com"] [])).
  - reflexivity.
  - reflexivity.
  - reflexivity.
  - vm_compute. discriminate.
Defined.

(** C9, as stated, fails: with one non-blank line on standard input and a
    store that fails at the lookup of the program, the process exits with
    status 1 although the input is not empty and no line has failed, none
    having been tried. *)
Lemma C9_program_failure_exits_nonzero :
  let w := fresh_world ["example.com"] [IOFailure] in
  fst (main w) = 1 /\
  non_blank_trimmed (stdin w) = ["example.com"] /\
  lines_of (out (snd (main w))) = [] /\
  In (LogFatal (FailedQueryProgram ErrIO)) (out (snd (main w))).
Proof. vm_compute. repeat split. do 8 right. left. reflexivity. Qed.

(** C9, amended.  With data piped in, the exit status is 0 or 1, and it is
    1 exactly when no line went through both steps: when there is no
    non-blank line (nothing is written to the tables then), when the
    database cannot be ensured or opened, when the program cannot be
    resolved or created (no line is tried then), and when every line
    fails.  As soon as one line goes through, the status is 0. *)
Theorem C9_exit_status :
  (forall w,
     piped w ->
     (fst (main w) = 0 \/ fst (main w) = 1) /\
     (fst (main w) = 1 <->
      ok_count (out (snd (main w))) = ok_count (out w)) /\
     (fst (main w) = 0 <->
      ok_count (out w) < ok_count (out (snd (main w)))) /\
     (non_blank_trimmed (stdin w) = [] ->
      fst (main w) = 1 /\ db (snd (main w)) = db w) /\
     (ensure_fault w = true \/ open_fault w = true ->
      fst (main w) = 1 /\ db (snd (main w)) = db w)) /\
  fst (main (fresh_world ["example.com"] [IOFailure])) = 1 /\
  fst (main (fresh_world ["example.com"]
               [Quiet; OtherProgram "example" "*.example.com"])) = 1 /\
  fst (main (fresh_world ["a.example.com"; "b.example.com"]
               [Quiet; Quiet; IOFailure])) = 0 /\
  fst (main (fresh_world ["a.example.com"; "b.example.com"]
               [Quiet; Quiet; IOFailure; IOFailure])) = 1.
Proof.
  split; [|repeat split; vm_compute; reflexivity].
  intros w P.
  destruct (main_cases w P) as [(E & D & K & _ & F)|(EF & OF & NE & H)].
  - rewrite E, K. repeat split; auto; try lia.
  - destruct H as (w0 & -> & D0 & _ & K0 & _).
    destruct (ingest_exit (non_blank_trimmed (stdin w))
                (hd "" (non_blank_trimmed (stdin w))) DetectTool w0)
      as (Code & One & Le).
    cbn zeta in *. rewrite K0 in *.
    split; [exact Code|]. split; [exact One|].
    split; [|split; [intros E; contradiction | intros [F|F]; congruence]].
    split.
    + intros Z0.
      destruct (Z.eq_dec
                  (ok_count (out (snd (ingest (non_blank_trimmed (stdin w))
                     (hd "" (non_blank_trimmed (stdin w))) DetectTool w0))))
                  (ok_count (out w))) as [Q|Q]; [|lia].
      apply One in Q. congruence.
    + intros Lt. destruct Code as [C|C]; [exact C|].
      apply One in C. lia.
Qed.

(** The amended statement at work on the run that refutes the original
    one. *)
Lemma C9_exit_status_witness :
  let w := fresh_world ["example.com"] [IOFailure] in
  fst (main w) = 1 <-> ok_count (out (snd (main w))) = ok_count (out w).
Proof.
  intros w.
  apply (proj1 (proj2 (proj1 C9_exit_status w eq_refl))).
Defined.

End Containment.

(** ** A competing insert between lookup and insert *)

Section Conflict.

Lemma program_named_refl scope id tm name :
  program_named name (mkProgramRow id name None (Some scope) None None tm)
  = true.
Proof. unfold program_named. simpl. apply String.eqb_refl. Qed.

Lemma target_keyed_refl id pid target type source lc tm :
  target_keyed target pid
    (mkTargetRow id pid target (Some type) (Some source) false (Some lc)
       false None None None tm) = true.
Proof.
  unfold target_keyed. simpl. now rewrite String.eqb_refl, Z.eqb_refl.
Qed.

Lemma arrive_quiet w rest :
  pending w = Quiet :: rest ->
  exists w1,
    arrive w = (true, w1) /\ pending w1 = rest /\ out w1 = out w /\
    db w1 = db w.
Proof.
  intros P. unfold arrive. rewrite P. eexists. split; [reflexivity|].
  repeat split.
Qed.

Lemma arrive_other_program w name scope rest :
  pending w = OtherProgram name scope :: rest ->
  find (program_named name) (programs (db w)) = None ->
  exists w1 row,
    arrive w = (true, w1) /\ pending w1 = rest /\ out w1 = out w /\
    programs (db w1) = (programs (db w) ++ [row])%list /\
    program_named name row = true /\ p_scope row = Some scope.
Proof.
  intros P F. unfold arrive. rewrite P. cbn [hd tl interfere].
  apply find_none_existsb in F.
  unfold insert_program.
  cbn [db clock pending set_pending set_db set_clock]. rewrite F.
  do 2 eexists. split; [reflexivity|].
  cbn [db out pending programs set_pending set_db set_clock].
  repeat split. apply program_named_refl.
Qed.

Lemma arrive_other_target w pid target type source rest :
  pending w = OtherTarget pid target type source :: rest ->
  find (target_keyed target pid) (targets (db w)) = None ->
  exists w1 row,
    arrive w = (true, w1) /\ pending w1 = rest /\ out w1 = out w /\
    targets (db w1) = (targets (db w) ++ [row])%list /\
    target_keyed target pid row = true /\ t_source row = Some source.
Proof.
  intros P F. unfold arrive. rewrite P. cbn [hd tl interfere].
  apply find_none_existsb in F.
  unfold insert_target.
  cbn [db clock pending set_pending set_db set_clock]. rewrite F.
  do 2 eexists. split; [reflexivity|].
  cbn [db out pending targets set_pending set_db set_clock].
  repeat split. apply target_keyed_refl.
Qed.

(** The lookup misses, a competitor inserts the program, the insert hits
    the constraint: the error is returned, no second lookup is made. *)
Lemma GetOrCreateProgram_conflict w domain scope rest :
  pending w = Quiet :: OtherProgram (ExtractDomain domain) scope :: rest ->
  find (program_named (ExtractDomain domain)) (programs (db w)) = None ->
  let r := GetOrCreateProgram domain w in
  fst r = inl (FailedCreateProgram ErrConstraint) /\
  pending (snd r) = rest /\ out (snd r) = out w /\
  exists row,
    find (program_named (ExtractDomain domain)) (programs (db (snd r)))
      = Some row /\
    p_scope row = Some scope.
Proof.
  intros P F. unfold GetOrCreateProgram.
  remember (ExtractDomain domain) as org eqn:Org. clear Org.
  unfold query, bind.
  destruct (arrive_quiet w _ P) as (w1 & -> & P1 & O1 & D1).
  unfold select_program_id. rewrite D1, F.
  rewrite <- D1 in F.
  unfold exec, bind.
  destruct (arrive_other_program w1 _ _ _ P1 F)
    as (w2 & row & -> & P2 & O2 & T2 & N2 & S2).
  unfold insert_program. rewrite T2, existsb_app. cbn [existsb].
  rewrite N2, orb_true_r. cbn [ret fst snd].
  split; [reflexivity|]. split; [exact P2|]. split; [congruence|].
  exists row. split; [|exact S2].
  rewrite T2. now apply find_snoc_none.
Qed.

Lemma GetOrCreateTarget_conflict w target tool pid type source rest :
  pending w = Quiet :: OtherTarget pid target type source :: rest ->
  find (target_keyed target pid) (targets (db w)) = None ->
  let r := GetOrCreateTarget target tool pid w in
  fst r = inl (FailedCreateTarget ErrConstraint) /\
  pending (snd r) = rest /\ out (snd r) = out w /\
  exists row,
    find (target_keyed target pid) (targets (db (snd r))) = Some row /\
    t_source row = Some source.
Proof.
  intros P F. unfold GetOrCreateTarget.
  remember (ClassifyTarget target) as ours eqn:Ours. clear Ours.
  unfold query, bind.
  destruct (arrive_quiet w _ P) as (w1 & -> & P1 & O1 & D1).
  unfold select_target_id. rewrite D1, F.
  rewrite <- D1 in F.
  unfold time_Now, exec, bind.
  set (w1' := set_clock (clock w1 + 1) w1).
  destruct (arrive_other_target w1' _ _ _ _ _ P1 F)
    as (w2 & row & -> & P2 & O2 & T2 & N2 & S2).
  unfold insert_target. rewrite T2, existsb_app. cbn [existsb].
  rewrite N2, orb_true_r. cbn [ret fst snd].
  split; [reflexivity|]. split; [exact P2|].
  split; [rewrite O2; exact O1|].
  exists row. split; [|exact S2].
  rewrite T2. now apply find_snoc_none.
Qed.

End Conflict.

Section ConflictHandling.

(** C3, as stated, fails.  Another invocation creates the program
    [example] between the lookup and the insert: [main] ends with status 1
    on the constraint error, although a lookup by name would now find the
    program.  For a target, [GetOrCreateTarget] returns the constraint
    error, although a lookup by program and target would now find the
    row. *)
Lemma C3_conflict_is_surfaced :
  (let w := fresh_world ["example.com"]
              [Quiet; OtherProgram "example" "*.example.com"] in
   fst (main w) = 1 /\
   last (out (snd (main w))) MsgNext
     = LogFatal (FailedCreateProgram ErrConstraint) /\
   select_program_id "example" (db (snd (main w))) = inr 1 /\
   targets (db (snd (main w))) = []) /\
  (let w := fresh_world []
              [Quiet; OtherTarget 1 "example.com" "domain" "other_tool"] in
   let r := GetOrCreateTarget "example.com" "pipeline_auto" 1 w in
   fst r = inl (FailedCreateTarget ErrConstraint) /\
   select_target_id "example.com" 1 (db (snd r)) = inr 1).
Proof. vm_compute. repeat split. Qed.

(** C3, amended.  A uniqueness violation on insert is not recovered by a
    second lookup: the processor returns the error after its two
    statements.  For a program the error is fatal: the ingestion ends with
    status 1 and no line is tried.  For a target the line is reported as
    failed and not counted, and the loop goes on with the next line.  In
    both cases the row of the competitor is in the table. *)
Theorem C3_conflict_not_retried :
  (forall w domain scope rest,
     pending w = Quiet :: OtherProgram (ExtractDomain domain) scope :: rest ->
     find (program_named (ExtractDomain domain)) (programs (db w)) = None ->
     let r := GetOrCreateProgram domain w in
     fst r = inl (FailedCreateProgram ErrConstraint) /\
     pending (snd r) = rest /\
     exists row,
       find (program_named (ExtractDomain domain)) (programs (db (snd r)))
         = Some row /\
       p_scope row = Some scope) /\
  (forall ts first tool w scope rest,
     pending w =
       Quiet :: OtherProgram (ExtractDomain (program_domain first)) scope
             :: rest ->
     find (program_named (ExtractDomain (program_domain first)))
          (programs (db w)) = None ->
     let r := ingest ts first tool w in
     fst r = 1 /\
     lines_of (out (snd r)) = lines_of (out w) /\
     In (LogFatal (FailedCreateProgram ErrConstraint)) (out (snd r))) /\
  (forall w target tool pid type source rest,
     pending w = Quiet :: OtherTarget pid target type source :: rest ->
     find (target_keyed target pid) (targets (db w)) = None ->
     let r := GetOrCreateTarget target tool pid w in
     fst r = inl (FailedCreateTarget ErrConstraint) /\
     pending (snd r) = rest /\
     exists row,
       find (target_keyed target pid) (targets (db (snd r))) = Some row /\
       t_source row = Some source) /\
  (forall w target ts tool pid c type source rest,
     pending w = Quiet :: OtherTarget pid target type source :: rest ->
     find (target_keyed target pid) (targets (db w)) = None ->
     let one := process_targets [target] tool pid c w in
     fst one = c /\
     In (LogTargetError target (FailedCreateTarget ErrConstraint))
        (out (snd one)) /\
     process_targets (target :: ts) tool pid c w
       = process_targets ts tool pid c (snd one)).
Proof.
  split; [|split; [|split]].
  - intros w domain scope rest P F.
    destruct (GetOrCreateProgram_conflict w domain scope rest P F)
      as (E & P' & _ & H).
    cbn zeta. auto.
  - intros ts first tool w scope rest P F.
    pose proof (ingest_report ts first tool w) as R. cbn zeta in R.
    set (w0 := snd (print (MsgExtracted (program_domain first))
                      (snd (print (MsgFound (Z.of_nat (List.length ts))) w))))
      in *.
    assert (P0 : pending w0 = pending w) by reflexivity.
    assert (D0 : db w0 = db w) by reflexivity.
    rewrite <- P0 in P. rewrite <- D0 in F.
    destruct (GetOrCreateProgram_conflict w0 _ scope rest P F)
      as (E & _ & O & _).
    destruct (GetOrCreateProgram (program_domain first) w0)
      as [r w1]. cbn [fst snd] in E, O. subst r.
    destruct R as (R1 & R2 & _). cbn zeta.
    rewrite R1, R2, O. split; [reflexivity|]. split.
    + rewrite lines_of_snoc_none by reflexivity.
      subst w0. cbn [print snd out set_out].
      now rewrite !lines_of_snoc_none by reflexivity.
    + apply in_or_app. right. now left.
  - intros w target tool pid type source rest P F.
    destruct (GetOrCreateTarget_conflict w target tool pid type source rest
                P F) as (E & P' & _ & H).
    cbn zeta. auto.
  - intros w target ts tool pid c type source rest P F.
    destruct (GetOrCreateTarget_conflict w target tool pid type source rest
                P F) as (E & _).
    cbn zeta. rewrite (process_targets_next target ts).
    assert (One : process_targets [target] tool pid c w =
                  (c, snd (print (LogTargetError target
                                    (FailedCreateTarget ErrConstraint))
                             (snd (GetOrCreateTarget target tool pid w))))).
    { rewrite process_targets_cons.
      destruct (GetOrCreateTarget target tool pid w) as [r w1].
      cbn [fst] in E. subst r. reflexivity. }
    rewrite One. cbn [fst snd print out set_out].
    split; [reflexivity|]. split; [|reflexivity].
    apply in_or_app. right. now left.
Qed.

(** The amended statement at work on the run that refutes the original
    one. *)
Lemma C3_conflict_not_retried_witness :
  let w := fresh_world [] [Quiet; OtherProgram "example" "*.example.com"] in
  let r := GetOrCreateProgram "example.com" w in
  fst r = inl (FailedCreateProgram ErrConstraint) /\
  pending (snd r) = [] /\
  exists row,
    find (program_named (ExtractDomain "example.com"))
         (programs (db (snd r))) = Some row /\
    p_scope row = Some "*.example.com".
Proof.
  intros w.
  apply (proj1 C3_conflict_not_retried w "example.com" "*.example.com" []).
  - reflexivity.
  - reflexivity.
Defined.

End ConflictHandling.

(** ** Idempotence *)

Section Idempotence.

Lemma NoDup_snoc {A} (l : list A) (x : A) :
  NoDup l -> ~ In x l -> NoDup (l ++ [x]).
Proof.
  induction l as [|y l IH]; simpl; intros N I.
  - constructor; [tauto | constructor].
  - inversion N as [|? ? Ny Nl]; subst. constructor.
    + rewrite in_app_iff. simpl. intuition congruence.
    + apply IH; tauto.
Qed.

Lemma target_keyed_key target pid r :
  target_keyed target pid r = true <->
  (t_program_id r, t_target r) = (pid, target).
Proof.
  unfold target_keyed. rewrite andb_true_iff, String.eqb_eq, Z.eqb_eq.
  split; [intros [-> ->]; reflexivity | intros [= -> ->]; tauto].
Qed.

Lemma find_none_key target pid l :
  find (target_keyed target pid) l = None ->
  ~ In (pid, target) (map (fun r => (t_program_id r, t_target r)) l).
Proof.
  intros F I. apply in_map_iff in I as (r & K & I).
  apply (find_none _ _ F) in I. apply target_keyed_key in K. congruence.
Qed.

Lemma unique_rows target pid l row :
  NoDup (map (fun r => (t_program_id r, t_target r)) l) ->
  find (target_keyed target pid) l = Some row ->
  filter (target_keyed target pid) l = [row].
Proof.
  induction l as [|y l IH]; simpl; [discriminate|]. intros N F.
  inversion N as [|? ? Ny Nl]; subst.
  destruct (target_keyed target pid y) eqn:K.
  - injection F as <-. f_equal.
    apply target_keyed_key in K. rewrite K in Ny.
    clear - Ny. induction l as [|z l IH]; simpl in *; [reflexivity|].
    destruct (target_keyed target pid z) eqn:Kz.
    + apply target_keyed_key in Kz. tauto.
    + apply IH. tauto.
  - now apply IH.
Qed.

(** The loop in a run without failures: every line goes through, the
    targets are resolved or created once, one observation is appended per
    line, tied to the target the lookup finds. *)
Lemma process_targets_calm ts tool pid c w :
  calm w -> unique_targets (db w) ->
  let r := process_targets ts tool pid c w in
  calm (snd r) /\ unique_targets (db (snd r)) /\
  fst r = c + Z.of_nat (List.length ts) /\
  programs (db (snd r)) = programs (db w) /\
  extends (targets (db w)) (targets (db (snd r))) /\
  ((forall l, In l ts ->
      find (target_keyed l pid) (targets (db w)) <> None) ->
   targets (db (snd r)) = targets (db w)) /\
  exists rows,
    recon_data (db (snd r)) = (recon_data (db w) ++ rows)%list /\
    map r_data rows = ts /\
    map (fun row => inr (r_target_id row)) rows
      = map (fun l => select_target_id l pid (db (snd r))) ts.
Proof.
  revert c w; induction ts as [|t rest IH]; intros c w C U.
  - cbn. repeat split; auto; try lia; try apply extends_refl.
    exists []. now rewrite app_nil_r.
  - cbn zeta. rewrite process_targets_cons.
    destruct (GetOrCreateTarget t tool pid w) as [r1 w1] eqn:E1.
    destruct (GetOrCreateTarget_calm _ _ _ _ _ _ C E1)
      as (C1 & O1 & P1 & R1 & H1).
    assert (X : exists row,
               r1 = inr (t_id row) /\
               find (target_keyed t pid) (targets (db w1)) = Some row /\
               unique_targets (db w1) /\
               extends (targets (db w)) (targets (db w1)) /\
               (find (target_keyed t pid) (targets (db w)) <> None ->
                targets (db w1) = targets (db w))).
    { destruct (find (target_keyed t pid) (targets (db w))) as [row|] eqn:F.
      - destruct H1 as (-> & D). exists row. rewrite D.
        repeat split; auto. apply extends_refl.
      - destruct H1 as (row & -> & T & Kp & Kt & _). exists row.
        rewrite T. split; [reflexivity|]. split.
        + apply find_snoc_none; [exact F|].
          apply target_keyed_key. now rewrite Kp, Kt.
        + split; [|split; [apply extends_snoc | congruence]].
          unfold unique_targets. rewrite T, map_app. simpl.
          apply NoDup_snoc; [exact U|].
          rewrite Kp, Kt. now apply find_none_key. }
    destruct X as (trow & -> & F1 & U1 & X1 & Same1).
    destruct (AddReconData (t_id trow) tool t ("Discovered via " ++ tool) w1)
      as [e w2] eqn:E2.
    destruct (AddReconData_calm _ _ _ _ _ _ _ C1 E2)
      as (-> & C2 & O2 & P2 & T2 & orow & R2 & Ot & _ & Od & _).
    remember (snd (print (MsgOk t) w2)) as w3 eqn:W3.
    assert (D3 : db w3 = db w2) by (subst w3; reflexivity).
    assert (C3 : calm w3) by (subst w3; exact C2).
    clear W3.
    assert (U3 : unique_targets (db w3)).
    { unfold unique_targets. rewrite D3, T2. exact U1. }
    destruct (IH (c + 1) w3 C3 U3) as (Cf & Uf & Nf & Pf & Xf & Samef & Rf).
    destruct Rf as (rows & Rf & Df & If).
    rewrite D3 in Pf, Xf, Samef, Rf.
    split; [exact Cf|]. split; [exact Uf|]. split.
    { rewrite Nf. change (List.length (t :: rest)) with (S (List.length rest)).
      lia. }
    split; [congruence|]. split.
    { eapply extends_trans; [exact X1|]. rewrite <- T2. exact Xf. }
    split.
    { intros All. rewrite Samef.
      - rewrite T2. apply Same1. apply All. now left.
      - intros l I. rewrite T2, Same1 by (apply All; now left).
        apply All. now right. }
    exists (orow :: rows). split; [|split].
    + rewrite Rf, R2, R1, <- app_assoc. reflexivity.
    + simpl. now rewrite Od, Df.
    + simpl. rewrite If, Ot. f_equal.
      unfold select_target_id.
      rewrite <- T2 in F1.
      now rewrite (find_extends _ _ _ _ Xf F1).
Qed.

End Idempotence.

Section TwoRuns.

Lemma resolved_lines {A} (f : A -> Z) (g : string -> SqlError + Z) rows ts :
  map (fun row => inr (f row)) rows = map g ts ->
  forall l, In l ts -> exists id, g l = inr id.
Proof.
  revert rows; induction ts as [|t ts IH]; intros [|row rows] E l I;
    simpl in *; try contradiction; try discriminate.
  injection E as E1 E2. destruct I as [<-|I]; [eauto | eapply IH; eauto].
Qed.

Lemma map_inr_injective {A} (f : A -> Z) rows rows' :
  map (fun row => @inr SqlError Z (f row)) rows
    = map (fun row => inr (f row)) rows' ->
  map f rows = map f rows'.
Proof.
  revert rows'; induction rows as [|r rows IH]; intros [|r' rows'] E;
    simpl in *; try discriminate; [reflexivity|].
  injection E as E1 E2. f_equal; auto.
Qed.

Lemma select_target_id_found l pid d id :
  select_target_id l pid d = inr id ->
  find (target_keyed l pid) (targets d) <> None.
Proof.
  unfold select_target_id. destruct (find _ _); [discriminate|].
  discriminate.
Qed.

(** The ingestion in a run without failures. *)
Lemma ingest_calm ts first tool w :
  calm w -> unique_targets (db w) ->
  let org := ExtractDomain (program_domain first) in
  let r := ingest ts first tool w in
  exists prow rows,
    find (program_named org) (programs (db (snd r))) = Some prow /\
    calm (snd r) /\ unique_targets (db (snd r)) /\
    fst r = (if Z.of_nat (List.length ts) >? 0 then 0 else 1) /\
    recon_data (db (snd r)) = (recon_data (db w) ++ rows)%list /\
    map r_data rows = ts /\
    map (fun row => inr (r_target_id row)) rows
      = map (fun l => select_target_id l (p_id prow) (db (snd r))) ts /\
    (forall prow0,
       find (program_named org) (programs (db w)) = Some prow0 ->
       prow = prow0 /\
       programs (db (snd r)) = programs (db w) /\
       ((forall l, In l ts ->
           find (target_keyed l (p_id prow0)) (targets (db w)) <> None) ->
        targets (db (snd r)) = targets (db w))).
Proof.
  intros C U org. cbn zeta.
  pose proof (ingest_report ts first tool w) as R. cbn zeta in R.
  remember (snd (print (MsgExtracted (program_domain first))
                   (snd (print (MsgFound (Z.of_nat (List.length ts))) w))))
    as w0 eqn:W0.
  assert (D0 : db w0 = db w) by (subst w0; reflexivity).
  assert (C0 : calm w0) by (subst w0; exact C).
  clear W0.
  destruct (GetOrCreateProgram (program_domain first) w0) as [r1 w1] eqn:E1.
  destruct (GetOrCreateProgram_calm _ _ _ _ C0 E1) as (C1 & T1 & R1 & H1).
  fold org in H1. rewrite D0 in H1, T1, R1.
  assert (X : exists prow,
             r1 = inr (p_id prow) /\
             find (program_named org) (programs (db w1)) = Some prow /\
             (forall prow0,
                find (program_named org) (programs (db w)) = Some prow0 ->
                prow = prow0 /\ programs (db w1) = programs (db w))).
  { destruct (find (program_named org) (programs (db w))) as [row|] eqn:F.
    - destruct H1 as (-> & D). exists row. rewrite D.
      repeat split; auto; congruence.
    - destruct H1 as (row & -> & P & N & _). exists row.
      split; [reflexivity|]. split; [|discriminate].
      rewrite P. apply find_snoc_none; [exact F|].
      unfold program_named. rewrite N. apply String.eqb_refl. }
  destruct X as (prow & -> & F1 & Same1).
  assert (U1 : unique_targets (db w1)).
  { unfold unique_targets. rewrite T1. exact U. }
  destruct (process_targets_calm ts tool (p_id prow) 0 w1 C1 U1)
    as (Cf & Uf & Nf & Pf & Xf & Samef & rows & Rf & Df & If).
  destruct R as (Rc & _ & Rd & Rp).
  exists prow, rows. rewrite Rd.
  split; [rewrite Pf; exact F1|].
  split; [unfold calm; rewrite Rp; exact Cf|].
  split; [exact Uf|].
  split; [rewrite Rc, Nf; reflexivity|].
  split; [rewrite Rf, R1; reflexivity|].
  split; [exact Df|].
  split; [exact If|].
  intros prow0 F0. destruct (Same1 prow0 F0) as (-> & P0).
  split; [reflexivity|]. split; [congruence|].
  intros All. rewrite Samef; [exact T1|].
  intros l I. rewrite T1. now apply All.
Qed.

End TwoRuns.

Section Idempotent.

(** C2. Targets are resolved, observations are appended.  In runs without
    failures, from a store that respects its constraints: after the first
    ingestion of a batch every line has exactly one target row under the
    program, and one observation per line has been appended; a second
    ingestion of the same batch leaves the programs and the targets as
    they are and appends one more observation per line, tied to the same
    targets as the first time.  On the batch of the specification, run
    twice through [main] on a fresh machine: one program, three targets of
    types domain, subdomain and url, three observations, then six.  The
    same line twice in one batch: one target, two observations. *)
Theorem C2_ingestion_idempotent :
  (forall w ts first tool,
     calm w -> unique_targets (db w) ->
     let run1 := ingest ts first tool w in
     let run2 := ingest ts first tool (snd run1) in
     programs (db (snd run2)) = programs (db (snd run1)) /\
     targets (db (snd run2)) = targets (db (snd run1)) /\
     (exists pid,
        forall l, In l ts ->
          List.length (target_rows pid l (db (snd run1))) = 1%nat) /\
     exists rows1 rows2,
       recon_data (db (snd run1)) = (recon_data (db w) ++ rows1)%list /\
       recon_data (db (snd run2))
         = (recon_data (db (snd run1)) ++ rows2)%list /\
       map r_data rows1 = ts /\ map r_data rows2 = ts /\
       map r_target_id rows2 = map r_target_id rows1) /\
  (let batch := ["example.com"; "api.example.com";
                 "https://example.com/login"] in
   let w1 := snd (main (fresh_world batch [])) in
   let w2 := snd (main (rerun batch w1)) in
   map p_name (programs (db w1)) = ["example"] /\
   map (fun r => (t_target r, t_type r)) (targets (db w1))
     = [("example.com", Some "domain");
        ("api.example.com", Some "subdomain");
        ("https://example.com/login", Some "url")] /\
   List.length (recon_data (db w1)) = 3%nat /\
   programs (db w2) = programs (db w1) /\
   targets (db w2) = targets (db w1) /\
   List.length (recon_data (db w2)) = 6%nat) /\
  (let w1 := snd (main (fresh_world ["example.com"; "example.com"] [])) in
   List.length (targets (db w1)) = 1%nat /\
   map (fun r => (r_target_id r, r_data r)) (recon_data (db w1))
     = [(1, "example.com"); (1, "example.com")]).
Proof.
  split; [|split; vm_compute; repeat split].
  intros w ts first tool C U. cbn zeta.
  destruct (ingest_calm ts first tool w C U)
    as (prow & rows1 & F1 & C1 & U1 & _ & R1 & D1 & I1 & _).
  cbn zeta in *.
  set (w1 := snd (ingest ts first tool w)) in *.
  assert (Found : forall l, In l ts ->
            find (target_keyed l (p_id prow)) (targets (db w1)) <> None).
  { intros l I. destruct (resolved_lines _ _ _ _ I1 l I) as [id S].
    eapply select_target_id_found, S. }
  destruct (ingest_calm ts first tool w1 C1 U1)
    as (prow2 & rows2 & _ & _ & _ & _ & R2 & D2 & I2 & Same).
  cbn zeta in *.
  destruct (Same prow F1) as (-> & P2 & T2).
  specialize (T2 Found).
  split; [exact P2|]. split; [exact T2|]. split.
  - exists (p_id prow). intros l I. unfold target_rows.
    specialize (Found l I).
    destruct (find (target_keyed l (p_id prow)) (targets (db w1)))
      as [row|] eqn:F; [|congruence].
    now rewrite (unique_rows _ _ _ _ U1 F).
  - exists rows1, rows2. repeat split; auto.
    apply map_inr_injective. rewrite I2, I1.
    apply map_ext. intros l. unfold select_target_id. now rewrite T2.
Qed.

(** Two ingestions of one line into an empty store. *)
Lemma C2_ingestion_idempotent_witness :
  let w := fresh_world [] [] in
  let run1 := ingest ["example.com"] "example.com" "tool_x" w in
  let run2 := ingest ["example.com"] "example.com" "tool_x" (snd run1) in
  programs (db (snd run2)) = programs (db (snd run1)) /\
  targets (db (snd run2)) = targets (db (snd run1)).
Proof.
  intros w run1 run2.
  destruct (proj1 C2_ingestion_idempotent w ["example.com"] "example.com"
              "tool_x") as (P & T & _).
  - constructor.
  - constructor.
  - split; [exact P | exact T].
Defined.

End Idempotent.

(** * Further properties of the code *)

(** ** The classifier, class by class *)

Section Classes.

Lemma Count_nonneg s c : 0 <= Count s c.
Proof. rewrite Count_occurrences. lia. Qed.

(** X1. The classes are told apart by three tests only.  [url] is the
    class of the strings with [://] in them; [ip_port] that of the strings
    with a colon but without [://]; among the strings without a colon,
    those with a slash or without a dot are [unknown], whatever else they
    hold (a URL without scheme such as a host followed by a path is
    [unknown]).  No other value than the five types comes out. *)
Theorem X1_ClassifyTarget_classes :
  forall s,
    In (ClassifyTarget s) target_types /\
    (ClassifyTarget s = "url" <-> has_substring "://" s) /\
    (ClassifyTarget s = "ip_port" <->
     has_byte ":" s /\ ~ has_substring "://" s) /\
    (ClassifyTarget s = "unknown" <->
     ~ has_byte ":" s /\ (occurrences "." s = 0%nat \/ has_byte "/" s)) /\
    (ClassifyTarget s = "domain" \/ ClassifyTarget s = "subdomain" <->
     ~ has_byte ":" s /\ ~ has_byte "/" s /\ (1 <= occurrences "." s)%nat).
Proof.
  intros s.
  pose proof (scheme_separator_has_colon s) as UC.
  unfold ClassifyTarget, target_types.
  rewrite Z.gtb_ltb, Count_occurrences.
  destruct (Contains s "://") eqn:EU;
    [ apply Contains_has_substring in EU
    | assert (~ has_substring "://" s)
        by (intros X; apply Contains_has_substring in X; congruence) ];
    (destruct (Contains s ":") eqn:EC;
     [ apply Contains_has_byte in EC | apply Contains_byte_false in EC ]);
    (destruct (Contains s "/") eqn:ES;
     [ apply Contains_has_byte in ES | apply Contains_byte_false in ES ]);
    destruct (Z.eqb_spec (Z.of_nat (occurrences "." s)) 1);
    destruct (Z.ltb_spec 1 (Z.of_nat (occurrences "." s)));
    cbn [andb negb In];
    repeat split; intros;
    repeat match goal with
           | H : _ /\ _ |- _ => destruct H
           | H : _ \/ _ |- _ => destruct H
           end;
    try discriminate; try contradiction; try lia; try tauto;
    try (left; lia); try (right; assumption).
Qed.

(** The classes of a host followed by a path. *)
Lemma X1_ClassifyTarget_classes_witness :
  ClassifyTarget "example.com/login" = "unknown".
Proof.
  apply (proj2 (proj1 (proj2 (proj2 (proj2
           (X1_ClassifyTarget_classes "example.com/login")))))).
  split.
  - unfold has_byte. simpl. intros H.
    repeat (destruct H as [H|H]; [discriminate H|]). exact H.
  - right. unfold has_byte. simpl. do 11 right. now left.
Defined.

End Classes.

(** ** The shape of an organization name *)

Section NameShape.

Lemma has_byte_app c a b :
  has_byte c (a ++ b) <-> has_byte c a \/ has_byte c b.
Proof.
  unfold has_byte. induction a as [|x a IH]; simpl; [tauto|].
  rewrite IH. tauto.
Qed.

Lemma has_byte_piece c a b : has_substring a b -> has_byte c a -> has_byte c b.
Proof.
  intros (x & y & ->) H. rewrite !has_byte_app. tauto.
Qed.

Lemma non_slash_run_clean s : ~ has_byte "/" (Regexp.non_slash_run s).
Proof.
  unfold has_byte. induction s as [|a s IH]; simpl; [tauto|].
  destruct (Ascii.eqb a "/") eqn:E; simpl; [tauto|].
  apply Ascii.eqb_neq in E. intuition congruence.
Qed.

Lemma match_host_clean s h : Regexp.match_host s = Some h -> ~ has_byte "/" h.
Proof.
  unfold Regexp.match_host. pose proof (non_slash_run_clean s) as N.
  destruct (Regexp.non_slash_run s); [discriminate|]. now intros [= <-].
Qed.

Lemma Split_not_nil s c : Split s c <> [].
Proof.
  destruct s as [|a s]; simpl; [discriminate|].
  destruct (Ascii.eqb a c); [discriminate|].
  destruct (Split s c); discriminate.
Qed.

Lemma Split_head_clean s c : ~ has_byte c (hd "" (Split s c)).
Proof.
  unfold has_byte. induction s as [|a s IH]; simpl; [tauto|].
  destruct (Ascii.eqb a c) eqn:E; simpl; [tauto|].
  apply Ascii.eqb_neq in E.
  destruct (Split s c) as [|x xs]; simpl in *; intuition congruence.
Qed.

Lemma Split_single s c :
  (List.length (Split s c) < 2)%nat -> ~ has_byte c s.
Proof.
  unfold has_byte. induction s as [|a s IH]; simpl; [tauto|].
  destruct (Ascii.eqb a c) eqn:E.
  - pose proof (Split_not_nil s c). simpl.
    destruct (Split s c); [congruence | simpl; lia].
  - apply Ascii.eqb_neq in E.
    destruct (Split s c) as [|x xs] eqn:Sp; simpl in *;
      intros L [X|X]; try congruence; apply IH; try exact X; lia.
Qed.

Lemma first_label_clean d : ~ has_byte "." (first_label d).
Proof.
  unfold first_label.
  destruct (2 <=? Z.of_nat (List.length (Split d "."))) eqn:E.
  - apply Split_head_clean.
  - apply Z.leb_gt in E. apply Split_single. lia.
Qed.

(** The host the anchored expression captures, when it matches. *)
Lemma find_anchored_host input :
  input <> "" -> HasPrefix input "/" = false ->
  exists m0 m1 m2,
    Regexp.find_anchored input = Some [m0; m1; m2] /\ ~ has_byte "/" m2.
Proof.
  intros NE NS. unfold Regexp.find_anchored.
  assert (H : exists h, Regexp.match_host input = Some h).
  { unfold Regexp.match_host. destruct input as [|a s]; [congruence|].
    cbn [HasPrefix] in NS. cbn [Regexp.non_slash_run].
    destruct (Ascii.eqb "/" a) eqn:E; [discriminate NS|].
    rewrite Ascii.eqb_sym, E. eauto. }
  destruct H as (h & H).
  destruct (Regexp.match_scheme input) as [rest|].
  - destruct (Regexp.match_host rest) as [h'|] eqn:H'.
    + do 3 eexists. split; [reflexivity|]. eapply match_host_clean, H'.
    + rewrite H. do 3 eexists. split; [reflexivity|].
      eapply match_host_clean, H.
  - rewrite H. do 3 eexists. split; [reflexivity|].
    eapply match_host_clean, H.
Qed.

(** X2. An organization name derived from a line that is not empty and
    does not start with a slash holds neither a dot nor a slash.  An empty
    line and a line that starts with a slash are returned as they are. *)
Theorem X2_organization_has_no_separator :
  forall input,
    (input <> "" -> HasPrefix input "/" = false ->
     ~ has_byte "." (ExtractDomain input) /\
     ~ has_byte "/" (ExtractDomain input)) /\
    (input = "" \/ HasPrefix input "/" = true -> ExtractDomain input = input).
Proof.
  intros input. split.
  - intros NE NS.
    destruct (find_anchored_host input NE NS) as (m0 & m1 & m2 & F & Clean).
    unfold ExtractDomain. rewrite F. split.
    + apply first_label_clean.
    + intros B. apply Clean.
      eapply has_byte_piece; [|exact B].
      eapply has_substring_trans;
        [apply first_label_piece | apply strip_conventional_piece].
  - intros [->|S]; [reflexivity|].
    destruct input as [|a s]; [reflexivity|].
    cbn [HasPrefix] in S. destruct (Ascii.eqb "/" a) eqn:E; [|discriminate S].
    apply Ascii.eqb_eq in E. subst a.
    unfold ExtractDomain, Regexp.find_anchored.
    assert (M : Regexp.match_scheme (String "/" s) = None)
      by (destruct s as [|b [|c [|d r]]]; reflexivity).
    rewrite M. reflexivity.
Qed.

(** A URL with port and path. *)
Lemma X2_organization_has_no_separator_witness :
  ~ has_byte "." (ExtractDomain "https://shop.example.com:8443/cart") /\
  ~ has_byte "/" (ExtractDomain "https://shop.example.com:8443/cart").
Proof.
  apply (proj1 (X2_organization_has_no_separator
                  "https://shop.example.com:8443/cart")).
  - discriminate.
  - reflexivity.
Defined.

(** X3. A line that starts with a dot has the empty organization name, and
    in a run without failures its program is created under the empty
    name. *)
Theorem X3_leading_dot_gives_empty_name :
  (forall rest, ExtractDomain ("." ++ rest) = "") /\
  (forall w rest,
     calm w ->
     find (program_named "") (programs (db w)) = None ->
     exists row,
       fst (GetOrCreateProgram ("." ++ rest) w) = inr (p_id row) /\
       programs (db (snd (GetOrCreateProgram ("." ++ rest) w)))
         = (programs (db w) ++ [row])%list /\
       p_name row = "").
Proof.
  assert (Empty : forall rest, ExtractDomain ("." ++ rest) = "").
  { intros rest. unfold ExtractDomain, Regexp.find_anchored.
    assert (S : Regexp.match_scheme ("." ++ rest) = None).
    { simpl. destruct rest as [|a [|b [|c r]]]; reflexivity. }
    rewrite S.
    set (host := Regexp.non_slash_run rest).
    assert (H : Regexp.match_host ("." ++ rest) = Some (String "." host))
      by reflexivity.
    rewrite H.
    assert (St : strip_conventional (String "." host) = String "." host)
      by reflexivity.
    rewrite St. unfold first_label.
    assert (Sp : Split (String "." host) "." = "" :: Split host ".")
      by reflexivity.
    rewrite Sp.
    pose proof (Split_not_nil host ".") as N.
    destruct (Split host ".") as [|x xs]; [congruence|].
    replace (2 <=? Z.of_nat (List.length ("" :: x :: xs))) with true;
      [reflexivity|].
    symmetry. apply Z.leb_le. cbn [List.length]. lia. }
  split; [exact Empty|].
  intros w rest C F.
  destruct (GetOrCreateProgram ("." ++ rest) w) as [r w'] eqn:E.
  destruct (GetOrCreateProgram_calm _ _ _ _ C E) as (_ & _ & _ & H).
  rewrite Empty, F in H. destruct H as (row & -> & P & N & _).
  exists row. cbn [fst snd]. repeat split; assumption.
Qed.

(** The first line [.example.com] on a fresh store. *)
Lemma X3_leading_dot_gives_empty_name_witness :
  exists row,
    fst (GetOrCreateProgram ".example.com" (fresh_world [] []))
      = inr (p_id row) /\
    programs (db (snd (GetOrCreateProgram ".example.com"
                         (fresh_world [] [])))) = [row] /\
    p_name row = "".
Proof.
  apply (proj2 X3_leading_dot_gives_empty_name (fresh_world [] [])
           "example.com").
  - constructor.
  - reflexivity.
Defined.

End NameShape.

(** ** Standard input *)

Section Stdin.

(** X5. The loop that reads standard input keeps the non-blank lines,
    trimmed, in their order: [targets] is the list of the lines of the
    input, each trimmed, without those that are then empty.  None of the
    kept lines is empty, and [firstTarget] is the first of them: it is
    empty only when no line was kept. *)
Theorem X5_first_target_is_first_line :
  forall lines,
    let targets := fst (scan_lines lines [] "") in
    let firstTarget := snd (scan_lines lines [] "") in
    targets
    = filter (fun line => negb (String.eqb line ""))
        (map Space.TrimSpace lines) /\
    firstTarget = hd "" targets /\
    Forall (fun t => t <> "") targets /\
    (firstTarget = "" <-> targets = []).
Proof.
  intros lines. cbn zeta.
  rewrite scan_lines_targets, scan_lines_first. cbn [app String.eqb].
  split; [reflexivity|].
  assert (F : Forall (fun t => t <> "") (non_blank_trimmed lines)).
  { apply Forall_forall. intros t I. unfold non_blank_trimmed in I.
    apply filter_In in I as (_ & I). apply negb_true_iff in I.
    now apply String.eqb_neq in I. }
  split; [reflexivity|]. split; [exact F|].
  destruct (non_blank_trimmed lines) as [|t ts]; [tauto|].
  apply Forall_inv in F. cbn [hd]. split; [tauto | discriminate].
Qed.

End Stdin.

(** ** What a failure leaves behind *)

Section Failures.

Lemma arrive_undisturbed w :
  undisturbed w ->
  undisturbed (snd (arrive w)) /\ db (snd (arrive w)) = db w /\
  out (snd (arrive w)) = out w.
Proof.
  unfold undisturbed, arrive. intros U.
  destruct (pending w) as [|e rest] eqn:P; cbn [hd tl].
  - cbn. repeat split. constructor.
  - inversion U as [|? ? [->| ->] U']; subst; cbn; repeat split; exact U'.
Qed.

(** X6. When no other invocation is at work, a processor that returns an
    error has written nothing: the tables are as they were before the
    call.  This holds for the resolution of a target, for the resolution
    of the program and for the insertion of an observation. *)
Theorem X6_error_means_nothing_written :
  forall w,
    undisturbed w ->
    (forall target tool pid err,
       fst (GetOrCreateTarget target tool pid w) = inl err ->
       db (snd (GetOrCreateTarget target tool pid w)) = db w) /\
    (forall domain err,
       fst (GetOrCreateProgram domain w) = inl err ->
       db (snd (GetOrCreateProgram domain w)) = db w) /\
    (forall tid tool data context err,
       fst (AddReconData tid tool data context w) = Some err ->
       db (snd (AddReconData tid tool data context w)) = db w).
Proof.
  intros w U. split; [|split].
  - intros target tool pid err.
    unfold GetOrCreateTarget, query, bind.
    destruct (arrive_undisturbed w U) as (U1 & D1 & _).
    destruct (arrive w) as [[|] w1]; cbn [ret fst snd] in *;
      [|intros _; exact D1].
    unfold select_target_id.
    destruct (find (target_keyed target pid) (targets (db w1))) eqn:F;
      [discriminate|].
    unfold time_Now, exec, bind.
    set (w2 := set_clock (clock w1 + 1) w1).
    assert (U2 : undisturbed w2) by exact U1.
    destruct (arrive_undisturbed w2 U2) as (_ & D2 & _).
    destruct (arrive w2) as [[|] w3]; cbn [ret fst snd] in *;
      [|intros _; rewrite D2; exact D1].
    cbv beta. unfold insert_target. rewrite D2. cbn [db w2 set_clock].
    apply find_none_existsb in F. rewrite F. discriminate.
  - intros domain err.
    unfold GetOrCreateProgram, query, bind.
    destruct (arrive_undisturbed w U) as (U1 & D1 & _).
    destruct (arrive w) as [[|] w1]; cbn [ret fst snd] in *;
      [|intros _; exact D1].
    unfold select_program_id.
    destruct (find (program_named (ExtractDomain domain))
                (programs (db w1))) eqn:F; [discriminate|].
    unfold exec, bind.
    destruct (arrive_undisturbed w1 U1) as (_ & D2 & _).
    destruct (arrive w1) as [[|] w3]; cbn [ret fst snd] in *;
      [|intros _; rewrite D2; exact D1].
    cbv beta. unfold insert_program. rewrite D2.
    apply find_none_existsb in F. rewrite F. discriminate.
  - intros tid tool data context err.
    unfold AddReconData, time_Now, exec, bind.
    set (w2 := set_clock (clock w + 1) w).
    assert (U2 : undisturbed w2) by exact U.
    destruct (arrive_undisturbed w2 U2) as (_ & D2 & _).
    destruct (arrive w2) as [[|] w3]; cbn [ret fst snd] in *;
      [discriminate | intros _; exact D2].
Qed.

(** A lookup that fails in the driver. *)
Lemma X6_error_means_nothing_written_witness :
  let w := fresh_world [] [IOFailure] in
  db (snd (GetOrCreateTarget "example.com" "tool_x" 1 w)) = db w.
Proof.
  intros w.
  apply (proj1 (X6_error_means_nothing_written w
                  (Forall_cons _ (or_intror eq_refl) (Forall_nil _)))
           "example.com" "tool_x" 1 (FailedQueryTarget ErrIO)).
  reflexivity.
Defined.

(** X7. A line is not processed atomically.  When the driver fails at the
    insertion of the observation of a line whose target is new, the target
    row stays in the table without any observation, the line is reported
    as failed and is not counted. *)
Theorem X7_target_without_observation :
  forall w target tool pid c rest,
    pending w = Quiet :: Quiet :: IOFailure :: rest ->
    find (target_keyed target pid) (targets (db w)) = None ->
    let one := process_targets [target] tool pid c w in
    fst one = c /\
    pending (snd one) = rest /\
    recon_data (db (snd one)) = recon_data (db w) /\
    (exists row,
       targets (db (snd one)) = (targets (db w) ++ [row])%list /\
       t_program_id row = pid /\ t_target row = target) /\
    exists err, out (snd one) = (out w ++ [LogReconError target err])%list.
Proof.
  intros w target tool pid c rest P F. cbn zeta.
  rewrite process_targets_cons.
  remember ("Discovered via " ++ tool) as context eqn:Ctx. clear Ctx.
  unfold GetOrCreateTarget, query, bind.
  destruct (arrive_quiet w _ P) as (w1 & -> & P1 & O1 & D1).
  unfold select_target_id. rewrite D1, F.
  unfold time_Now, exec, bind.
  set (w2 := set_clock (clock w1 + 1) w1).
  assert (P2 : pending w2 = Quiet :: IOFailure :: rest) by exact P1.
  destruct (arrive_quiet w2 _ P2) as (w3 & -> & P3 & O3 & D3).
  unfold insert_target. rewrite D3. cbn [db w2 set_clock]. rewrite D1.
  apply find_none_existsb in F. rewrite F. cbn [ret].
  unfold AddReconData, time_Now, exec, bind, arrive.
  cbn [pending set_db set_clock set_pending]. rewrite P3.
  cbn [hd tl ret process_targets print fst snd pending db out recon_data
       targets set_db set_clock set_pending set_out].
  split; [reflexivity|]. split; [reflexivity|]. split; [reflexivity|].
  split.
  - eexists. split; [reflexivity|]. split; reflexivity.
  - eexists. rewrite O3. cbn [out w2 set_clock]. rewrite O1. reflexivity.
Qed.

(** The line [example.com] on a fresh store whose driver fails at the third
    statement. *)
Lemma X7_target_without_observation_witness :
  let w := fresh_world [] [Quiet; Quiet; IOFailure] in
  let one := process_targets ["example.com"] "tool_x" 1 0 w in
  fst one = 0 /\
  recon_data (db (snd one)) = [] /\
  map t_target (targets (db (snd one))) = ["example.com"].
Proof.
  intros w one.
  destruct (X7_target_without_observation w "example.com" "tool_x" 1 0 []
              eq_refl eq_refl) as (C & _ & R & (row & T & _ & K) & _).
  split; [exact C|]. split; [exact R|].
  fold one in T. rewrite T. simpl. now rewrite K.
Defined.

End Failures.

(** ** One program per run *)

Section OneProgram.

Lemma ingest_calm_programs ts first tool w :
  calm w -> unique_targets (db w) ->
  let org := ExtractDomain (program_domain first) in
  let w' := snd (ingest ts first tool w) in
  programs (db w') = programs (db w) \/
  exists row,
    programs (db w') = (programs (db w) ++ [row])%list /\
    p_name row = org /\ p_scope row = Some (program_scope (program_domain first)).
Proof.
  intros C U org. cbn zeta.
  pose proof (ingest_report ts first tool w) as R. cbn zeta in R.
  remember (snd (print (MsgExtracted (program_domain first))
                   (snd (print (MsgFound (Z.of_nat (List.length ts))) w))))
    as w0 eqn:W0.
  assert (D0 : db w0 = db w) by (subst w0; reflexivity).
  assert (C0 : calm w0) by (subst w0; exact C).
  clear W0.
  destruct (GetOrCreateProgram (program_domain first) w0) as [r1 w1] eqn:E1.
  destruct (GetOrCreateProgram_calm _ _ _ _ C0 E1) as (C1 & T1 & _ & H1).
  fold org in H1. rewrite D0 in H1, T1.
  assert (U1 : unique_targets (db w1)).
  { unfold unique_targets. rewrite T1. exact U. }
  destruct (find (program_named org) (programs (db w))) as [row|].
  - destruct H1 as (-> & D).
    destruct (process_targets_calm ts tool (p_id row) 0 w1 C1 U1)
      as (_ & _ & _ & Pf & _).
    destruct R as (_ & _ & Rd & _). left. rewrite Rd. cbn zeta in Pf.
    rewrite Pf, D. reflexivity.
  - destruct H1 as (row & -> & P & N & S & _).
    destruct (process_targets_calm ts tool (p_id row) 0 w1 C1 U1)
      as (_ & _ & _ & Pf & _).
    destruct R as (_ & _ & Rd & _). right. exists row. rewrite Rd.
    cbn zeta in Pf. rewrite Pf, P. auto.
Qed.

(** X8. One run, one program.  In a run without failures every non-blank
    line of the input, whatever its own host, ends up as a target of the
    program named after the first non-blank line; the run creates that
    program when it is missing and no other program; the exit status is
    0. *)
Theorem X8_all_lines_under_first_program :
  forall w,
    piped w -> ensure_fault w = false -> open_fault w = false ->
    calm w -> unique_targets (db w) ->
    non_blank_trimmed (stdin w) <> [] ->
    let ts := non_blank_trimmed (stdin w) in
    let org := ExtractDomain (program_domain (hd "" ts)) in
    let w' := snd (main w) in
    fst (main w) = 0 /\
    (exists prow,
       find (program_named org) (programs (db w')) = Some prow /\
       forall l, In l ts ->
         List.length (target_rows (p_id prow) l (db w')) = 1%nat) /\
    (programs (db w') = programs (db w) \/
     exists row,
       programs (db w') = (programs (db w) ++ [row])%list /\
       p_name row = org).
Proof.
  intros w P EF OF C U NE. cbn zeta.
  destruct (main_cases w P) as [(_ & _ & _ & _ & [F|[F|F]])|H];
    try congruence.
  destruct H as (_ & _ & _ & w0 & -> & D0 & P0 & _).
  assert (C0 : calm w0) by (unfold calm; rewrite P0; exact C).
  assert (U0 : unique_targets (db w0))
    by (unfold unique_targets; rewrite D0; exact U).
  set (ts := non_blank_trimmed (stdin w)) in *.
  destruct (ingest_calm ts (hd "" ts) DetectTool w0 C0 U0)
    as (prow & rows & F1 & _ & U1 & Code & _ & _ & I1 & _).
  cbn zeta in *. split.
  - rewrite Code. destruct ts; [congruence|]. reflexivity.
  - split.
    + exists prow. split; [exact F1|]. intros l I.
      destruct (resolved_lines _ _ _ _ I1 l I) as [id S].
      apply select_target_id_found in S. unfold target_rows.
      destruct (find (target_keyed l (p_id prow)) _) as [row|] eqn:F;
        [|congruence].
      now rewrite (unique_rows _ _ _ _ U1 F).
    + destruct (ingest_calm_programs ts (hd "" ts) DetectTool w0 C0 U0)
        as [Same|(row & New & N & _)]; cbn zeta in *.
      * left. now rewrite Same, D0.
      * right. exists row. now rewrite New, D0.
Qed.

(** Two hosts of two organizations in one batch. *)
Lemma X8_all_lines_under_first_program_witness :
  let w := fresh_world ["shop.example.com"; "other.org"] [] in
  exists prow,
    find (program_named "shop") (programs (db (snd (main w)))) = Some prow /\
    List.length (target_rows (p_id prow) "other.org" (db (snd (main w))))
      = 1%nat.
Proof.
  intros w.
  destruct (X8_all_lines_under_first_program w) as (_ & (prow & F & T) & _).
  - reflexivity.
  - reflexivity.
  - reflexivity.
  - constructor.
  - constructor.
  - vm_compute. discriminate.
  - exists prow. split.
    + exact F.
    + apply T. vm_compute. right. now left.
Defined.

End OneProgram.

(** ** Repositories *)

Section Ordering.

Context {A : Type} (le : A -> A -> bool).
Hypothesis le_total : forall a b, le a b = true \/ le b a = true.

Lemma insert_by_perm x l : Permutation (Sql.insert_by le x l) (x :: l).
Proof.
  induction l as [|y l IH]; simpl; [reflexivity|].
  destruct (le x y); [reflexivity|].
  rewrite IH. apply perm_swap.
Qed.

Lemma order_by_perm l : Permutation (Sql.order_by le l) l.
Proof.
  induction l as [|x l IH]; simpl; [reflexivity|].
  rewrite insert_by_perm. now constructor.
Qed.

Lemma insert_by_sorted x l :
  Sorted (fun a b => le a b = true) l ->
  Sorted (fun a b => le a b = true) (Sql.insert_by le x l).
Proof.
  induction l as [|y l IH]; simpl; intros S.
  - repeat constructor.
  - destruct (le x y) eqn:E.
    + constructor; [exact S | constructor; exact E].
    + apply Sorted_inv in S as (S & H). constructor; [now apply IH|].
      destruct l as [|z l]; simpl.
      * constructor. destruct (le_total x y); congruence.
      * destruct (le x z); constructor.
        -- destruct (le_total x y); congruence.
        -- now apply HdRel_inv in H.
Qed.

Lemma order_by_sorted l :
  Sorted (fun a b => le a b = true) (Sql.order_by le l).
Proof.
  induction l as [|x l IH]; simpl; [constructor|].
  now apply insert_by_sorted.
Qed.

End Ordering.

Section RepositoryCalls.

Lemma query_calm {A} (stmt : DB -> SqlError + A) w :
  calm w ->
  exists w1,
    query stmt w = (stmt (db w), w1) /\ calm w1 /\ db w1 = db w /\
    out w1 = out w.
Proof.
  intros C. unfold query, bind.
  destruct (arrive_calm w C) as (w1 & -> & C1 & D1 & O1).
  exists w1. rewrite D1. auto.
Qed.

Lemma exec_calm stmt w :
  calm w ->
  exists w1,
    calm w1 /\ db w1 = db w /\ out w1 = out w /\
    exec stmt w =
    match stmt (clock w1) (db w) with
    | inl err => (inl err, w1)
    | inr (id, d') => (inr id, set_db d' w1)
    end.
Proof.
  intros C. unfold exec, bind.
  destruct (arrive_calm w C) as (w1 & -> & C1 & D1 & O1).
  exists w1. rewrite D1. auto.
Qed.

Lemma run_calm stmt w :
  calm w ->
  exists w1,
    calm w1 /\ db w1 = db w /\ out w1 = out w /\
    Sql.run stmt w =
    match stmt (db w) with
    | inl err => (Some (Sql.Driver err), w1)
    | inr d' => (None, set_db d' w1)
    end.
Proof.
  intros C. unfold Sql.run, bind.
  destruct (arrive_calm w C) as (w1 & -> & C1 & D1 & O1).
  exists w1. rewrite D1. auto.
Qed.

Lemma scan_rows_total {R T} (f : R -> T) rows :
  Sql.scan_rows (fun r => inr (f r)) rows = inr (map f rows).
Proof.
  induction rows as [|r rows IH]; simpl; [reflexivity|]. now rewrite IH.
Qed.

Lemma find_fresh_key {R} (key : R -> Z) (bound id : Z) (l : list R) :
  Forall (fun r => key r <= bound) l -> bound < id ->
  find (fun r => key r =? id) l = None.
Proof.
  intros F L. induction F as [|r l Hr F IH]; simpl; [reflexivity|].
  destruct (Z.eqb_spec (key r) id); [lia | exact IH].
Qed.

Lemma find_app_none {R} (f : R -> bool) (l l' : list R) :
  find f l = None -> find f (l ++ l') = find f l'.
Proof.
  induction l as [|r l IH]; simpl; [reflexivity|].
  destruct (f r); [discriminate | exact IH].
Qed.

End RepositoryCalls.

Lemma existsb_find_some {R} (f : R -> bool) (l : list R) r :
  find f l = Some r -> existsb f l = true.
Proof.
  intros F. apply existsb_exists. exists r.
  apply find_some in F. exact F.
Qed.





Lemma program_GetByID_calm id w :
  calm w ->
  fst (ProgramRepository.GetByID id w)
  = match find (ProgramRepository.with_id id) (programs (db w)) with
    | Some r => inr (ProgramRepository.scan r)
    | None => inl (Sql.Driver ErrNoRows)
    end.
Proof.
  intros C. unfold ProgramRepository.GetByID, bind.
  destruct (query_calm (ProgramRepository.select_by_id id) w C)
    as (w1 & -> & _ & _ & _).
  unfold ProgramRepository.select_by_id.
  destruct (find (ProgramRepository.with_id id) (programs (db w)));
    reflexivity.
Qed.

Lemma find_map_same {R} (f : R -> bool) (g : R -> R) (l : list R) :
  (forall r, f (g r) = f r) ->
  find f (map g l) = option_map g (find f l).
Proof.
  intros H. induction l as [|r l IH]; simpl; [reflexivity|].
  rewrite H. destruct (f r); [reflexivity | exact IH].
Qed.

Lemma map_untouched {R} (f : R -> bool) (g : R -> R) (l : list R) :
  find f l = None -> map (fun r => if f r then g r else r) l = l.
Proof.
  induction l as [|r l IH]; simpl; [reflexivity|].
  destruct (f r); [discriminate|]. intros F. now rewrite IH.
Qed.

Lemma find_filter_other {R} (f g : R -> bool) (l : list R) :
  (forall r, f r = true -> g r = true) ->
  find f (filter g l) = find f l.
Proof.
  intros H. induction l as [|r l IH]; simpl; [reflexivity|].
  destruct (g r) eqn:G; simpl.
  - destruct (f r); [reflexivity | exact IH].
  - destruct (f r) eqn:Fr; [|exact IH]. apply H in Fr. congruence.
Qed.

Lemma find_filter_out {R} (f : R -> bool) (l : list R) :
  find f (filter (fun r => negb (f r)) l) = None.
Proof.
  induction l as [|r l IH]; simpl; [reflexivity|].
  destruct (f r) eqn:Fr; simpl; [exact IH|]. now rewrite Fr.
Qed.

Lemma DB_eta d :
  mkDB (programs d) (targets d) (recon_data d) (seq_programs d)
       (seq_targets d) (seq_recon_data d) = d.
Proof. destruct d; reflexivity. Qed.

(** X10. Method [Update] of [ProgramRepository], when no other invocation
    is at work.  If no program has the key of the struct, the call returns
    no error and the store is as it was: a missing program is not
    reported.  If another program holds the new name, the call fails on
    the constraint and the store is as it was.  Otherwise [GetByID] then
    reads the name and the four texts of the struct (each as stored), still
    with the key and the creation time of the row, whatever the struct's
    [CreatedAt] was; every other program reads as before, and the targets
    and the observations are untouched. *)
Theorem X10_program_update (p : ProgramRepository.Program) (w : World) :
  calm w ->
  let id := ProgramRepository.ID p in
  let result := ProgramRepository.Update p w in
  match find (ProgramRepository.with_id id) (programs (db w)) with
  | None => fst result = None /\ db (snd result) = db w
  | Some old =>
      if existsb (fun r => program_named (ProgramRepository.Name p) r
                           && negb (ProgramRepository.with_id id r))
                 (programs (db w))
      then fst result = Some (Sql.Driver ErrConstraint) /\
           db (snd result) = db w
      else
        fst result = None /\
        fst (ProgramRepository.GetByID id (snd result))
        = inr (ProgramRepository.mkProgram id (ProgramRepository.Name p)
                 (stored (ProgramRepository.URL p))
                 (stored (ProgramRepository.Scope p))
                 (stored (ProgramRepository.OutOfScope p))
                 (stored (ProgramRepository.BountyNotes p))
                 (p_created_at old)) /\
        (forall id', id' <> id ->
           fst (ProgramRepository.GetByID id' (snd result))
           = fst (ProgramRepository.GetByID id' w)) /\
        targets (db (snd result)) = targets (db w) /\
        recon_data (db (snd result)) = recon_data (db w)
  end.
Proof.
  intros C id result. subst result. unfold ProgramRepository.Update.
  destruct (run_calm
              (ProgramRepository.update id (ProgramRepository.Name p)
                 (Sql.string_value (ProgramRepository.URL p))
                 (Sql.string_value (ProgramRepository.Scope p))
                 (Sql.string_value (ProgramRepository.OutOfScope p))
                 (Sql.string_value (ProgramRepository.BountyNotes p))) w C)
    as (w1 & C1 & D1 & O1 & E).
  fold id. rewrite E. clear E. unfold ProgramRepository.update.
  destruct (find (ProgramRepository.with_id id) (programs (db w)))
    as [old|] eqn:F.
  - rewrite (existsb_find_some _ _ _ F). rewrite andb_true_l.
    destruct (existsb _ (programs (db w))) eqn:X.
    + simpl. split; [reflexivity | exact D1].
    + cbn [fst snd].
      split; [reflexivity|].
      assert (CW : forall d, calm (set_db d w1)) by (intros d; exact C1).
      split; [|split; [|split; reflexivity]].
      * rewrite program_GetByID_calm by apply CW. simpl.
        rewrite find_map_same.
        2:{ intros r. unfold ProgramRepository.with_id.
            destruct (p_id r =? id) eqn:E; simpl; try rewrite E;
              reflexivity. }
        rewrite F. simpl.
        destruct (find_some _ _ F) as (_ & I). rewrite I.
        unfold ProgramRepository.with_id in I. apply Z.eqb_eq in I.
        unfold ProgramRepository.scan. simpl. rewrite I. reflexivity.
      * intros id' N.
        rewrite program_GetByID_calm by apply CW.
        rewrite program_GetByID_calm by exact C. simpl.
        rewrite find_map_same.
        2:{ intros r. unfold ProgramRepository.with_id.
            destruct (p_id r =? id) eqn:E; simpl; try rewrite E;
              reflexivity. }
        destruct (find (ProgramRepository.with_id id') (programs (db w)))
          as [r|] eqn:F'; [|reflexivity]. simpl.
        destruct (find_some _ _ F') as (_ & I').
        unfold ProgramRepository.with_id in *.
        apply Z.eqb_eq in I'.
        destruct (Z.eqb_spec (p_id r) id); [congruence | reflexivity].
  - rewrite (proj1 (find_none_existsb _ _) F). simpl.
    split; [reflexivity|].
    rewrite (map_untouched _ _ _ F), <- D1. apply DB_eta.
Qed.

Lemma X10_program_update_witness :
  let w := snd (ProgramRepository.Create
                  (ProgramRepository.mkProgram 0 "acme"
                     (Sql.mkNullString "" false) (Sql.mkNullString "" false)
                     (Sql.mkNullString "" false) (Sql.mkNullString "" false)
                     0)
                  (fresh_world [] [])) in
  let p := ProgramRepository.mkProgram 1 "acme-corp"
             (Sql.mkNullString "https://acme.test" true)
             (Sql.mkNullString "" false) (Sql.mkNullString "" false)
             (Sql.mkNullString "" false) 500 in
  calm w /\
  fst (ProgramRepository.Update p w) = None /\
  fst (ProgramRepository.GetByID 1 (snd (ProgramRepository.Update p w)))
  = inr (ProgramRepository.mkProgram 1 "acme-corp"
           (Sql.mkNullString "https://acme.test" true)
           (Sql.mkNullString "" false) (Sql.mkNullString "" false)
           (Sql.mkNullString "" false) 1).
Proof.
  intros w p.
  assert (C : calm w) by constructor.
  split; [exact C|].
  pose proof (X10_program_update p w C) as H.
  cbv zeta in H. vm_compute find in H. 
  destruct H as (H1 & H2 & _). split; [exact H1 | exact H2].
Defined.

(** X11. Method [Delete] of [ProgramRepository], when no other invocation
    is at work: the call returns no error whether or not a program has the
    key; afterwards [GetByID] finds no row for the key, every other program
    reads as before, and the targets and observations recorded under the
    program are all still there, so that [ListByProgram] for the deleted
    key answers as before. *)
Theorem X11_program_delete_keeps_targets (id : Z) (w : World) :
  calm w ->
  let w' := snd (ProgramRepository.Delete id w) in
  fst (ProgramRepository.Delete id w) = None /\
  fst (ProgramRepository.GetByID id w') = inl (Sql.Driver ErrNoRows) /\
  (forall id', id' <> id ->
     fst (ProgramRepository.GetByID id' w')
     = fst (ProgramRepository.GetByID id' w)) /\
  targets (db w') = targets (db w) /\
  recon_data (db w') = recon_data (db w) /\
  fst (TargetRepository.ListByProgram id w')
  = fst (TargetRepository.ListByProgram id w).
Proof.
  intros C w'. subst w'. unfold ProgramRepository.Delete.
  destruct (run_calm (ProgramRepository.delete id) w C)
    as (w1 & C1 & D1 & O1 & ->).
  unfold ProgramRepository.delete. cbn [fst snd].
  assert (CW : forall d, calm (set_db d w1)) by (intros d; exact C1).
  split; [reflexivity|]. split; [|split; [|split; [|split]]].
  - rewrite program_GetByID_calm by apply CW. simpl.
    now rewrite find_filter_out.
  - intros id' N.
    rewrite program_GetByID_calm by apply CW.
    rewrite program_GetByID_calm by exact C. simpl.
    rewrite find_filter_other; [reflexivity|].
    intros r. unfold ProgramRepository.with_id.
    destruct (Z.eqb_spec (p_id r) id'); [|discriminate].
    intros _. destruct (Z.eqb_spec (p_id r) id); [congruence | reflexivity].
  - reflexivity.
  - reflexivity.
  - unfold TargetRepository.ListByProgram, bind.
    destruct (query_calm (TargetRepository.select_by_program id) _
                (CW (mkDB (filter (fun r =>
                                     negb (ProgramRepository.with_id id r))
                             (programs (db w)))
                       (targets (db w)) (recon_data (db w))
                       (seq_programs (db w)) (seq_targets (db w))
                       (seq_recon_data (db w)))))
      as (w2 & -> & _ & _ & _).
    destruct (query_calm (TargetRepository.select_by_program id) w C)
      as (w3 & -> & _ & _ & _).
    reflexivity.
Qed.

Lemma X11_program_delete_keeps_targets_witness :
  let w := snd (main (fresh_world ["api.example.com"; "example.com"] [])) in
  calm w /\
  fst (ProgramRepository.GetByID 1 w)
  = inr (ProgramRepository.mkProgram 1 "example"
           (Sql.mkNullString "" false)
           (Sql.mkNullString "*.api.example.com" true)
           (Sql.mkNullString "" false) (Sql.mkNullString "" false) 2) /\
  fst (ProgramRepository.GetByID 1 (snd (ProgramRepository.Delete 1 w)))
  = inl (Sql.Driver ErrNoRows) /\
  List.length (targets (db (snd (ProgramRepository.Delete 1 w)))) = 2%nat.
Proof.
  intros w.
  assert (C : calm w) by (unfold calm; vm_compute; constructor).
  split; [exact C|].
  destruct (X11_program_delete_keeps_targets 1 w C) as (_ & G & _ & T & _).
  split; [vm_compute; reflexivity|].
  split; [exact G|].
  rewrite T. vm_compute. reflexivity.
Defined.

Lemma Sorted_map {A B} (f : A -> B) (R : A -> A -> Prop) (S : B -> B -> Prop)
  (l : list A) :
  (forall a b, R a b -> S (f a) (f b)) ->
  Sorted R l -> Sorted S (map f l).
Proof.
  intros H. induction 1 as [|a l SL IH HR]; simpl; constructor.
  - exact IH.
  - destruct HR; simpl; constructor. now apply H.
Qed.

(** X12. Method [List] of [ProgramRepository], when no other invocation is
    at work: the call returns every program of the table exactly once, each
    as [Scan] reads its row, in ascending byte order of the names. *)
Theorem X12_program_list_sorted (w : World) :
  calm w ->
  exists ps,
    fst (ProgramRepository.List w) = inr ps /\
    Permutation ps (map ProgramRepository.scan (programs (db w))) /\
    Sorted (fun a b => String.leb (ProgramRepository.Name a)
                                  (ProgramRepository.Name b) = true) ps.
Proof.
  intros C. unfold ProgramRepository.List, bind.
  destruct (query_calm ProgramRepository.select_all w C)
    as (w1 & -> & _ & _ & _).
  unfold ProgramRepository.select_all, ret. cbn [fst].
  rewrite scan_rows_total. eexists. split; [reflexivity|]. split.
  - apply Permutation_map, order_by_perm.
  - eapply Sorted_map; [|apply order_by_sorted].
    + intros a b H. exact H.
    + intros a b. apply String.leb_total.
Qed.

Lemma X12_program_list_sorted_witness :
  let create name :=
    ProgramRepository.Create
      (ProgramRepository.mkProgram 0 name (Sql.mkNullString "" false)
         (Sql.mkNullString "" false) (Sql.mkNullString "" false)
         (Sql.mkNullString "" false) 0) in
  let w := snd (create "acme" (snd (create "Zeta" (snd (create "beta"
                  (fresh_world [] [])))))) in
  calm w /\
  (exists ps,
     fst (ProgramRepository.List w) = inr ps /\
     Permutation ps (map ProgramRepository.scan (programs (db w))) /\
     Sorted (fun a b => String.leb (ProgramRepository.Name a)
                                   (ProgramRepository.Name b) = true) ps) /\
  match fst (ProgramRepository.List w) with
  | inr ps => map ProgramRepository.Name ps = ["Zeta"; "acme"; "beta"]
  | inl _ => False
  end.
Proof.
  intros create w.
  assert (C : calm w) by constructor.
  split; [exact C|]. split; [exact (X12_program_list_sorted w C)|].
  vm_compute. reflexivity.
Defined.

Lemma target_GetByID_calm id w :
  calm w ->
  fst (TargetRepository.GetByID id w)
  = match find (TargetRepository.with_id id) (targets (db w)) with
    | Some r => TargetRepository.scan r
    | None => inl (Sql.Driver ErrNoRows)
    end.
Proof.
  intros C. unfold TargetRepository.GetByID, bind.
  destruct (query_calm (TargetRepository.select_by_id id) w C)
    as (w1 & -> & _ & _ & _).
  unfold TargetRepository.select_by_id.
  destruct (find (TargetRepository.with_id id) (targets (db w)));
    reflexivity.
Qed.

Lemma target_GetByProgramAndTarget_calm pid target w :
  calm w ->
  fst (TargetRepository.GetByProgramAndTarget pid target w)
  = match find (target_keyed target pid) (targets (db w)) with
    | Some r => TargetRepository.scan r
    | None => inl (Sql.Driver ErrNoRows)
    end.
Proof.
  intros C. unfold TargetRepository.GetByProgramAndTarget, bind.
  destruct (query_calm (TargetRepository.select_by_key pid target) w C)
    as (w1 & -> & _ & _ & _).
  unfold TargetRepository.select_by_key.
  destruct (find (target_keyed target pid) (targets (db w)));
    reflexivity.
Qed.

(** X13. What [GetOrCreateTarget] of the pipeline writes, as the
    repository reads it, when no other invocation is at work and the keys
    were issued by the counters.  For a string the program has no target
    for, the call returns the next key, and [GetByProgramAndTarget] and
    [GetByID] then both read the same target: that key, the program, the
    raw string, the type [ClassifyTarget] gives it, the tool as source, a
    time of last check, not alive, not tested, no test date and no notes.
    Before the call [GetByProgramAndTarget] finds no row. *)
Theorem X13_created_target_read_back
  (target tool : string) (pid : Z) (w : World) :
  calm w ->
  keys_issued (db w) ->
  find (target_keyed target pid) (targets (db w)) = None ->
  let w' := snd (GetOrCreateTarget target tool pid w) in
  let id := seq_targets (db w) + 1 in
  exists last_checked created_at,
    let read :=
      TargetRepository.mkTarget id pid target (ClassifyTarget target)
        (Sql.mkNullString tool true) false
        (Sql.mkNullTime last_checked true) false (Sql.mkNullTime 0 false)
        (Sql.mkNullString "" false) (Sql.mkNullString "" false) created_at in
    fst (TargetRepository.GetByProgramAndTarget pid target w)
    = inl (Sql.Driver ErrNoRows) /\
    fst (GetOrCreateTarget target tool pid w) = inr id /\
    fst (TargetRepository.GetByProgramAndTarget pid target w') = inr read /\
    fst (TargetRepository.GetByID id w') = inr read.
Proof.
  intros C (KP & KT & KR) F w' id. subst w'.
  unfold GetOrCreateTarget, query, bind.
  destruct (arrive_calm w C) as (w1 & -> & C1 & D1 & O1).
  unfold select_target_id. rewrite D1, F.
  destruct (time_Now_calm w1 C1) as (C2 & D2 & O2).
  unfold time_Now in *. cbn [fst snd] in *.
  unfold exec, bind.
  destruct (arrive_calm _ C2) as (w3 & -> & C3 & D3 & O3).
  unfold insert_target. rewrite D3, D2, D1.
  rewrite (proj1 (find_none_existsb _ _) F). cbn [fst snd ret].
  exists (clock w1), (clock w3).
  assert (CW : forall d, calm (set_db d w3)) by (intros d; exact C3).
  split; [|split; [reflexivity|split]].
  - rewrite target_GetByProgramAndTarget_calm by exact C. now rewrite F.
  - rewrite target_GetByProgramAndTarget_calm by apply CW. simpl.
    rewrite find_app_none by exact F. simpl.
    unfold target_keyed. simpl.
    rewrite String.eqb_refl, Z.eqb_refl. reflexivity.
  - rewrite target_GetByID_calm by apply CW. simpl.
    rewrite find_app_none.
    2:{ apply (find_fresh_key t_id (seq_targets (db w))); [exact KT | lia]. }
    simpl. unfold TargetRepository.with_id. simpl.
    rewrite Z.eqb_refl. reflexivity.
Qed.

Lemma X13_created_target_read_back_witness :
  let w := fresh_world [] [] in
  calm w /\ keys_issued (db w) /\
  find (target_keyed "10.0.0.1:8080" 1) (targets (db w)) = None /\
  exists last_checked created_at,
    fst (TargetRepository.GetByID 1
           (snd (GetOrCreateTarget "10.0.0.1:8080" "nmap" 1 w)))
    = inr (TargetRepository.mkTarget 1 1 "10.0.0.1:8080" "ip_port"
             (Sql.mkNullString "nmap" true) false
             (Sql.mkNullTime last_checked true) false (Sql.mkNullTime 0 false)
             (Sql.mkNullString "" false) (Sql.mkNullString "" false)
             created_at).
Proof.
  intros w.
  assert (C : calm w) by constructor.
  assert (K : keys_issued (db w)) by (repeat split; constructor).
  assert (F : find (target_keyed "10.0.0.1:8080" 1) (targets (db w)) = None)
    by reflexivity.
  split; [exact C|]. split; [exact K|]. split; [exact F|].
  destruct (X13_created_target_read_back "10.0.0.1:8080" "nmap" 1 w C K F)
    as (lc & ca & _ & _ & _ & G).
  exists lc, ca. exact G.
Defined.

Lemma scan_rows_targets rows :
  match Sql.scan_rows TargetRepository.scan rows with
  | inr ts => Forall2 (fun r t => TargetRepository.scan r = inr t) rows ts
  | inl e => e = Sql.NullInto "type" /\
             Exists (fun r => t_type r = None) rows
  end.
Proof.
  induction rows as [|r rows IH]; simpl; [constructor|].
  destruct (TargetRepository.scan r) as [e|t] eqn:E.
  - unfold TargetRepository.scan in E.
    destruct (t_type r) eqn:T; [discriminate|].
    injection E as <-. split; [reflexivity | now constructor].
  - destruct (Sql.scan_rows TargetRepository.scan rows) as [e|ts].
    + destruct IH as (-> & X). split; [reflexivity | now constructor 2].
    + now constructor.
Qed.

(** X14. Method [ListByProgram] of [TargetRepository], when no other
    invocation is at work.  The rows of the program, each once, in
    ascending byte order of the target strings, are scanned one after the
    other: when the call succeeds its result is, in that order, what [Scan]
    reads from each of them, so every target of the program and no other is
    listed; the call fails exactly with the refusal to store NULL in
    [Type], and then one of the program's rows has no type.  One such row
    is enough for the program to have no listing at all. *)
Theorem X14_targets_listed_by_program (pid : Z) (w : World) :
  calm w ->
  exists rows,
    Permutation rows
      (filter (fun r => t_program_id r =? pid) (targets (db w))) /\
    Sorted (fun a b => String.leb (t_target a) (t_target b) = true) rows /\
    match fst (TargetRepository.ListByProgram pid w) with
    | inr ts =>
        Forall2 (fun r t => TargetRepository.scan r = inr t) rows ts /\
        Forall (fun t => TargetRepository.ProgramID t = pid) ts
    | inl e =>
        e = Sql.NullInto "type" /\ Exists (fun r => t_type r = None) rows
    end.
Proof.
  intros C. unfold TargetRepository.ListByProgram, bind.
  destruct (query_calm (TargetRepository.select_by_program pid) w C)
    as (w1 & -> & _ & _ & _).
  unfold TargetRepository.select_by_program, ret. cbn [fst].
  set (mine := filter (fun r => t_program_id r =? pid) (targets (db w))).
  exists (Sql.order_by TargetRepository.by_target mine).
  assert (PM : Permutation (Sql.order_by TargetRepository.by_target mine) mine)
    by apply order_by_perm.
  split; [exact PM|]. split.
  - apply (order_by_sorted TargetRepository.by_target).
    intros a b. apply String.leb_total.
  - pose proof (scan_rows_targets
                  (Sql.order_by TargetRepository.by_target mine)) as S.
    destruct (Sql.scan_rows TargetRepository.scan
                (Sql.order_by TargetRepository.by_target mine)) as [e|ts];
      [exact S|].
    split; [exact S|].
    assert (M : Forall (fun r => t_program_id r = pid)
                  (Sql.order_by TargetRepository.by_target mine)).
    { apply Forall_forall. intros r I.
      apply (Permutation_in _ PM) in I. apply filter_In in I.
      now apply Z.eqb_eq. }
    clear PM. induction S as [|r t rows ts' E S IH]; constructor.
    + inversion M; subst. unfold TargetRepository.scan in E.
      destruct (t_type r); [|discriminate]. injection E as <-. reflexivity.
    + apply IH. now inversion M.
Qed.

Lemma X14_targets_listed_by_program_witness :
  let w := snd (main (fresh_world ["b.example.com"; "a.example.com"] [])) in
  calm w /\
  match fst (TargetRepository.ListByProgram 1 w) with
  | inr ts =>
      map TargetRepository.Target_ ts = ["a.example.com"; "b.example.com"]
  | inl _ => False
  end /\
  exists rows,
    Permutation rows
      (filter (fun r => t_program_id r =? 1) (targets (db w))) /\
    Sorted (fun a b => String.leb (t_target a) (t_target b) = true) rows.
Proof.
  intros w.
  assert (C : calm w) by (unfold calm; vm_compute; constructor).
  split; [exact C|]. split; [vm_compute; reflexivity|].
  destruct (X14_targets_listed_by_program 1 w C) as (rows & P & S & _).
  exists rows. split; [exact P | exact S].
Defined.

(** ** What a run never changes *)

Section Invariant.

Variable P : DB -> DB -> Prop.
Hypothesis P_refl : forall d, P d d.
Hypothesis P_trans : forall a b c, P a b -> P b c -> P a c.
Hypothesis P_program :
  forall name scope now d id d',
    insert_program name scope now d = inr (id, d') -> P d d'.
Hypothesis P_target :
  forall pid target type source lc now d id d',
    insert_target pid target type source lc now d = inr (id, d') -> P d d'.
Hypothesis P_recon :
  forall tid tool data context ts d id d',
    insert_recon_data tid tool data context ts d = inr (id, d') -> P d d'.

Lemma on_tables_refl w : on_tables P w w.
Proof. apply P_refl. Qed.

Lemma on_tables_trans a b c :
  on_tables P a b -> on_tables P b c -> on_tables P a c.
Proof. apply P_trans. Qed.

Lemma on_tables_same w w' : db w' = db w -> on_tables P w w'.
Proof. unfold on_tables. intros ->. apply P_refl. Qed.

Lemma arrive_on_tables : keeps (on_tables P) arrive.
Proof.
  intros w. unfold arrive, on_tables.
  destruct (hd Quiet (pending w)) as [| |name scope|pid target type source];
    cbn [snd db set_clock set_db set_pending interfere clock];
    try apply P_refl.
  - destruct (insert_program name scope (clock w) (db w))
      as [err|[id d']] eqn:E; [apply P_refl | eapply P_program, E].
  - destruct (insert_target pid target type source (clock w) (clock w) (db w))
      as [err|[id d']] eqn:E; [apply P_refl | eapply P_target, E].
Qed.

Lemma query_on_tables {A} (stmt : DB -> SqlError + A) :
  keeps (on_tables P) (query stmt).
Proof.
  unfold query. apply (keeps_bind _ on_tables_trans).
  - apply arrive_on_tables.
  - intros [|]; [|apply (keeps_ret _ on_tables_refl)].
    intros w. apply on_tables_refl.
Qed.

Lemma exec_on_tables stmt :
  (forall tm d id d', stmt tm d = inr (id, d') -> P d d') ->
  keeps (on_tables P) (exec stmt).
Proof.
  intros H.
  apply (exec_keeps (on_tables P) P);
    [ apply on_tables_refl | apply on_tables_trans | apply arrive_on_tables
    | exact H | ].
  intros w d' X. exact X.
Qed.

Lemma print_on_tables m : keeps (on_tables P) (print m).
Proof. intros w. apply on_tables_same. reflexivity. Qed.

Lemma time_Now_on_tables : keeps (on_tables P) time_Now.
Proof. intros w. apply on_tables_same. reflexivity. Qed.

Lemma GetOrCreateTarget_on_tables target tool pid :
  keeps (on_tables P) (GetOrCreateTarget target tool pid).
Proof.
  unfold GetOrCreateTarget. keeps_steps on_tables_refl on_tables_trans;
    try apply query_on_tables; try apply time_Now_on_tables.
  apply exec_on_tables. intros tm d id d'. apply P_target.
Qed.

Lemma GetOrCreateProgram_on_tables domain :
  keeps (on_tables P) (GetOrCreateProgram domain).
Proof.
  unfold GetOrCreateProgram. keeps_steps on_tables_refl on_tables_trans;
    try apply query_on_tables; try apply print_on_tables.
  apply exec_on_tables. intros tm d id d'. apply P_program.
Qed.

Lemma AddReconData_on_tables tid tool data context :
  keeps (on_tables P) (AddReconData tid tool data context).
Proof.
  unfold AddReconData. keeps_steps on_tables_refl on_tables_trans;
    try apply time_Now_on_tables.
  apply exec_on_tables. intros tm d id d'. apply P_recon.
Qed.

Lemma process_targets_on_tables targets tool pid count :
  keeps (on_tables P) (process_targets targets tool pid count).
Proof.
  revert count; induction targets as [|target rest IH]; intros count;
    cbn [process_targets];
    keeps_steps on_tables_refl on_tables_trans;
    auto using GetOrCreateTarget_on_tables, AddReconData_on_tables,
      print_on_tables.
Qed.

Lemma ingest_on_tables targets first tool :
  keeps (on_tables P) (ingest targets first tool).
Proof.
  unfold ingest. keeps_steps on_tables_refl on_tables_trans;
    auto using GetOrCreateProgram_on_tables, process_targets_on_tables,
      print_on_tables.
Qed.

Lemma EnsureDBExists_on_tables : keeps (on_tables P) EnsureDBExists.
Proof.
  intros w. apply on_tables_same.
  apply (proj1 (EnsureDBExists_frame w)).
Qed.

Lemma main_on_tables : keeps (on_tables P) main.
Proof.
  intros w0. unfold main.
  generalize (db_path w0). intros dbPath. revert w0.
  change (keeps (on_tables P)
    (piped <- HasStdinData ;;
     if negb piped then
       print MsgNoInput ;; print (MsgEnsuring dbPath) ;;
       e <- EnsureDBExists ;;
       match e with
       | Some err => print (LogFatal err) ;; ret 1
       | None => print MsgDbReady ;; print MsgUsageEcho ;;
                 print MsgUsageSubfinder ;; ret 0
       end
     else
       print (MsgTool DetectTool) ;; print (MsgDatabase dbPath) ;;
       e <- EnsureDBExists ;;
       match e with
       | Some err => print (LogFatal err) ;; ret 1
       | None =>
           e' <- InitDB ;;
           match e' with
           | Some err => print (LogFatal err) ;; ret 1
           | None =>
               print MsgReading ;;
               tf <- read_stdin ;;
               let (targets, firstTarget) := tf in
               if (Z.of_nat (List.length targets) =? 0) then
                 print MsgNoValidTargets ;; ret 1
               else ingest targets firstTarget DetectTool
           end
       end)).
  keeps_steps on_tables_refl on_tables_trans;
    auto using print_on_tables, EnsureDBExists_on_tables, ingest_on_tables.
  - intros w. apply on_tables_refl.
  - intros w. unfold InitDB. destruct (open_fault w); apply on_tables_refl.
  - intros w. apply on_tables_same. reflexivity.
Qed.

End Invariant.

Lemma filter_snoc_false {R} (f : R -> bool) (l : list R) (x : R) :
  f x = false -> filter f (l ++ [x]) = filter f l.
Proof.
  intros H. rewrite filter_app. simpl. rewrite H. apply app_nil_r.
Qed.

Lemma same_marks_refl d : same_marks d d.
Proof. split; reflexivity. Qed.

Lemma same_marks_trans a b c :
  same_marks a b -> same_marks b c -> same_marks a c.
Proof. intros (A1 & T1) (A2 & T2). split; congruence. Qed.

Lemma target_ListAlive_calm w :
  calm w ->
  fst (TargetRepository.ListAlive w)
  = Sql.scan_rows TargetRepository.scan
      (Sql.order_by TargetRepository.by_target
         (filter t_alive (targets (db w)))).
Proof.
  intros C. unfold TargetRepository.ListAlive, bind.
  destruct (query_calm TargetRepository.select_alive w C)
    as (w1 & -> & _ & _ & _).
  reflexivity.
Qed.

(** X15. A run of the program marks no target: whatever standard input
    holds, whichever statements fail and whatever other invocations insert
    in between, the targets marked alive and the targets marked tested are
    the same rows after [main] as before, so every target that the run or
    a competitor adds is neither alive nor tested, and a later undisturbed
    [ListAlive] answers as it would have before the run. *)
Theorem X15_run_marks_no_target (w : World) :
  let w' := snd (main w) in
  filter t_alive (targets (db w')) = filter t_alive (targets (db w)) /\
  filter t_tested (targets (db w')) = filter t_tested (targets (db w)) /\
  fst (TargetRepository.ListAlive (quiet w'))
  = fst (TargetRepository.ListAlive (quiet w)).
Proof.
  intros w'. subst w'.
  assert (M : same_marks (db w) (db (snd (main w)))).
  { apply (main_on_tables same_marks same_marks_refl same_marks_trans).
    - intros name scope now d id d' E.
      apply insert_program_grows in E as (_ & _ & T).
      unfold same_marks. rewrite T. split; reflexivity.
    - intros pid target type source lc now d id d'.
      unfold insert_target. destruct (existsb _ _); [discriminate|].
      intros [= <- <-]. unfold same_marks. simpl.
      split; apply filter_snoc_false; reflexivity.
    - intros tid tool data context ts d id d'.
      unfold insert_recon_data. intros [= <- <-].
      split; reflexivity. }
  destruct M as (A & T). split; [exact A|]. split; [exact T|].
  rewrite !target_ListAlive_calm by constructor.
  unfold quiet. simpl. rewrite A. reflexivity.
Qed.

Lemma recon_GetByTargetID_calm stored tid w :
  calm w ->
  fst (ReconDataRepository.GetByTargetID stored tid w)
  = inr (map ReconDataRepository.scan
           (Sql.order_by (ReconDataRepository.newest_first stored)
              (filter (fun r => r_target_id r =? tid) (recon_data (db w))))).
Proof.
  intros C. unfold ReconDataRepository.GetByTargetID, bind.
  destruct (query_calm (ReconDataRepository.select_by_target stored tid) w C)
    as (w1 & -> & _ & _ & _).
  unfold ReconDataRepository.select_by_target, ret. cbn [fst].
  apply scan_rows_total.
Qed.

(** X16. What [AddReconData] of the pipeline writes, as
    [GetByTargetID] of the repository reads it, when no other invocation is
    at work: the call succeeds, and the observations then listed for the
    target are those listed before and one more, which has the next key,
    the target, the tool, the data and the context as given (the context
    valid); the listing of every other target is as before.  This holds
    whatever the texts are under which the times are stored, and so in
    whatever order the listing comes. *)
Theorem X16_observation_listed
  (stored : ReconRow -> string)
  (tid : Z) (tool data context : string) (w : World) :
  calm w ->
  let w' := snd (AddReconData tid tool data context w) in
  exists before after timestamp,
    fst (AddReconData tid tool data context w) = None /\
    fst (ReconDataRepository.GetByTargetID stored tid w) = inr before /\
    fst (ReconDataRepository.GetByTargetID stored tid w') = inr after /\
    Permutation after
      (ReconDataRepository.mkReconData (seq_recon_data (db w) + 1) tid tool
         data (Sql.mkNullString context true) timestamp :: before) /\
    forall other, other <> tid ->
      fst (ReconDataRepository.GetByTargetID stored other w')
      = fst (ReconDataRepository.GetByTargetID stored other w).
Proof.
  intros C w'. subst w'.
  unfold AddReconData, bind.
  destruct (time_Now_calm w C) as (C2 & D2 & O2).
  unfold time_Now in *. cbn [fst snd] in *.
  unfold exec, bind.
  destruct (arrive_calm _ C2) as (w3 & -> & C3 & D3 & O3).
  unfold insert_recon_data. cbn [fst snd ret]. rewrite D3, D2.
  assert (CW : forall d, calm (set_db d w3)) by (intros d; exact C3).
  eexists _, _, (clock w). split; [reflexivity|].
  split; [apply recon_GetByTargetID_calm, C|].
  split; [apply recon_GetByTargetID_calm, CW|].
  split.
  - simpl. rewrite filter_app. simpl. rewrite Z.eqb_refl.
    rewrite order_by_perm.
    change (ReconDataRepository.mkReconData (seq_recon_data (db w) + 1) tid
              tool data (Sql.mkNullString context true) (clock w))
      with (ReconDataRepository.scan
              (mkReconRow (seq_recon_data (db w) + 1) tid tool data
                 (Some context) (clock w))).
    rewrite <- map_cons. apply Permutation_map.
    rewrite Permutation_app_comm. simpl. constructor.
    symmetry. apply order_by_perm.
  - intros other N.
    rewrite recon_GetByTargetID_calm by apply CW.
    rewrite recon_GetByTargetID_calm by exact C.
    simpl. rewrite filter_app. simpl.
    destruct (Z.eqb_spec tid other); [congruence|].
    now rewrite app_nil_r.
Qed.

Lemma X16_observation_listed_witness :
  let w := fresh_world [] [] in
  let stored (r : ReconRow) := "2024-05-01 10:00:00+02:00" in
  calm w /\
  exists after timestamp,
    fst (ReconDataRepository.GetByTargetID stored 3
           (snd (AddReconData 3 "httpx" "https://a.test" "seen" w)))
    = inr after /\
    Permutation after
      [ReconDataRepository.mkReconData 1 3 "httpx" "https://a.test"
         (Sql.mkNullString "seen" true) timestamp].
Proof.
  intros w stored.
  assert (C : calm w) by constructor.
  split; [exact C|].
  destruct (X16_observation_listed stored 3 "httpx" "https://a.test" "seen"
              w C)
    as (before & after & ts & _ & B & A & P & _).
  exists after, ts. split; [exact A|].
  assert (E : before = []) by (vm_compute in B; congruence).
  rewrite E in P. exact P.
Defined.

(** ** Creating the database *)

Section Schema.

Lemma create_fresh stmt objects :
  ~ In stmt objects ->
  Bootstrap.create_if_not_exists stmt objects = (objects ++ [stmt])%list.
Proof.
  intros N. unfold Bootstrap.create_if_not_exists.
  destruct (existsb (String.eqb stmt) objects) eqn:E; [|reflexivity].
  apply existsb_exists in E as (x & I & E).
  apply String.eqb_eq in E. subst x. contradiction.
Qed.

(** The loop of [InitSchema] on a file that has none of the statements'
    objects: it stops at the first statement that fails, having created
    the objects of those before it. *)
Lemma run_statements_prefix fails pieces objects :
  let statements :=
    filter (fun stmt => negb (String.eqb stmt ""))
           (map Space.TrimSpace pieces) in
  NoDup (objects ++ statements) ->
  match Bootstrap.run_statements fails pieces objects with
  | (None, objects') =>
      objects' = (objects ++ statements)%list /\
      Forall (fun s => fails (Bootstrap.Exec s) = false) statements
  | (Some stmt, objects') =>
      exists done rest,
        statements = (done ++ stmt :: rest)%list /\
        objects' = (objects ++ done)%list /\
        fails (Bootstrap.Exec stmt) = true /\
        Forall (fun s => fails (Bootstrap.Exec s) = false) done
  end.
Proof.
  revert objects.
  induction pieces as [|piece rest IH]; intros objects; cbn zeta.
  - simpl. rewrite app_nil_r. auto.
  - cbn [Bootstrap.run_statements map filter].
    destruct (String.eqb (Space.TrimSpace piece) "") eqn:B; cbn [negb].
    + apply IH.
    + intros ND.
      destruct (fails (Bootstrap.Exec (Space.TrimSpace piece))) eqn:X.
      * exists [], (filter (fun stmt => negb (String.eqb stmt ""))
                      (map Space.TrimSpace rest)).
        rewrite app_nil_r. auto.
      * rewrite create_fresh.
        2:{ apply NoDup_remove_2 in ND. intros I. apply ND.
            apply in_or_app. now left. }
        specialize (IH (objects ++ [Space.TrimSpace piece])%list).
        cbn zeta in IH. rewrite <- app_assoc in IH. specialize (IH ND).
        destruct (Bootstrap.run_statements fails rest
                    (objects ++ [Space.TrimSpace piece])) as [[stmt|] objs].
        -- destruct IH as (done & rest' & E & O & F & A).
           exists (Space.TrimSpace piece :: done), rest'.
           rewrite E, O, <- app_assoc. auto.
        -- destruct IH as (O & A). rewrite O. simpl. auto.
Qed.

Lemma schema_statements_distinct : NoDup schema_statements.
Proof.
  vm_compute.
  repeat (constructor; [simpl; intuition discriminate|]). constructor.
Qed.

End Schema.

Lemma schema_statements_eq :
  schema_statements
  = filter (fun stmt => negb (String.eqb stmt ""))
      (map Space.TrimSpace (GoStrings.Split Bootstrap.schema ";")).
Proof. reflexivity. Qed.

Lemma InitSchema_eq fails objects :
  Bootstrap.InitSchema fails objects
  = Bootstrap.run_statements fails (GoStrings.Split Bootstrap.schema ";")
      objects.
Proof. reflexivity. Qed.

(** [InitSchema] on an empty file stops at the first statement that fails,
    with the statements before it executed. *)
Lemma InitSchema_prefix fails :
  match Bootstrap.InitSchema fails [] with
  | (None, objects) => objects = schema_statements
  | (Some stmt, objects) =>
      exists rest, schema_statements = (objects ++ stmt :: rest)%list
  end.
Proof.
  pose proof schema_statements_distinct as ND.
  rewrite InitSchema_eq. rewrite schema_statements_eq in *.
  generalize dependent (GoStrings.Split Bootstrap.schema ";").
  intros pieces ND.
  pose proof (run_statements_prefix fails pieces [] ND) as R.
  cbn zeta in R.
  destruct (Bootstrap.run_statements fails pieces []) as [[stmt|] objs].
  - destruct R as (done & rest & E & -> & _). exists rest. exact E.
  - destruct R as (-> & _). reflexivity.
Qed.

Lemma EnsureDBExists_existing later dbPath objects :
  later Bootstrap.MkdirAll = false ->
  later Bootstrap.Stat = false ->
  Bootstrap.EnsureDBExists later dbPath (Some objects)
  = (None, Some objects, []).
Proof.
  intros M S. unfold Bootstrap.EnsureDBExists.
  rewrite M. cbn [Bootstrap.stat_ok]. now rewrite S.
Qed.

(** X17. [EnsureDBExists] where there is no database file, whichever calls
    fail.  Without an error the file holds the whole schema, every
    statement of the text executed once and in order, and the three lines
    are printed.  If the directory or the file cannot be created there is
    still no file.  After any other error (opening, ping, or a statement of
    the schema) the file is there with only the statements before the
    failure executed, so part of the schema is missing; and every later
    call that can reach the file returns no error, prints nothing and
    leaves the file as it is: the schema is never completed. *)
Theorem X17_interrupted_schema_is_never_completed
  (fails : Bootstrap.Step -> bool) (dbPath : string) :
  match Bootstrap.EnsureDBExists fails dbPath None with
  | (None, file, out) =>
      file = Some schema_statements /\
      out = [MsgDbNotFound dbPath; MsgInitSchema; MsgDbCreated]
  | (Some Bootstrap.FailedDirectory, file, _)
  | (Some Bootstrap.FailedCreateFile, file, _) => file = None
  | (Some _, file, _) =>
      exists objects missing,
        file = Some objects /\ missing <> [] /\
        schema_statements = (objects ++ missing)%list /\
        forall later,
          later Bootstrap.MkdirAll = false ->
          later Bootstrap.Stat = false ->
          Bootstrap.EnsureDBExists later dbPath file = (None, file, [])
  end.
Proof.
  assert (N : schema_statements <> []) by (vm_compute; discriminate).
  unfold Bootstrap.EnsureDBExists at 1.
  destruct (fails Bootstrap.MkdirAll); [reflexivity|].
  cbn [Bootstrap.stat_ok].
  destruct (fails Bootstrap.Create); [reflexivity|].
  destruct (fails Bootstrap.Open).
  { exists [], schema_statements.
    split; [reflexivity|]. split; [exact N|].
    split; [symmetry; apply app_nil_l|].
    intros later. apply EnsureDBExists_existing. }
  destruct (fails Bootstrap.Ping).
  { exists [], schema_statements.
    split; [reflexivity|]. split; [exact N|].
    split; [symmetry; apply app_nil_l|].
    intros later. apply EnsureDBExists_existing. }
  pose proof (InitSchema_prefix fails) as R.
  destruct (Bootstrap.InitSchema fails []) as [[stmt|] objs].
  - destruct R as (rest & E).
    exists objs, (stmt :: rest).
    split; [reflexivity|]. split; [discriminate|].
    split; [exact E|]. intros later. apply EnsureDBExists_existing.
  - rewrite R. split; reflexivity.
Qed.

Lemma X17_interrupted_schema_is_never_completed_witness :
  let fails step :=
    match step with
    | Bootstrap.Exec stmt => GoStrings.HasPrefix stmt "CREATE INDEX"
    | _ => false
    end in
  let later (step : Bootstrap.Step) := false in
  let dbPath := "/home/user/bugbounty/db/bounty.db" in
  let tables := firstn 4 schema_statements in
  Bootstrap.EnsureDBExists fails dbPath None
  = (Some (Bootstrap.FailedSchema (nth 4 schema_statements "")),
     Some tables, [MsgDbNotFound dbPath; MsgInitSchema]) /\
  Bootstrap.EnsureDBExists later dbPath (Some tables)
  = (None, Some tables, []).
Proof.
  intros fails later dbPath tables.
  assert (E : Bootstrap.EnsureDBExists fails dbPath None
              = (Some (Bootstrap.FailedSchema (nth 4 schema_statements "")),
                 Some tables, [MsgDbNotFound dbPath; MsgInitSchema]))
    by (vm_compute; reflexivity).
  split; [exact E|].
  pose proof (X17_interrupted_schema_is_never_completed fails dbPath) as H.
  rewrite E in H. cbv beta iota in H.
  destruct H as (objects & missing & F & _ & _ & L).
  apply L; reflexivity.
Defined.

(** ** The detection of the tool in ferri.go *)

Section Detection.

Variable order : nat -> list (string * list string).
Hypothesis order_ok : map_order order.

Lemma range_patterns_some entries s tool :
  Ferri.range_patterns entries s = Some tool ->
  exists pattern,
    In (tool, pattern) entries /\ Ferri.MatchString pattern s = true.
Proof.
  induction entries as [|[t pat] rest IH]; simpl; [discriminate|].
  destruct (Ferri.MatchString pat s) eqn:M.
  - intros [= <-]. exists pat. auto.
  - intros H. destruct (IH H) as (pattern & I & M'). exists pattern. auto.
Qed.

Lemma range_patterns_none entries s :
  Ferri.range_patterns entries s = None ->
  existsb (fun entry => Ferri.MatchString (snd entry) s) entries = false.
Proof.
  induction entries as [|[t pat] rest IH]; simpl; [reflexivity|].
  destruct (Ferri.MatchString pat s); [discriminate | exact IH].
Qed.

Lemma existsb_perm {A} (f : A -> bool) (l l' : list A) :
  Permutation l l' -> existsb f l = existsb f l'.
Proof.
  induction 1; simpl; try congruence.
  destruct (f x), (f y); reflexivity.
Qed.

Lemma range_some n s tool :
  Ferri.range_patterns (order n) s = Some tool ->
  names_a_tool s = true /\
  exists pattern,
    In (tool, pattern) Ferri.toolPatterns /\
    Ferri.MatchString pattern s = true.
Proof.
  intros H. destruct (range_patterns_some _ _ _ H) as (pattern & I & M).
  apply (Permutation_in _ (order_ok n)) in I. split.
  - apply existsb_exists. exists (tool, pattern). auto.
  - exists pattern. auto.
Qed.

Lemma range_none n s :
  Ferri.range_patterns (order n) s = None -> names_a_tool s = false.
Proof.
  intros H. apply range_patterns_none in H.
  unfold names_a_tool. now rewrite <- (existsb_perm _ _ _ (order_ok n)).
Qed.

Lemma decided_cons_some s texts tool :
  Ferri.range_patterns (order 0%nat) s = Some tool \/
  (exists n, Ferri.range_patterns (order n) s = Some tool) ->
  decided_by (s :: texts) tool.
Proof.
  intros [H|(n & H)]; apply range_some in H as (N & P);
    unfold decided_by; simpl; now rewrite N.
Qed.

Lemma decided_cons_none n s texts tool :
  Ferri.range_patterns (order n) s = None ->
  decided_by texts tool -> decided_by (s :: texts) tool.
Proof.
  intros H D. unfold decided_by. simpl. now rewrite (range_none _ _ H).
Qed.

Lemma from_hostname_decided n hostname :
  decided_by (match hostname with Some h => [h] | None => [] end)
             (Ferri.from_hostname (order n) hostname).
Proof.
  unfold Ferri.from_hostname. destruct hostname as [h|]; [|reflexivity].
  destruct (Ferri.range_patterns (order n) h) as [tool|] eqn:H.
  - apply decided_cons_some. right. now exists n.
  - eapply decided_cons_none; [exact H | reflexivity].
Qed.

Lemma from_args_decided n args hostname :
  decided_by (args ++ match hostname with Some h => [h] | None => [] end)
             (Ferri.from_args order n args hostname).
Proof.
  revert n. induction args as [|arg rest IH]; intros n.
  - apply from_hostname_decided.
  - unfold Ferri.from_args. cbn [Ferri.range_args app].
    destruct (Ferri.range_patterns (order n) arg) as [tool|] eqn:H.
    + apply decided_cons_some. right. now exists n.
    + eapply decided_cons_none; [exact H | apply IH].
Qed.

Lemma detectTool_decided p :
  decided_by (consulted p) (Ferri.detectTool order p).
Proof.
  unfold Ferri.detectTool, consulted.
  destruct (Ferri.ppid p >? 0); [|apply from_args_decided].
  destruct (Ferri.cmdline p) as [c|]; [|apply from_args_decided].
  cbn [app].
  destruct (Ferri.range_patterns (order 0%nat) c) as [tool|] eqn:H.
  - apply decided_cons_some. now left.
  - eapply decided_cons_none; [exact H | apply from_args_decided].
Qed.

End Detection.

(** X18. [detectTool] of ferri.go, for whatever order each [range] over
    the map of patterns takes.  The answer is decided by the first text,
    among the parent's command line (when it can be read), the arguments in
    order and the host name (when it is known), that some pattern matches:
    it is a tool whose pattern matches that text, and it is
    ["pipeline_auto"] when no pattern matches any of the texts.  Which of
    several tools matching that text is answered is up to the order of the
    map; when only one does, the answer is the same for every order. *)
Theorem X18_detectTool_first_matching_text
  (order : nat -> list (string * list string)) (p : Ferri.Process) :
  map_order order ->
  match find names_a_tool (consulted p) with
  | None => Ferri.detectTool order p = "pipeline_auto"
  | Some s =>
      (exists pattern,
         In (Ferri.detectTool order p, pattern) Ferri.toolPatterns /\
         Ferri.MatchString pattern s = true) /\
      forall order',
        map_order order' ->
        (forall tool tool' pattern pattern',
           In (tool, pattern) Ferri.toolPatterns ->
           In (tool', pattern') Ferri.toolPatterns ->
           Ferri.MatchString pattern s = true ->
           Ferri.MatchString pattern' s = true -> tool = tool') ->
        Ferri.detectTool order' p = Ferri.detectTool order p
  end.
Proof.
  intros OK.
  pose proof (detectTool_decided order OK p) as G0.
  unfold decided_by in G0.
  destruct (find names_a_tool (consulted p)) as [s|] eqn:F; [|exact G0].
  split; [exact G0|].
  intros order' OK' U.
  pose proof (detectTool_decided order' OK' p) as G.
  unfold decided_by in G. rewrite F in G.
  destruct G0 as (pat & I & M). destruct G as (pat' & I' & M').
  exact (U _ _ _ _ I' I M' M).
Qed.

Lemma X18_detectTool_first_matching_text_witness :
  let p := Ferri.mkProcess 4242 (Some "bash") ["./ferri"]
             (Some "fuzz-archive") in
  let forwards (n : nat) := Ferri.toolPatterns in
  let backwards (n : nat) := rev Ferri.toolPatterns in
  map_order forwards /\
  find names_a_tool (consulted p) = Some "fuzz-archive" /\
  Ferri.detectTool forwards p = "waybackurls" /\
  Ferri.detectTool backwards p = "ffuf" /\
  exists pattern,
    In (Ferri.detectTool forwards p, pattern) Ferri.toolPatterns /\
    Ferri.MatchString pattern "fuzz-archive" = true.
Proof.
  intros p forwards backwards.
  assert (OK : map_order forwards) by (intros n; reflexivity).
  split; [exact OK|].
  split; [vm_compute; reflexivity|].
  split; [vm_compute; reflexivity|].
  split; [vm_compute; reflexivity|].
  pose proof (X18_detectTool_first_matching_text forwards p OK) as H.
  destruct (find names_a_tool (consulted p)) as [s|] eqn:F;
    [|vm_compute in F; discriminate].
  vm_compute in F. injection F as <-.
  exact (proj1 H).
Defined.

(** ** Reading, changing and writing back a target *)

Lemma scan_string_stored v :
  Sql.scan_string (Sql.string_value (Sql.scan_string v)) = Sql.scan_string v.
Proof. destruct v; reflexivity. Qed.

Lemma scan_time_stored v :
  Sql.scan_time (Sql.time_value (Sql.scan_time v)) = Sql.scan_time v.
Proof. destruct v; reflexivity. Qed.

Lemma NoDup_map_same {A B} (f : A -> B) (l : list A) a b :
  NoDup (map f l) -> In a l -> In b l -> f a = f b -> a = b.
Proof.
  induction l as [|x l IH]; simpl; [tauto|].
  intros ND Ia Ib E. apply NoDup_cons_iff in ND as (N & ND).
  destruct Ia as [<-|Ia], Ib as [<-|Ib]; auto.
  - exfalso. apply N. rewrite E. now apply in_map.
  - exfalso. apply N. rewrite <- E. now apply in_map.
Qed.

Lemma Forall2_In_l {A B} (R : A -> B -> Prop) (l : list A) (l' : list B) a :
  Forall2 R l l' -> In a l -> exists b, In b l' /\ R a b.
Proof.
  induction 1 as [|x y l l' Rxy F IH]; simpl; [tauto|].
  intros [<-|I].
  - exists y. auto.
  - destruct (IH I) as (b & Ib & Rab). exists b. auto.
Qed.

Lemma key_held_once d old :
  unique_targets d ->
  In old (targets d) ->
  existsb (fun r => target_keyed (t_target old) (t_program_id old) r
                    && negb (TargetRepository.with_id (t_id old) r))
          (targets d) = false.
Proof.
  intros U I.
  destruct (existsb _ (targets d)) eqn:X; [|reflexivity].
  apply existsb_exists in X as (r & Ir & H).
  apply andb_prop in H as (K & N).
  unfold target_keyed in K. apply andb_prop in K as (Kt & Kp).
  apply String.eqb_eq in Kt. apply Z.eqb_eq in Kp.
  assert (E : r = old).
  { apply (NoDup_map_same (fun r => (t_program_id r, t_target r))
             (targets d)); auto. simpl. congruence. }
  subst r. unfold TargetRepository.with_id in N.
  rewrite Z.eqb_refl in N. discriminate.
Qed.

(** X19. Reading a target with [GetByID], setting [Alive] and writing it
    back with [Update], when no other invocation is at work and the store
    respects [UNIQUE(program_id, target)]: the update is accepted; [GetByID]
    then reads the same struct with [Alive] set and every other field,
    the creation time included, as it was read; every other target reads as
    before; and [ListAlive], unless a target it lists has no type, lists
    the target. *)
Theorem X19_target_marked_alive
  (id : Z) (t : TargetRepository.Target) (w : World) :
  calm w ->
  unique_targets (db w) ->
  fst (TargetRepository.GetByID id w) = inr t ->
  let w' := snd (TargetRepository.Update (mark_alive t) w) in
  fst (TargetRepository.Update (mark_alive t) w) = None /\
  fst (TargetRepository.GetByID id w') = inr (mark_alive t) /\
  (forall other, other <> id ->
     fst (TargetRepository.GetByID other w')
     = fst (TargetRepository.GetByID other w)) /\
  programs (db w') = programs (db w) /\
  recon_data (db w') = recon_data (db w) /\
  match fst (TargetRepository.ListAlive w') with
  | inr ts => In (mark_alive t) ts
  | inl e => e = Sql.NullInto "type"
  end.
Proof.
  intros C U G w'. subst w'.
  rewrite target_GetByID_calm in G by exact C.
  destruct (find (TargetRepository.with_id id) (targets (db w)))
    as [old|] eqn:F; [|discriminate].
  destruct (find_some _ _ F) as (I & Wi).
  unfold TargetRepository.with_id in Wi. apply Z.eqb_eq in Wi. subst id.
  unfold TargetRepository.scan in G.
  destruct (t_type old) as [type|] eqn:Ty; [|discriminate].
  injection G as <-.
  unfold TargetRepository.Update.
  match goal with
  | |- context [Sql.run ?stmt w] =>
      destruct (run_calm stmt w C) as (w1 & C1 & D1 & O1 & ->)
  end.
  unfold TargetRepository.update, mark_alive.
  cbn [TargetRepository.ID TargetRepository.ProgramID
       TargetRepository.Target_ TargetRepository.Type_
       TargetRepository.Source TargetRepository.Alive
       TargetRepository.LastChecked TargetRepository.Tested
       TargetRepository.TestedDate TargetRepository.TestNotes
       TargetRepository.Notes TargetRepository.CreatedAt].
  rewrite (key_held_once _ _ U I), andb_false_r. cbn [fst snd].
  assert (CW : forall d, calm (set_db d w1)) by (intros d; exact C1).
  set (g := fun r : TargetRow =>
              if TargetRepository.with_id (t_id old) r
              then mkTargetRow (t_id r) (t_program_id old) (t_target old)
                     (Some type)
                     (Sql.string_value (Sql.scan_string (t_source old)))
                     true
                     (Sql.time_value (Sql.scan_time (t_last_checked old)))
                     (t_tested old)
                     (Sql.time_value (Sql.scan_time (t_tested_date old)))
                     (Sql.string_value (Sql.scan_string (t_test_notes old)))
                     (Sql.string_value (Sql.scan_string (t_notes old)))
                     (t_created_at r)
              else r).
  assert (Gid : forall i r,
            TargetRepository.with_id i (g r) = TargetRepository.with_id i r).
  { intros i r. unfold g, TargetRepository.with_id.
    destruct (t_id r =? t_id old); reflexivity. }
  assert (S : TargetRepository.scan (g old)
              = inr (TargetRepository.mkTarget (t_id old) (t_program_id old)
                       (t_target old) type (Sql.scan_string (t_source old))
                       true (Sql.scan_time (t_last_checked old))
                       (t_tested old) (Sql.scan_time (t_tested_date old))
                       (Sql.scan_string (t_test_notes old))
                       (Sql.scan_string (t_notes old)) (t_created_at old))).
  { unfold g, TargetRepository.with_id. rewrite Z.eqb_refl.
    unfold TargetRepository.scan. simpl.
    now rewrite !scan_string_stored, !scan_time_stored. }
  split; [reflexivity|]. split; [|split; [|split; [|split]]].
  - rewrite target_GetByID_calm by apply CW. simpl.
    rewrite (find_map_same _ g _ (Gid (t_id old))), F. simpl. exact S.
  - intros other N.
    rewrite target_GetByID_calm by apply CW.
    rewrite target_GetByID_calm by exact C. simpl.
    rewrite (find_map_same _ g _ (Gid other)).
    destruct (find (TargetRepository.with_id other) (targets (db w)))
      as [r|] eqn:F'; [|reflexivity]. simpl.
    destruct (find_some _ _ F') as (_ & Wo).
    unfold TargetRepository.with_id in Wo. apply Z.eqb_eq in Wo.
    unfold g, TargetRepository.with_id.
    destruct (Z.eqb_spec (t_id r) (t_id old)); [congruence | reflexivity].
  - reflexivity.
  - reflexivity.
  - rewrite target_ListAlive_calm by apply CW. simpl.
    pose proof (scan_rows_targets
                  (Sql.order_by TargetRepository.by_target
                     (filter t_alive (map g (targets (db w)))))) as R.
    destruct (Sql.scan_rows TargetRepository.scan _) as [e|ts];
      [exact (proj1 R)|].
    assert (Ig : In (g old)
                   (Sql.order_by TargetRepository.by_target
                      (filter t_alive (map g (targets (db w)))))).
    { apply (Permutation_in _
               (Permutation_sym (order_by_perm _ _))).
      apply filter_In. split; [now apply in_map|].
      unfold g, TargetRepository.with_id. now rewrite Z.eqb_refl. }
    destruct (Forall2_In_l _ _ _ _ R Ig) as (t'' & It & St).
    rewrite S in St. injection St as <-. exact It.
Qed.

Lemma X19_target_marked_alive_witness :
  let w := snd (main (fresh_world ["b.example.com"; "a.example.com"] [])) in
  exists t,
    calm w /\ unique_targets (db w) /\
    fst (TargetRepository.GetByID 2 w) = inr t /\
    TargetRepository.Target_ t = "a.example.com" /\
    fst (TargetRepository.ListAlive w) = inr [] /\
    fst (TargetRepository.ListAlive
           (snd (TargetRepository.Update (mark_alive t) w)))
    = inr [mark_alive t].
Proof.
  intros w.
  destruct (fst (TargetRepository.GetByID 2 w)) as [e|t] eqn:G;
    [vm_compute in G; discriminate|].
  exists t.
  assert (C : calm w) by (unfold calm; vm_compute; constructor).
  assert (U : unique_targets (db w)).
  { unfold unique_targets. vm_compute.
    repeat (constructor; [simpl; intuition discriminate|]). constructor. }
  split; [exact C|]. split; [exact U|]. split; [reflexivity|].
  assert (T : t = TargetRepository.mkTarget 2 1 "a.example.com" "subdomain"
                    (Sql.mkNullString "pipeline_auto" true) false
                    (Sql.mkNullTime 8 true) false (Sql.mkNullTime 0 false)
                    (Sql.mkNullString "" false) (Sql.mkNullString "" false)
                    10).
  { vm_compute in G. injection G as <-. reflexivity. }
  split; [rewrite T; reflexivity|].
  split; [vm_compute; reflexivity|].
  destruct (X19_target_marked_alive 2 t w C U G) as (_ & _ & _ & _ & _ & L).
  rewrite T in *. vm_compute. reflexivity.
Defined.

(** ** What an undisturbed run writes *)

Section Attribution.

Variable tool : string.

Lemma attributed_refl d : attributed tool d d.
Proof. exists [], []. rewrite !app_nil_r. repeat split; constructor. Qed.

Lemma attributed_trans a b c :
  attributed tool a b -> attributed tool b c -> attributed tool a c.
Proof.
  intros (t1 & o1 & T1 & O1 & F1 & G1) (t2 & o2 & T2 & O2 & F2 & G2).
  exists (t1 ++ t2)%list, (o1 ++ o2)%list.
  rewrite T2, T1, O2, O1, <- !app_assoc.
  repeat split; apply Forall_app; auto.
Qed.

Lemma steady_refl w : while_undisturbed (attributed tool) w w.
Proof. intros U. split; [exact U | apply attributed_refl]. Qed.

Lemma steady_trans a b c :
  while_undisturbed (attributed tool) a b ->
  while_undisturbed (attributed tool) b c ->
  while_undisturbed (attributed tool) a c.
Proof.
  intros H1 H2 U. destruct (H1 U) as (U1 & P1). destruct (H2 U1) as (U2 & P2).
  split; [exact U2 | eapply attributed_trans; eassumption].
Qed.

Lemma steady_same w w' :
  db w' = db w -> pending w' = pending w ->
  while_undisturbed (attributed tool) w w'.
Proof.
  intros D P U. split.
  - unfold undisturbed. rewrite P. exact U.
  - rewrite D. apply attributed_refl.
Qed.

Lemma arrive_steady : keeps (while_undisturbed (attributed tool)) arrive.
Proof.
  intros w U. destruct (arrive_undisturbed w U) as (U1 & D1 & _).
  split; [exact U1|]. rewrite D1. apply attributed_refl.
Qed.

Lemma query_steady {A} (stmt : DB -> SqlError + A) :
  keeps (while_undisturbed (attributed tool)) (query stmt).
Proof.
  unfold query. apply (keeps_bind _ steady_trans).
  - apply arrive_steady.
  - intros [|]; [|apply (keeps_ret _ steady_refl)].
    intros w. apply steady_refl.
Qed.

Lemma exec_steady stmt :
  (forall tm d id d', stmt tm d = inr (id, d') -> attributed tool d d') ->
  keeps (while_undisturbed (attributed tool)) (exec stmt).
Proof.
  intros H.
  apply (exec_keeps (while_undisturbed (attributed tool)) (attributed tool));
    [ apply steady_refl | apply steady_trans | apply arrive_steady
    | exact H | ].
  intros w d' X U. split; [exact U | exact X].
Qed.

Lemma print_steady m : keeps (while_undisturbed (attributed tool)) (print m).
Proof. intros w. apply steady_same; reflexivity. Qed.

Lemma time_Now_steady : keeps (while_undisturbed (attributed tool)) time_Now.
Proof. intros w. apply steady_same; reflexivity. Qed.

Lemma GetOrCreateTarget_steady target pid :
  keeps (while_undisturbed (attributed tool))
        (GetOrCreateTarget target tool pid).
Proof.
  unfold GetOrCreateTarget. keeps_steps steady_refl steady_trans;
    try apply query_steady; try apply time_Now_steady.
  apply exec_steady. intros tm d id d'.
  unfold insert_target. destruct (existsb _ _); [discriminate|].
  intros [= <- <-]. eexists [_], []. simpl. rewrite app_nil_r.
  repeat split; repeat constructor.
Qed.

Lemma GetOrCreateProgram_steady domain :
  keeps (while_undisturbed (attributed tool)) (GetOrCreateProgram domain).
Proof.
  unfold GetOrCreateProgram. keeps_steps steady_refl steady_trans;
    try apply query_steady; try apply print_steady.
  apply exec_steady. intros tm d id d'.
  unfold insert_program. destruct (existsb _ _); [discriminate|].
  intros [= <- <-]. exists [], []. simpl. rewrite !app_nil_r.
  repeat split; constructor.
Qed.

Lemma AddReconData_steady tid data :
  keeps (while_undisturbed (attributed tool))
        (AddReconData tid tool data ("Discovered via " ++ tool)).
Proof.
  unfold AddReconData. keeps_steps steady_refl steady_trans;
    try apply time_Now_steady.
  apply exec_steady. intros tm d id d'.
  unfold insert_recon_data. intros [= <- <-].
  eexists [], [_]. cbn [targets recon_data]. rewrite app_nil_r.
  repeat split; repeat constructor.
Qed.

Lemma process_targets_steady targets pid count :
  keeps (while_undisturbed (attributed tool)) (process_targets targets tool pid count).
Proof.
  revert count; induction targets as [|target rest IH]; intros count;
    cbn [process_targets];
    keeps_steps steady_refl steady_trans;
    auto using GetOrCreateTarget_steady, AddReconData_steady, print_steady.
Qed.

Lemma ingest_steady targets first :
  keeps (while_undisturbed (attributed tool)) (ingest targets first tool).
Proof.
  unfold ingest. keeps_steps steady_refl steady_trans;
    auto using GetOrCreateProgram_steady, process_targets_steady,
      print_steady.
Qed.

End Attribution.

Lemma main_steady :
  keeps (while_undisturbed (attributed DetectTool)) main.
Proof.
  intros w0. unfold main.
  generalize (db_path w0). intros dbPath. revert w0.
  change (keeps (while_undisturbed (attributed DetectTool))
    (piped <- HasStdinData ;;
     if negb piped then
       print MsgNoInput ;; print (MsgEnsuring dbPath) ;;
       e <- EnsureDBExists ;;
       match e with
       | Some err => print (LogFatal err) ;; ret 1
       | None => print MsgDbReady ;; print MsgUsageEcho ;;
                 print MsgUsageSubfinder ;; ret 0
       end
     else
       print (MsgTool DetectTool) ;; print (MsgDatabase dbPath) ;;
       e <- EnsureDBExists ;;
       match e with
       | Some err => print (LogFatal err) ;; ret 1
       | None =>
           e' <- InitDB ;;
           match e' with
           | Some err => print (LogFatal err) ;; ret 1
           | None =>
               print MsgReading ;;
               tf <- read_stdin ;;
               let (targets, firstTarget) := tf in
               if (Z.of_nat (List.length targets) =? 0) then
                 print MsgNoValidTargets ;; ret 1
               else ingest targets firstTarget DetectTool
           end
       end)).
  keeps_steps (steady_refl DetectTool) (steady_trans DetectTool);
    auto using print_steady, ingest_steady.
  - intros w. apply steady_refl.
  - intros w.
    destruct (EnsureDBExists_frame w) as (D & _ & P & _).
    now apply steady_same.
  - intros w.
    destruct (EnsureDBExists_frame w) as (D & _ & P & _).
    now apply steady_same.
  - intros w. unfold InitDB. destruct (open_fault w); apply steady_refl.
  - intros w. apply steady_same; reflexivity.
Qed.

(** X20. What a run records about where its rows come from.  When no
    other invocation is at work, whichever statements fail, a run of
    [main] only appends to the targets and to the observations; every
    target it adds has ["pipeline_auto"] as its source, the class of its
    own string as its type, and is neither alive nor tested; every
    observation it adds has the tool ["pipeline_auto"] and the context
    ["Discovered via pipeline_auto"].  The tool that produced the input is
    never recorded. *)
Theorem X20_rows_attributed_to_pipeline_auto (w : World) :
  undisturbed w ->
  exists new_targets new_observations,
    targets (db (snd (main w))) = (targets (db w) ++ new_targets)%list /\
    recon_data (db (snd (main w)))
    = (recon_data (db w) ++ new_observations)%list /\
    Forall (fun r => t_source r = Some "pipeline_auto" /\
                     t_type r = Some (ClassifyTarget (t_target r)) /\
                     t_alive r = false /\ t_tested r = false) new_targets /\
    Forall (fun r => r_tool r = "pipeline_auto" /\
                     r_context r = Some "Discovered via pipeline_auto")
           new_observations.
Proof.
  intros U. destruct (main_steady w U) as (_ & P). exact P.
Qed.

Lemma X20_rows_attributed_to_pipeline_auto_witness :
  let w := fresh_world ["example.com"; "10.0.0.1:8080"; "x.example.com"]
             [Quiet; Quiet; IOFailure; Quiet; Quiet; Quiet; Quiet] in
  undisturbed w /\
  List.length (targets (db (snd (main w)))) = 2%nat /\
  exists new_targets new_observations,
    targets (db (snd (main w))) = (targets (db w) ++ new_targets)%list /\
    recon_data (db (snd (main w)))
    = (recon_data (db w) ++ new_observations)%list /\
    Forall (fun r => t_source r = Some "pipeline_auto" /\
                     t_type r = Some (ClassifyTarget (t_target r)) /\
                     t_alive r = false /\ t_tested r = false) new_targets /\
    Forall (fun r => r_tool r = "pipeline_auto" /\
                     r_context r = Some "Discovered via pipeline_auto")
           new_observations.
Proof.
  intros w.
  assert (U : undisturbed w).
  { unfold undisturbed, w, fresh_world. cbn [pending].
    repeat (constructor; [auto|]). constructor. }
  split; [exact U|]. split; [vm_compute; reflexivity|].
  exact (X20_rows_attributed_to_pipeline_auto w U).
Defined.

(** ** The repository and the pipeline on the same target *)

Lemma GetOrCreateTarget_fresh target tool pid w :
  calm w ->
  find (target_keyed target pid) (targets (db w)) = None ->
  fst (GetOrCreateTarget target tool pid w) = inr (seq_targets (db w) + 1).
Proof.
  intros C F. unfold GetOrCreateTarget, query, bind.
  destruct (arrive_calm w C) as (w1 & -> & C1 & D1 & O1).
  unfold select_target_id. rewrite D1, F.
  destruct (time_Now_calm w1 C1) as (C2 & D2 & O2).
  unfold time_Now in *. cbn [fst snd] in *.
  unfold exec, bind.
  destruct (arrive_calm _ C2) as (w3 & -> & C3 & D3 & O3).
  unfold insert_target. rewrite D3, D2, D1.
  rewrite (proj1 (find_none_existsb _ _) F). reflexivity.
Qed.

Lemma find_filter_none {R} (f g : R -> bool) (l : list R) :
  find f l = None -> find f (filter g l) = None.
Proof.
  induction l as [|r l IH]; simpl; [reflexivity|].
  destruct (f r) eqn:Fr; [discriminate|]. intros F.
  destruct (g r); simpl; [rewrite Fr|]; now apply IH.
Qed.

(** X21. A target created through [Create] of [TargetRepository] and the
    pipeline, when no other invocation is at work.  For a pair of program
    and string that no target has, [Create] stores the target under the
    next key and gives the struct that key.  [GetOrCreateTarget] for the
    same program and string then returns that key and writes nothing,
    whatever tool it is called for: the target is not duplicated and keeps
    what its creator recorded.  A second [Create] of the struct is refused
    by the constraint and leaves the struct as it is.  After [Delete] of
    the key, [GetByID] finds no row, and [GetOrCreateTarget] creates the
    target again under a new key, not the old one. *)
Theorem X21_repository_target_and_pipeline
  (t : TargetRepository.Target) (tool : string) (w : World) :
  calm w ->
  find (target_keyed (TargetRepository.Target_ t)
          (TargetRepository.ProgramID t)) (targets (db w)) = None ->
  let id := seq_targets (db w) + 1 in
  let created := TargetRepository.Create t w in
  let resolved :=
    GetOrCreateTarget (TargetRepository.Target_ t) tool
      (TargetRepository.ProgramID t) (snd created) in
  let deleted := TargetRepository.Delete id (snd created) in
  fst created = (None, TargetRepository.set_ID id t) /\
  fst resolved = inr id /\
  db (snd resolved) = db (snd created) /\
  fst (TargetRepository.Create t (snd created))
  = (Some (Sql.Driver ErrConstraint), t) /\
  fst deleted = None /\
  fst (TargetRepository.GetByID id (snd deleted))
  = inl (Sql.Driver ErrNoRows) /\
  fst (GetOrCreateTarget (TargetRepository.Target_ t) tool
         (TargetRepository.ProgramID t) (snd deleted)) = inr (id + 1).
Proof.
  intros C F id created resolved deleted.
  assert (E : exists w1 row,
             calm w1 /\ t_id row = id /\
             created
             = ((None, TargetRepository.set_ID id t),
                set_db (mkDB (programs (db w)) (targets (db w) ++ [row])
                          (recon_data (db w)) (seq_programs (db w)) id
                          (seq_recon_data (db w))) w1) /\
             target_keyed (TargetRepository.Target_ t)
               (TargetRepository.ProgramID t) row = true).
  { subst created. unfold TargetRepository.Create, bind.
    destruct (exec_calm (TargetRepository.insert t) w C)
      as (w1 & C1 & D1 & O1 & ->).
    unfold TargetRepository.insert.
    rewrite (proj1 (find_none_existsb _ _) F). cbv zeta. cbn [fst snd ret].
    eexists w1, _. split; [exact C1|]. split; [|split; [reflexivity|]].
    - reflexivity.
    - unfold target_keyed. simpl. now rewrite String.eqb_refl, Z.eqb_refl. }
  destruct E as (w1 & row & C1 & Rid & E & K).
  subst resolved deleted. rewrite E. clear E created. cbn [fst snd].
  set (d1 := mkDB (programs (db w)) (targets (db w) ++ [row])
               (recon_data (db w)) (seq_programs (db w)) id
               (seq_recon_data (db w))).
  assert (CW : forall d, calm (set_db d w1)) by (intros d; exact C1).
  assert (Frow : find (target_keyed (TargetRepository.Target_ t)
                         (TargetRepository.ProgramID t))
                   (targets d1) = Some row).
  { simpl. rewrite find_app_none by exact F. simpl. now rewrite K. }
  split; [reflexivity|].
  destruct (GetOrCreateTarget (TargetRepository.Target_ t) tool
              (TargetRepository.ProgramID t) (set_db d1 w1))
    as [r2 w2] eqn:E2.
  pose proof (GetOrCreateTarget_calm _ _ _ _ _ _ (CW d1) E2)
    as (_ & _ & _ & _ & H).
  change (db (set_db d1 w1)) with d1 in H. rewrite Frow in H.
  destruct H as (-> & D2). cbn [fst snd].
  split; [now rewrite Rid|]. split; [exact D2|]. split.
  - unfold TargetRepository.Create, bind.
    destruct (exec_calm (TargetRepository.insert t) _ (CW d1))
      as (w3 & C3 & D3 & O3 & ->).
    unfold TargetRepository.insert.
    change (db (set_db d1 w1)) with d1.
    now rewrite (existsb_find_some _ _ _ Frow).
  - unfold TargetRepository.Delete.
    destruct (run_calm (TargetRepository.delete id) _ (CW d1))
      as (w4 & C4 & D4 & O4 & ->).
    unfold TargetRepository.delete. cbn [fst snd].
    change (db (set_db d1 w1)) with d1.
    assert (CW4 : forall d, calm (set_db d w4)) by (intros d; exact C4).
    split; [reflexivity|]. split.
    + rewrite target_GetByID_calm by apply CW4. simpl.
      now rewrite (find_filter_out (TargetRepository.with_id id)).
    + rewrite GetOrCreateTarget_fresh; [reflexivity | apply CW4 |].
      simpl. rewrite filter_app. simpl.
      unfold TargetRepository.with_id at 2. rewrite Rid, Z.eqb_refl.
      simpl. rewrite app_nil_r.
      now apply find_filter_none.
Qed.

Lemma X21_repository_target_and_pipeline_witness :
  let t := TargetRepository.mkTarget 0 1 "10.0.0.1:8080" "host"
             (Sql.mkNullString "manual" true) true (Sql.mkNullTime 0 false)
             false (Sql.mkNullTime 0 false) (Sql.mkNullString "" false)
             (Sql.mkNullString "" false) 0 in
  let w := fresh_world [] [] in
  let created := TargetRepository.Create t w in
  calm w /\
  find (target_keyed "10.0.0.1:8080" 1) (targets (db w)) = None /\
  fst (GetOrCreateTarget "10.0.0.1:8080" "nmap" 1 (snd created)) = inr 1 /\
  map (fun r => (t_type r, t_source r, t_alive r))
      (targets (db (snd (GetOrCreateTarget "10.0.0.1:8080" "nmap" 1
                           (snd created)))))
  = [(Some "host", Some "manual", true)] /\
  fst (GetOrCreateTarget "10.0.0.1:8080" "nmap" 1
         (snd (TargetRepository.Delete 1 (snd created)))) = inr 2.
Proof.
  intros t w created.
  assert (C : calm w) by constructor.
  assert (F : find (target_keyed (TargetRepository.Target_ t)
                      (TargetRepository.ProgramID t)) (targets (db w))
              = None) by reflexivity.
  split; [exact C|]. split; [exact F|].
  destruct (X21_repository_target_and_pipeline t "nmap" w C F)
    as (_ & R & _ & _ & _ & _ & G).
  split; [exact R|]. split; [vm_compute; reflexivity | exact G].
Defined.

(** ** A terminal on standard input *)

Section Terminal.










End Terminal.
